(** * Insider Trading Tracker: Form 4 extraction and collection

    A shallow embedding of [parser.py] (the Form 4 transaction extractor)
    and of the parts of [scraper.py] that drive it (cache of the
    ticker/CIK map, document fetcher, paginated date-range search and
    the two collection strategies).

    Python floats are IEEE-754 binary64 values, modelled with Stdlib's
    [spec_float] at precision 53 and maximal exponent 1024; Python
    strings are Rocq [string]s of ASCII characters; Python dicts with
    string keys are stdpp [gmap]s. *)

From Stdlib Require Import ZArith String Ascii List Bool Lia.
From Stdlib Require Import Floats.SpecFloat.
From stdpp Require Import base gmap strings.
Import ListNotations.
Open Scope string_scope.
Open Scope Z_scope.

(** ** Python built-ins used by the code *)
Module Py.

(** binary64 *)
Definition float := spec_float.
Definition prec : Z := 53.
Definition emax : Z := 1024.

Definition fabs (x : float) : float := SFabs x.
Definition fneg (x : float) : float := SFopp x.
Definition fmul (x y : float) : float := SFmul prec emax x y.
Definition fsub (x y : float) : float := SFsub prec emax x y.
Definition flt (x y : float) : bool := SFltb x y.
Definition fle (x y : float) : bool := SFleb x y.
Definition fzero : float := S754_zero false.
Definition nan : float := S754_nan.

(** the float nearest to the integer [z] ([float(z)]) *)
Definition of_Z (z : Z) : float := binary_normalize prec emax z 0 false.

Definition is_nan (x : float) : bool :=
  match x with S754_nan => true | _ => false end.

(** ASCII characters for which [str.isspace] holds:
    \t \n \v \f \r, the separators \x1c-\x1f, and the space. *)
Definition is_space (c : ascii) : bool :=
  let n := nat_of_ascii c in
  (((9 <=? n) && (n <=? 13)) || ((28 <=? n) && (n <=? 32)))%nat.

Fixpoint lstrip (s : string) : string :=
  match s with
  | EmptyString => EmptyString
  | String c r => if is_space c then lstrip r else s
  end.

Definition rev_str (s : string) : string :=
  string_of_list_ascii (rev (list_ascii_of_string s)).

(** [s.strip()] *)
Definition strip (s : string) : string :=
  rev_str (lstrip (rev_str (lstrip s))).

(** every character is whitespace *)
Definition all_space (s : string) : bool := forallb is_space (list_ascii_of_string s).

Definition upper_char (c : ascii) : ascii :=
  let n := nat_of_ascii c in
  if ((97 <=? n) && (n <=? 122))%nat then ascii_of_nat (n - 32) else c.

Definition lower_char (c : ascii) : ascii :=
  let n := nat_of_ascii c in
  if ((65 <=? n) && (n <=? 90))%nat then ascii_of_nat (n + 32) else c.

Fixpoint map_str (f : ascii -> ascii) (s : string) : string :=
  match s with
  | EmptyString => EmptyString
  | String c r => String (f c) (map_str f r)
  end.

(** [s.upper()] and [s.lower()] on ASCII text *)
Definition upper (s : string) : string := map_str upper_char s.
Definition lower (s : string) : string := map_str lower_char s.

(** [s.replace(",", "")] *)
Fixpoint remove_commas (s : string) : string :=
  match s with
  | EmptyString => EmptyString
  | String c r =>
      if Ascii.eqb c "," then remove_commas r else String c (remove_commas r)
  end.

(** [sep.join(xs)] *)
Fixpoint join (sep : string) (xs : list string) : string :=
  match xs with
  | [] => ""
  | [x] => x
  | x :: r => x ++ sep ++ join sep r
  end.

(** *** [float(text)] on a [str]

    CPython accepts, after stripping whitespace, an optional sign
    followed by [inf], [infinity] or [nan] in any case, or by a decimal
    literal [digits[.digits][(e|E)[sign]digits]] with at least one
    mantissa digit, where single underscores may separate digits.
    The value is the decimal rounded to nearest, ties to even; any
    other text raises [ValueError], here [None]. *)

Definition is_digit (c : ascii) : bool :=
  let n := nat_of_ascii c in ((48 <=? n) && (n <=? 57))%nat.

Definition digit_val (c : ascii) : Z := Z.of_nat (nat_of_ascii c - 48)%nat.

(** the longest prefix made of digits and underscores *)
Fixpoint span_digits (l : list ascii) : list ascii * list ascii :=
  match l with
  | c :: r =>
      if is_digit c || Ascii.eqb c "_" then
        let '(g, rest) := span_digits r in (c :: g, rest)
      else ([], l)
  | [] => ([], [])
  end.

(** a digit group is empty or has a digit at both ends and no two
    adjacent underscores *)
Fixpoint group_ok_aux (prev_us : bool) (l : list ascii) : bool :=
  match l with
  | [] => negb prev_us
  | c :: r =>
      if Ascii.eqb c "_" then negb prev_us && group_ok_aux true r
      else group_ok_aux false r
  end.

Definition group_ok (g : list ascii) : bool :=
  match g with
  | [] => true
  | c :: _ => is_digit c && group_ok_aux false g
  end.

(** value and number of digits of a digit group *)
Fixpoint group_val_aux (acc : Z) (n : Z) (l : list ascii) : Z * Z :=
  match l with
  | [] => (acc, n)
  | c :: r =>
      if is_digit c then group_val_aux (acc * 10 + digit_val c) (n + 1) r
      else group_val_aux acc n r
  end.

Definition group_val (g : list ascii) : Z * Z := group_val_aux 0 0 g.

(** the float nearest to [(-1)^neg * m * 10^e] *)
Definition decimal_to_float (neg : bool) (m e : Z) : float :=
  if Z.eqb m 0 then S754_zero neg
  else if Z.ltb 400 e then S754_infinity neg
  else if Z.ltb e (- 400 - Z.log2 m) then S754_zero neg
  else if Z.leb 0 e then
    binary_normalize prec emax (if neg then - (m * 10 ^ e) else m * 10 ^ e) 0 neg
  else
    let '(mz, ez, lz) := SFdiv_core_binary prec emax m 0 (10 ^ (- e)) 0 in
    binary_round_aux prec emax neg mz ez lz.

Definition parse_exponent (l : list ascii) : option Z :=
  let '(neg, l1) :=
    match l with
    | c :: r => if Ascii.eqb c "-" then (true, r)
                else if Ascii.eqb c "+" then (false, r) else (false, l)
    | [] => (false, l)
    end in
  let '(g, rest) := span_digits l1 in
  match g, rest with
  | _ :: _, [] =>
      if group_ok g then
        let '(v, _) := group_val g in Some (if neg then - v else v)
      else None
  | _, _ => None
  end.

Definition parse_decimal (neg : bool) (l : list ascii) : option float :=
  let '(gi, r1) := span_digits l in
  let '(gf, r2, has_dot) :=
    match r1 with
    | c :: r => if Ascii.eqb c "." then
                  let '(g, r') := span_digits r in (g, r', true)
                else ([], r1, false)
    | [] => ([], r1, false)
    end in
  let oexp :=
    match r2 with
    | [] => Some 0%Z
    | c :: r => if Ascii.eqb c "e" || Ascii.eqb c "E" then parse_exponent r
                else None
    end in
  match oexp with
  | None => None
  | Some e =>
      if group_ok gi && group_ok gf
         && negb (Nat.eqb (length gi + length gf) 0) then
        let '(vi, _) := group_val gi in
        let '(vf, nf) := group_val gf in
        Some (decimal_to_float neg (vi * 10 ^ nf + vf) (e - nf))
      else None
  end.

Definition py_float (s : string) : option float :=
  let l := list_ascii_of_string (strip s) in
  let '(neg, body) :=
    match l with
    | c :: r => if Ascii.eqb c "-" then (true, r)
                else if Ascii.eqb c "+" then (false, r) else (false, l)
    | [] => (false, l)
    end in
  let word := lower (string_of_list_ascii body) in
  if String.eqb word "inf" || String.eqb word "infinity" then
    Some (S754_infinity neg)
  else if String.eqb word "nan" then Some S754_nan
  else parse_decimal neg body.

End Py.

Set Warnings "-register-all".

(** ** BeautifulSoup trees

    [BeautifulSoup(xml_content, "xml")] is the library's parse; the
    extractor only walks the resulting tree.  An element has a tag name
    and children; [find] returns the first element with the given name
    among the descendants in document order (the element itself
    excluded), [find_all] all of them, [text] the concatenated character
    data of the subtree.  A [Tag] is always truthy, a [ResultSet] is
    truthy when non-empty, so [a.find(x) or a.find(y)] falls back to [y]
    only when no [x] element exists. *)
Module Soup.

Inductive node :=
| Elem (name : string) (kids : list node)
| Txt (s : string).

Fixpoint descendants (n : node) : list node :=
  match n with
  | Txt _ => []
  | Elem _ kids => flat_map (fun k => k :: descendants k) kids
  end.

Definition has_name (name : string) (n : node) : bool :=
  match n with
  | Elem nm _ => String.eqb nm name
  | Txt _ => false
  end.

Definition find (n : node) (name : string) : option node :=
  List.find (has_name name) (descendants n).

Definition find_all (n : node) (name : string) : list node :=
  List.filter (has_name name) (descendants n).

Fixpoint text (n : node) : string :=
  match n with
  | Txt s => s
  | Elem _ kids =>
      (fix go (l : list node) : string :=
         match l with
         | [] => ""
         | k :: r => text k ++ go r
         end) kids
  end.

(** [n.find(a) or n.find(b)] *)
Definition find_or (n : node) (a b : string) : option node :=
  match find n a with
  | Some t => Some t
  | None => find n b
  end.

(** [n.find_all(a) or n.find_all(b)] *)
Definition find_all_or (n : node) (a b : string) : list node :=
  match find_all n a with
  | [] => find_all n b
  | l => l
  end.

(** the tree with every element named [a] renamed [b] *)
Fixpoint rename_tag (a b : string) (n : node) : node :=
  match n with
  | Txt s => Txt s
  | Elem nm kids => Elem (if String.eqb nm a then b else nm) (map (rename_tag a b) kids)
  end.

(** no element of the tree below [n] is named [b] *)
Definition no_elem (b : string) (n : node) : bool :=
  forallb (fun d => negb (has_name b d)) (descendants n).

End Soup.

(** ** parser.py *)
Module Parser.
Import Py Soup.

(** values stored in a transaction dict *)
Inductive pyval :=
| PStr (s : string)
| PNum (x : float).

(** Python truthiness of a stored value *)
Definition truthy (v : pyval) : bool :=
  match v with
  | PStr s => negb (String.eqb s "")
  | PNum (S754_zero _) => false
  | PNum _ => true
  end.

Abbreviation record := (gmap string pyval).

(** [d.update(kvs)] *)
Definition update (d : record) (kvs : list (string * pyval)) : record :=
  fold_left (fun acc kv => <[fst kv := snd kv]> acc) kvs d.

(** [config.TRANSACTION_CODES] *)
Definition TRANSACTION_CODES : list (string * string) :=
  [("P", "Purchase"); ("S", "Sale"); ("A", "Grant/Award");
   ("D", "Disposition (Gift)"); ("F", "Tax Withholding");
   ("M", "Option Exercise"); ("C", "Conversion"); ("G", "Gift");
   ("J", "Other"); ("K", "Equity Swap"); ("U", "Tender of Shares");
   ("W", "Will/Inheritance"); ("X", "Option Exercise (OTM)");
   ("Z", "Trust")].

(** [dict.get(k, default)] on a dict literal *)
Fixpoint dict_get (d : list (string * string)) (k default : string) : string :=
  match d with
  | [] => default
  | (k', v) :: r => if String.eqb k k' then v else dict_get r k default
  end.

(** [_to_float] *)
Definition to_float (text : string) : float :=
  match py_float (strip (remove_commas text)) with
  | Some x => x
  | None => fzero
  end.

(** [tag_name[0].upper() + tag_name[1:]] *)
Definition pascal (tag_name : string) : string :=
  match tag_name with
  | EmptyString => EmptyString
  | String c r => String (upper_char c) r
  end.

(** the first character is an ASCII lower-case letter, as in the
    lowerCamelCase tag names of a Form 4 *)
Definition lower_start (s : string) : bool :=
  match s with
  | EmptyString => false
  | String c _ => let n := nat_of_ascii c in ((97 <=? n) && (n <=? 122))%nat
  end.

(** [_get_text] *)
Definition get_text (parent : node) (tag_name : string) : string :=
  match find_or parent tag_name (pascal tag_name) with
  | Some tag => strip (text tag)
  | None => ""
  end.

(** [_get_bool] *)
Definition get_bool (parent : node) (tag_name : string) : bool :=
  let t := get_text parent tag_name in
  String.eqb t "1" || String.eqb t "true" || String.eqb t "True".

(** [val = tag.find("value") or tag.find("Value")] *)
Definition value_of (tag : node) : option node := find_or tag "value" "Value".

(** [_to_float(val.text if val else "0")] *)
Definition float_value (tag : node) : float :=
  to_float (match value_of tag with Some v => text v | None => "0" end).

(** the transaction code of a transaction line *)
Definition txn_code (txn : node) : string :=
  match find_or txn "transactionCoding" "TransactionCoding" with
  | Some coding =>
      match find_or coding "transactionCode" "TransactionCode" with
      | Some code_tag => strip (text code_tag)
      | None => ""
      end
  | None => ""
  end.

(** shares, price and acquired/disposed flag read from the amounts
    block, before the disposed normalisation *)
Definition txn_amounts (txn : node) : float * float * string :=
  match find_or txn "transactionAmounts" "TransactionAmounts" with
  | None => (fzero, fzero, "")
  | Some amounts =>
      let shares :=
        match find_or amounts "transactionShares" "TransactionShares" with
        | Some shares_tag => float_value shares_tag
        | None => fzero
        end in
      let price :=
        match find_or amounts "transactionPricePerShare" "TransactionPricePerShare" with
        | Some price_tag => float_value price_tag
        | None => fzero
        end in
      let acquired_disposed :=
        match find_or amounts "transactionAcquiredDisposedCode"
                "TransactionAcquiredDisposedCode" with
        | Some ad_tag =>
            match value_of ad_tag with
            | Some v => strip (text v)
            | None => ""
            end
        | None => ""
        end in
      (shares, price, acquired_disposed)
  end.

Definition txn_shares_after (txn : node) : float :=
  match find_or txn "postTransactionAmounts" "PostTransactionAmounts" with
  | Some post =>
      match find_or post "sharesOwnedFollowingTransaction"
              "SharesOwnedFollowingTransaction" with
      | Some held => float_value held
      | None => fzero
      end
  | None => fzero
  end.

Definition txn_ownership (txn : node) : string :=
  match find_or txn "ownershipNature" "OwnershipNature" with
  | Some ownership_tag =>
      match find_or ownership_tag "directOrIndirectOwnership"
              "DirectOrIndirectOwnership" with
      | Some do_tag =>
          match value_of do_tag with
          | Some v => strip (text v)
          | None => "D"
          end
      | None => "D"
      end
  | None => "D"
  end.

(** [if acquired_disposed == "D": shares = -abs(shares)] *)
Definition normalise_shares (acquired_disposed : string) (shares : float) : float :=
  if String.eqb acquired_disposed "D" then fneg (fabs shares) else shares.

(** [_parse_transaction]; [security_type] is unused, as in the code *)
Definition parse_transaction (txn : node) (security_type : string) : record :=
  let code := txn_code txn in
  let txn_type := dict_get TRANSACTION_CODES code code in
  let '(shares0, price, acquired_disposed) := txn_amounts txn in
  let shares_after := txn_shares_after txn in
  let ownership := txn_ownership txn in
  let ownership_display :=
    if String.eqb ownership "D" then "Direct" else "Indirect" in
  let shares := normalise_shares acquired_disposed shares0 in
  let total_value := fmul (fabs shares) price in
  update ∅
    [("transaction_code", PStr code);
     ("transaction_type", PStr txn_type);
     ("shares", PNum shares);
     ("price_per_share", PNum price);
     ("total_value", PNum total_value);
     ("shares_owned_after", PNum shares_after);
     ("ownership_type", PStr ownership_display)].

(** issuer block: company name, issuer CIK and ticker *)
Definition issuer_info (soup : node) : string * string * string :=
  match find_or soup "issuer" "Issuer" with
  | Some issuer =>
      let company :=
        match find_or issuer "issuerName" "IssuerName" with
        | Some name_tag => strip (text name_tag)
        | None => ""
        end in
      let issuer_cik :=
        match find_or issuer "issuerCik" "IssuerCik" with
        | Some cik_tag => strip (text cik_tag)
        | None => ""
        end in
      let ticker :=
        match find_or issuer "issuerTradingSymbol" "IssuerTradingSymbol" with
        | Some ticker_tag => upper (strip (text ticker_tag))
        | None => ""
        end in
      (company, issuer_cik, ticker)
  | None => ("", "", "")
  end.

(** the title list derived from the relationship block *)
Definition titles_of (rel : node) : list string :=
  (if get_bool rel "isDirector" then ["Director"] else [])
  ++ (if get_bool rel "isOfficer" then
        let officer_title := get_text rel "officerTitle" in
        [if String.eqb officer_title "" then "Officer" else officer_title]
      else [])
  ++ (if get_bool rel "isTenPercentOwner" then ["10% Owner"] else [])
  ++ (if get_bool rel "isOther" then
        let other_text := get_text rel "otherText" in
        [if String.eqb other_text "" then "Other" else other_text]
      else []).

(** reporting-owner block: insider name and title *)
Definition owner_info (soup : node) : string * string :=
  match find_or soup "reportingOwner" "ReportingOwner" with
  | Some owner_tag =>
      let insider_name :=
        match find_or owner_tag "reportingOwnerId" "ReportingOwnerId" with
        | Some owner_id =>
            match find_or owner_id "rptOwnerName" "RptOwnerName" with
            | Some name_tag => strip (text name_tag)
            | None => ""
            end
        | None => ""
        end in
      let insider_title :=
        match find_or owner_tag "reportingOwnerRelationship"
                "ReportingOwnerRelationship" with
        | Some rel => join ", " (titles_of rel)
        | None => ""
        end in
      (insider_name, insider_title)
  | None => ("", "")
  end.

(** the lines of one transaction table, each parsed and updated with
    the issuer and owner fields *)
Definition table_trades (soup : node) (table_a table_b txn_a txn_b kind : string)
    (extra : list (string * pyval)) : list record :=
  match find_or soup table_a table_b with
  | Some table =>
      map (fun txn => update (parse_transaction txn kind) extra)
          (find_all_or table txn_a txn_b)
  | None => []
  end.

(** the issuer and owner fields added to every line's record *)
Definition extra_fields (company ticker insider_name insider_title url : string)
    : list (string * pyval) :=
  [("company", PStr company); ("ticker", PStr ticker);
   ("insider_name", PStr insider_name);
   ("insider_title", PStr insider_title);
   ("filing_url", PStr url)].

(** [parse_form4_xml], on the parsed document *)
Definition parse_form4_xml (soup : node) (filing_url : string) : list record :=
  let '(company, issuer_cik, ticker) := issuer_info soup in
  let '(insider_name, insider_title) := owner_info soup in
  let extra := extra_fields company ticker insider_name insider_title filing_url in
  table_trades soup "nonDerivativeTable" "NonDerivativeTable"
    "nonDerivativeTransaction" "NonDerivativeTransaction" "Non-Derivative" extra
  ++ table_trades soup "derivativeTable" "DerivativeTable"
    "derivativeTransaction" "DerivativeTransaction" "Derivative" extra.

(** the transaction lines of one table, in the order [table_trades]
    visits them *)
Definition table_lines (soup : node) (table_a table_b txn_a txn_b : string) : list node :=
  match find_or soup table_a table_b with
  | Some table => find_all_or table txn_a txn_b
  | None => []
  end.

(** the transaction lines of the document, in the order of the records
    of [parse_form4_xml] *)
Definition txn_lines (soup : node) : list node :=
  table_lines soup "nonDerivativeTable" "NonDerivativeTable"
    "nonDerivativeTransaction" "NonDerivativeTransaction"
  ++ table_lines soup "derivativeTable" "DerivativeTable"
    "derivativeTransaction" "DerivativeTransaction".

End Parser.

(** ** scraper.py *)
Module Scraper.
Import Py Soup Parser.

(** JSON values as [json.loads] builds them; an object is the list of
    its entries (keys distinct, as in the dict [json.loads] returns) *)
Inductive json :=
| JNull
| JBool (b : bool)
| JInt (z : Z)
| JFloat (x : float)
| JStr (s : string)
| JArr (l : list json)
| JObj (o : list (string * json)).

(** truth value of a decoded JSON value *)
Definition json_truthy (v : json) : bool :=
  match v with
  | JNull => false
  | JBool b => b
  | JInt z => negb (Z.eqb z 0)
  | JFloat x => match x with S754_zero _ => false | _ => true end
  | JStr s => negb (String.eqb s "")
  | JArr l => match l with [] => false | _ => true end
  | JObj o => match o with [] => false | _ => true end
  end.

(** [d.get(k)] on a JSON object; [None] when [k] is absent *)
Fixpoint obj_lookup (o : list (string * json)) (k : string) : option json :=
  match o with
  | [] => None
  | (k', v) :: r => if String.eqb k k' then Some v else obj_lookup r k
  end.

(** [d.get(k, default)] on a JSON object *)
Fixpoint obj_get (o : list (string * json)) (k : string) (default : json) : json :=
  match o with
  | [] => default
  | (k', v) :: r => if String.eqb k k' then v else obj_get r k default
  end.

(** Outcome of a call that may raise an exception the caller does not
    catch *)
Inductive outcome (A : Type) :=
| Ok (a : A)
| Raised (exn : string).
Arguments Ok {A} a.
Arguments Raised {A} exn.

(** The observable effects of a run: [time.sleep], an HTTP GET of a URL,
    and a call of the progress callback *)
Inductive event :=
| EvSleep
| EvGet (url : string)
| EvProgress (completed total : nat).

(** What [session.get(url)] yields: a network-layer
    [requests.RequestException], or a final response (redirects already
    followed by requests) with its status code and decoded text *)
Inductive response :=
| NetError
| Resp (status : Z) (body : string).

(** [resp.raise_for_status()] raises [HTTPError] for 4xx and 5xx *)
Definition raise_for_status (status : Z) : bool :=
  (400 <=? status) && (status <? 600).

(** [fetch_form4_xml]; [None] is the failure marker *)
Definition fetch_form4_xml (net : string -> response) (url : string) : option string :=
  match net url with
  | NetError => None
  | Resp status body => if raise_for_status status then None else Some body
  end.

(** *** Identifier map cache: [fetch_ticker_to_cik_map] *)

Definition SEC_TICKERS_URL : string := "https://www.sec.gov/files/company_tickers.json".

(** [s.zfill(width)] *)
Definition zfill (width : nat) (s : string) : string :=
  let pad := String.length s in
  if (width <=? pad)%nat then s
  else
    let zeros := string_of_list_ascii (repeat "0"%char (width - pad)) in
    match s with
    | String c r =>
        if Ascii.eqb c "-" || Ascii.eqb c "+" then String c (zeros ++ r)
        else zeros ++ s
    | EmptyString => zeros
    end.

(** [mapping[k] = v] on a dict kept in insertion order *)
Fixpoint dict_set (d : list (string * string)) (k v : string) : list (string * string) :=
  match d with
  | [] => [(k, v)]
  | (k', v') :: r => if String.eqb k k' then (k, v) :: r else (k', v') :: dict_set r k v
  end.

Section Cache.
(** [json.loads], [json.dumps] and [str] on a JSON value *)
Variable json_load : string -> option json.
Variable json_dump : list (string * string) -> string.
Variable py_str : json -> string.

(** the loop over [raw.values()]: [entry["ticker"]] raises [TypeError]
    on an entry that is not a dict and [KeyError] when the key is
    absent, [.upper()] raises [AttributeError] on a ticker that is not
    a string, and [entry["cik_str"]] raises [KeyError] when absent *)
Fixpoint build_mapping (entries : list (string * json))
    (mapping : list (string * string)) : outcome (list (string * string)) :=
  match entries with
  | [] => Ok mapping
  | (_, JObj entry) :: r =>
      match obj_lookup entry "ticker" with
      | None => Raised "KeyError"
      | Some (JStr t) =>
          match obj_lookup entry "cik_str" with
          | None => Raised "KeyError"
          | Some cik_str =>
              build_mapping r (dict_set mapping (upper t) (zfill 10 (py_str cik_str)))
          end
      | Some _ => Raised "AttributeError"
      end
  | _ :: _ => Raised "TypeError"
  end.

Definition mapping_json (mapping : list (string * string)) : json :=
  JObj (map (fun kv => (fst kv, JStr (snd kv))) mapping).

(** [with open(cache_path, "w") as f: json.dump(mapping, f)]: both
    succeed; [open] raises [OSError] and the file is untouched; or
    [open] truncates the file and the write raises [OSError] once the
    first [n] characters of the dump reached it *)
Inductive write_result :=
| WriteOk
| OpenFail
| WriteFail (n : nat).

(** [fetch_ticker_to_cik_map] at clock reading [now], with the cache
    file [cache] (modification time and contents, if it exists) and the
    outcome [w] of its cache write; returns the result, the events and
    the cache file afterwards.  [os.makedirs(CACHE_DIR, exist_ok=True)]
    is taken to succeed. *)
Definition fetch_ticker_to_cik_map (net : string -> response) (now : float)
    (w : write_result) (cache : option (float * string))
    : outcome json * list event * option (float * string) :=
  let fresh :=
    match cache with
    | Some (mtime, contents) =>
        if flt (fsub now mtime) (of_Z 86400) then Some contents else None
    | None => None
    end in
  match fresh with
  | Some contents =>
      match json_load contents with
      | Some v => (Ok v, [], cache)
      | None => (Raised "JSONDecodeError", [], cache)
      end
  | None =>
      let evs := [EvGet SEC_TICKERS_URL] in
      match net SEC_TICKERS_URL with
      | NetError => (Raised "RequestException", evs, cache)
      | Resp status body =>
          if raise_for_status status then (Raised "HTTPError", evs, cache)
          else
            match json_load body with
            | None => (Raised "JSONDecodeError", evs, cache)
            | Some (JObj raw) =>
                match build_mapping raw [] with
                | Ok mapping =>
                    match w with
                    | WriteOk =>
                        (Ok (mapping_json mapping), evs, Some (now, json_dump mapping))
                    | OpenFail => (Raised "OSError", evs, cache)
                    | WriteFail n =>
                        (Raised "OSError", evs,
                         Some (now, String.substring 0 n (json_dump mapping)))
                    end
                | Raised e => (Raised e, evs, cache)
                end
            | Some _ => (Raised "AttributeError", evs, cache)
            end
      end
  end.
End Cache.

(** *** Paginated date-range search: the loop of
    [search_form4_filings_by_date] *)

(** One EFTS page: a [RequestException] (the loop breaks), an exception
    from a body of another shape (it propagates), or the body's
    [hits.hits] list and [hits.total.value] *)
Inductive page (H : Type) :=
| PageFail
| PageRaise
| PageOk (hits : list H) (total : Z).
Arguments PageFail {H}.
Arguments PageRaise {H}.
Arguments PageOk {H} hits total.

Inductive loop_end := LoopBreak | LoopRaise.

(** [while offset < max_filings: ...]; the requests issued are recorded
    as [(from, size)].  [fuel] bounds the iterations; [search_loop_total]
    shows that [max_filings - offset + 1] always suffices. *)
Fixpoint search_loop {H} (fuel : nat) (server : Z -> Z -> page H)
    (max_filings offset : Z) (all_hits : list H) (reqs : list (Z * Z))
    : option (loop_end * list H * list (Z * Z)) :=
  match fuel with
  | O => None
  | S fuel' =>
      if offset <? max_filings then
        let size := Z.min 100 (max_filings - offset) in
        let reqs' := (reqs ++ [(offset, size)])%list in
        match server offset size with
        | PageFail => Some (LoopBreak, all_hits, reqs')
        | PageRaise => Some (LoopRaise, all_hits, reqs')
        | PageOk [] _ => Some (LoopBreak, all_hits, reqs')
        | PageOk hits total =>
            let all_hits' := (all_hits ++ hits)%list in
            if total <=? offset + Z.of_nat (length hits) then
              Some (LoopBreak, all_hits', reqs')
            else
              search_loop fuel' server max_filings
                (offset + Z.of_nat (length hits)) all_hits' reqs'
        end
      else Some (LoopBreak, all_hits, reqs)
  end.

(** the loop as run by [search_form4_filings_by_date] *)
Definition search_pages {H} (server : Z -> Z -> page H) (max_filings : Z)
    : option (loop_end * list H * list (Z * Z)) :=
  search_loop (S (Z.to_nat max_filings)) server max_filings 0 [] [].

(** *** Collection strategies *)

(** a filing reference of the date-range search *)
Record filing_ref := {
  fr_url : string;
  fr_ticker : string;
  fr_company : string;
  fr_filing_date : string }.

(** a filing of [fetch_form4_filings_for_cik] *)
Record wl_filing := {
  wf_accession : string;
  wf_filing_date : string;
  wf_doc : string;
  wf_url : string;
  wf_ticker : string }.

(** [not trade.get(k)] is false *)
Definition get_truthy (d : record) (k : string) : bool :=
  match d !! k with
  | Some v => truthy v
  | None => false
  end.

(** the update of one trade in [collect_all_form4_by_date] *)
Definition fill_from_filing (filing : filing_ref) (trade : record) : record :=
  let t1 :=
    if negb (get_truthy trade "ticker") && negb (String.eqb (fr_ticker filing) "")
    then <["ticker" := PStr (fr_ticker filing)]> trade else trade in
  let t2 :=
    if negb (get_truthy t1 "company") && negb (String.eqb (fr_company filing) "")
    then <["company" := PStr (fr_company filing)]> t1 else t1 in
  <["filing_date" := PStr (fr_filing_date filing)]> t2.

(** the update of one trade in the watchlist branch of
    [collect_insider_trades] *)
Definition set_from_filing (ticker : string) (filing : wl_filing) (trade : record) : record :=
  <["filing_date" := PStr (wf_filing_date filing)]> (<["ticker" := PStr ticker]> trade).

Definition SEC_FILING_BASE : string := "https://www.sec.gov/Archives/edgar/data".
Definition SEC_SUBMISSIONS_URL (cik : string) : string :=
  "https://data.sec.gov/submissions/CIK" ++ cik ++ ".json".

(** [s.replace("-", "")] *)
Fixpoint remove_dashes (s : string) : string :=
  match s with
  | EmptyString => EmptyString
  | String c r =>
      if Ascii.eqb c "-" then remove_dashes r else String c (remove_dashes r)
  end.

(** the parallel arrays of [data["filings"]["recent"]] *)
Record recent := {
  forms : list string;
  accessions : list string;
  filing_dates : list string;
  documents : list string }.

(** the submissions request: a [RequestException] (the ticker is
    skipped), another exception (it propagates), or the decoded arrays *)
Inductive sub_response :=
| SubFail
| SubRaise
| SubOk (r : recent).

(** the loop of [fetch_form4_filings_for_cik]; [None] is an
    [IndexError] *)
Fixpoint form4_filings (i : nat) (fs : list string) (r : recent)
    (cik ticker : string) : option (list wl_filing) :=
  match fs with
  | [] => Some []
  | form :: rest =>
      let tail := form4_filings (S i) rest r cik ticker in
      if String.eqb form "4" then
        match nth_error (accessions r) i, nth_error (documents r) i,
              nth_error (filing_dates r) i with
        | Some acc, Some doc, Some date =>
            let filing_url :=
              SEC_FILING_BASE ++ "/" ++ cik ++ "/" ++ remove_dashes acc ++ "/" ++ doc in
            option_map (cons {| wf_accession := acc; wf_filing_date := date;
                                wf_doc := doc; wf_url := filing_url;
                                wf_ticker := ticker |}) tail
        | _, _, _ => None
        end
      else tail
  end.

(** [l[:m]] *)
Definition slice_upto {A} (l : list A) (m : Z) : list A :=
  if 0 <=? m then firstn (Z.to_nat m) l
  else firstn (Z.to_nat (Z.of_nat (length l) + m)) l.

(** one step of the loop over [hits[:50]] in latest mode:
    [hit.get("_source", {})] and [source.get("file_num", "")] raise
    [AttributeError] unless both are dicts *)
Definition hit_ok (h : json) : bool :=
  match h with
  | JObj o => match obj_get o "_source" (JObj []) with JObj _ => true | _ => false end
  | _ => false
  end.

Fixpoint scan_hits (hs : list json) : outcome unit :=
  match hs with
  | [] => Ok tt
  | h :: r => if hit_ok h then scan_hits r else Raised "AttributeError"
  end.

Section Collect.
(** [BeautifulSoup(xml, "xml")] *)
Variable soup_of : string -> node.
(** [session.get] *)
Variable net : string -> response.
Variable sub_net : string -> sub_response.
(** [resp.json()] and [json.load]; [None] is a [JSONDecodeError], which
    requests makes a [RequestException] *)
Variable json_load : string -> option json.
Variable json_dump : list (string * string) -> string.
(** [str] on a JSON value *)
Variable py_str : json -> string.
(** the exception raised by slicing a dict, [hits[:50]]: [TypeError]
    (unhashable slice) before Python 3.12, [KeyError] from 3.12 on *)
Variable dict_slice_exn : string.

(** the [try] body of latest mode after [data = resp.json()]: [Ok]
    when it completes, else the exception it raises; [len(hits)] raises
    [TypeError] on a number, a boolean or [None] *)
Definition latest_scan (data : json) : outcome unit :=
  match data with
  | JObj o =>
      match obj_get o "hits" (JObj []) with
      | JObj o2 =>
          match obj_get o2 "hits" (JArr []) with
          | JArr hs => scan_hits (firstn 50 hs)
          | JStr s => if String.eqb s "" then Ok tt else Raised "AttributeError"
          | JObj _ => Raised dict_slice_exn
          | _ => Raised "TypeError"
          end
      | _ => Raised "AttributeError"
      end
  | _ => Raised "AttributeError"
  end.

(** the loop of [collect_all_form4_by_date] from filing [i] on;
    [cb] is whether a (truthy) progress callback was passed *)
Fixpoint date_loop (cb : bool) (total i : nat) (filings : list filing_ref)
    : list record * list event :=
  match filings with
  | [] => ([], [])
  | filing :: rest =>
      let evs := ((if cb then [EvProgress i total] else [])
                  ++ [EvSleep; EvGet (fr_url filing)])%list in
      let trades :=
        match fetch_form4_xml net (fr_url filing) with
        | None => []
        | Some xml =>
            map (fill_from_filing filing)
              (parse_form4_xml (soup_of xml) (fr_url filing))
        end in
      let '(ts, evs') := date_loop cb total (S i) rest in
      ((trades ++ ts)%list, (evs ++ evs')%list)
  end.

(** [collect_all_form4_by_date], after its call of
    [search_form4_filings_by_date] returned [filings] *)
Definition collect_all_form4_by_date (cb : bool) (filings : list filing_ref)
    : list record * list event :=
  match filings with
  | [] => ([], [])
  | _ :: _ =>
      let total := length filings in
      let '(ts, evs) := date_loop cb total 0 filings in
      (ts, (evs ++ (if cb then [EvProgress total total] else []))%list)
  end.

Fixpoint watch_filings (ticker : string) (filings : list wl_filing)
    : list record * list event :=
  match filings with
  | [] => ([], [])
  | filing :: rest =>
      let evs := [EvSleep; EvGet (wf_url filing)] in
      let trades :=
        match fetch_form4_xml net (wf_url filing) with
        | None => []
        | Some xml =>
            map (set_from_filing ticker filing)
              (parse_form4_xml (soup_of xml) (wf_url filing))
        end in
      let '(ts, evs') := watch_filings ticker rest in
      ((trades ++ ts)%list, (evs ++ evs')%list)
  end.

(** the watchlist branch of [collect_insider_trades]; [cik_map ticker]
    is [cik_map.get(ticker)] when it is truthy, as a string *)
Fixpoint collect_watchlist (cik_map : string -> option string)
    (tickers : list string) (max_filings_per_ticker : Z)
    : outcome (list record) * list event :=
  match tickers with
  | [] => (Ok [], [])
  | t :: rest =>
      let ticker := upper t in
      let '(here, evs) :=
        match cik_map ticker with
        | None => (Ok [], [])
        | Some cik =>
            if String.eqb cik "" then (Ok [], [])
            else
              let url := SEC_SUBMISSIONS_URL cik in
              match sub_net url with
              | SubFail => (Ok [], [EvSleep; EvGet url])
              | SubRaise => (Raised "exception", [EvSleep; EvGet url])
              | SubOk r =>
                  match form4_filings 0 (forms r) r cik ticker with
                  | None => (Raised "IndexError", [EvSleep; EvGet url])
                  | Some fs =>
                      let '(ts, evs) :=
                        watch_filings ticker (slice_upto fs max_filings_per_ticker) in
                      (Ok ts, EvSleep :: EvGet url :: evs)
                  end
              end
        end in
      match here with
      | Raised e => (Raised e, evs)
      | Ok ts =>
          let '(o, evs') := collect_watchlist cik_map rest max_filings_per_ticker in
          (match o with
           | Ok ts' => Ok (ts ++ ts')%list
           | Raised e => Raised e
           end, (evs ++ evs')%list)
      end
  end.

(** [cik_map.get(ticker)] on the dict returned by
    [fetch_ticker_to_cik_map], with [if not cik: continue]; a truthy CIK
    that is not a string enters the URLs as [str(cik)] *)
Definition cik_lookup (o : list (string * json)) (ticker : string) : option string :=
  match obj_lookup o ticker with
  | Some v =>
      if json_truthy v then Some (match v with JStr s => s | _ => py_str v end)
      else None
  | None => None
  end.

(** the watchlist branch on the loaded map; [cik_map.get] raises
    [AttributeError] when the map is not a dict *)
Definition watchlist_run (cik_map : json) (tickers : list string)
    (max_filings_per_ticker : Z) : outcome (list record) * list event :=
  match cik_map with
  | JObj o => collect_watchlist (cik_lookup o) tickers max_filings_per_ticker
  | _ =>
      match tickers with
      | [] => (Ok [], [])
      | _ :: _ => (Raised "AttributeError", [])
      end
  end.

(** one call of [collect_insider_trades(tickers, mode,
    max_filings_per_ticker)] after the defaults of [mode] and [tickers]
    are resolved, at clock reading [now] with cache write outcome [w] for
    its call of [fetch_ticker_to_cik_map] and cache file [cache];
    [search_url] is the EFTS query built from today's date, and
    [recurse cache' tickers] is the call
    [collect_insider_trades(tickers=tickers, mode="watchlist")] of the
    latest branch's [except] clause *)
Definition collect_call
    (recurse : option (float * string) -> list string ->
               outcome (list record) * list event * option (float * string))
    (now : float) (w : write_result) (cache : option (float * string))
    (tickers : list string) (mode : string) (max_filings_per_ticker : Z)
    (search_url : string)
    : outcome (list record) * list event * option (float * string) :=
  let '(om, evm, cache1) :=
    fetch_ticker_to_cik_map json_load json_dump py_str net now w cache in
  match om with
  | Raised e => (Raised e, evm, cache1)
  | Ok cik_map =>
      if String.eqb mode "watchlist" then
        let '(o, evs) := watchlist_run cik_map tickers max_filings_per_ticker in
        (o, (evm ++ evs)%list, cache1)
      else if String.eqb mode "latest" then
        let evs := (evm ++ [EvGet search_url])%list in
        let fallback :=
          let '(o, evs', cache2) := recurse cache1 tickers in
          (o, (evs ++ evs')%list, cache2) in
        match net search_url with
        | NetError => fallback
        | Resp status body =>
            if raise_for_status status then fallback
            else
              match json_load body with
              | None => fallback
              | Some data =>
                  match latest_scan data with
                  | Ok _ => (Ok [], evs, cache1)
                  | Raised e => (Raised e, evs, cache1)
                  end
              end
        end
      else (Ok [], evm, cache1)
  end.

(** [collect_insider_trades]: [now1] and [w1] are the clock reading and
    cache write outcome of its own call of [fetch_ticker_to_cik_map],
    [now2] and [w2] those of the call made by the watchlist run the
    latest branch falls back to, which gets the default
    [max_filings_per_ticker] of 10 (a watchlist run never falls back) *)
Definition collect_insider_trades (now1 now2 : float) (w1 w2 : write_result)
    (cache : option (float * string)) (tickers : list string) (mode : string)
    (max_filings_per_ticker : Z) (search_url : string)
    : outcome (list record) * list event * option (float * string) :=
  collect_call
    (fun cache' tickers' =>
       collect_call (fun c _ => (Ok [], [], c)) now2 w2 cache' tickers' "watchlist" 10
         search_url)
    now1 w1 cache tickers mode max_filings_per_ticker search_url.

End Collect.

End Scraper.

(** ** Views of a run used in the statements below *)
Module Views.
Import Py Soup Parser Scraper.

Section Contributions.
Variable soup_of : string -> node.
Variable net : string -> response.

(** what one date-range filing contributes *)
Definition date_contribution (filing : filing_ref) : list record :=
  match fetch_form4_xml net (fr_url filing) with
  | None => []
  | Some xml => map (fill_from_filing filing) (parse_form4_xml (soup_of xml) (fr_url filing))
  end.

(** what one watchlist filing contributes *)
Definition watch_contribution (ticker : string) (filing : wl_filing) : list record :=
  match fetch_form4_xml net (wf_url filing) with
  | None => []
  | Some xml => map (set_from_filing ticker filing) (parse_form4_xml (soup_of xml) (wf_url filing))
  end.

End Contributions.

(** a search request [(from, size)] asks for 1 to 100 hits *)
Definition size_ok (req : Z * Z) : Prop := 0 < snd req <= 100.

(** an event that is not a progress callback *)
Definition quiet (e : event) : Prop :=
  match e with EvProgress _ _ => False | _ => True end.

End Views.

(** ** Regular expressions of the [re] module used by the code

    Each pattern is matched at a given position by a function returning
    what follows the match.  In the patterns used, a greedy repetition
    is always followed by a token that cannot match a character of the
    repeated class, so backtracking into the repetition never yields
    another match and the maximal run is the only candidate. *)
Module Re.
Import Py.

(** the longest prefix of [s] whose characters satisfy [p], and the rest *)
Fixpoint span (p : ascii -> bool) (s : string) : string * string :=
  match s with
  | EmptyString => (EmptyString, EmptyString)
  | String c r =>
      if p c then let '(a, b) := span p r in (String c a, b) else (EmptyString, s)
  end.

(** [s] without the literal prefix [pre], if it starts with it *)
Fixpoint strip_prefix (pre s : string) : option string :=
  match pre, s with
  | EmptyString, _ => Some s
  | String c p, String d r => if Ascii.eqb c d then strip_prefix p r else None
  | String _ _, EmptyString => None
  end.

(** the first alternative that succeeds *)
Definition first_some {A} (l : list (option A)) : option A :=
  fold_right (fun o acc => match o with Some x => Some x | None => acc end) None l.

(** [re.sub(pattern, repl, s)] for a pattern that never matches the
    empty string: [m s] is [Some rest] when the pattern matches at the
    start of [s] and leaves [rest]; scanning resumes after the match,
    or one character further when there is none *)
Fixpoint re_sub_aux (fuel : nat) (m : string -> option string) (repl s : string) : string :=
  match fuel with
  | O => s
  | S f =>
      match m s with
      | Some rest => repl ++ re_sub_aux f m repl rest
      | None =>
          match s with
          | EmptyString => EmptyString
          | String c r => String c (re_sub_aux f m repl r)
          end
      end
  end.

(** every match consumes at least one character, so [length s + 1]
    steps reach the end of [s] *)
Definition re_sub (m : string -> option string) (repl s : string) : string :=
  re_sub_aux (S (String.length s)) m repl s.

End Re.

(** ** The hit list of [search_form4_filings_by_date] (its second stage)
    and [_extract_ticker_from_display_name] *)
Module SearchHits.
Import Py Scraper Re.

(** [[A-Z]] *)
Definition is_upper (c : ascii) : bool :=
  let n := nat_of_ascii c in ((65 <=? n) && (n <=? 90))%nat.

(** exactly [k] characters of [[A-Z]] at the start of [s] *)
Fixpoint take_upper (k : nat) (s : string) : option (string * string) :=
  match k with
  | O => Some (EmptyString, s)
  | S k' =>
      match s with
      | String c r =>
          if is_upper c then
            match take_upper k' r with
            | Some (g, rest) => Some (String c g, rest)
            | None => None
            end
          else None
      | EmptyString => None
      end
  end.

(** [\(([A-Z]{1,5})\)] at the start of [s]: its group.  The greedy
    [{1,5}] tries five letters first, then four, ..., then one. *)
Definition ticker_at (s : string) : option string :=
  match s with
  | String c r =>
      if Ascii.eqb c "(" then
        first_some
          (map (fun k =>
                  match take_upper k r with
                  | Some (g, String d _) => if Ascii.eqb d ")" then Some g else None
                  | _ => None
                  end) [5; 4; 3; 2; 1]%nat)
      else None
  | EmptyString => None
  end.

(** [re.search]: the match at the first position where there is one *)
Fixpoint search_ticker (s : string) : option string :=
  match ticker_at s with
  | Some g => Some g
  | None =>
      match s with
      | EmptyString => None
      | String _ r => search_ticker r
      end
  end.

(** predicates on strings used in the statements below *)
Definition all_upper (s : string) : bool := forallb is_upper (list_ascii_of_string s).
Definition has_char (c : ascii) (s : string) : bool :=
  existsb (Ascii.eqb c) (list_ascii_of_string s).

(** [_extract_ticker_from_display_name] *)
Definition extract_ticker_from_display_name (name : string) : string :=
  match search_ticker name with
  | Some g => g
  | None => ""
  end.

(** [\s*\(CIK\s+\d+\)\s*$] at the start of [s].  [$] holds at the end
    of the string or before a final newline; the final [\s*] has then
    consumed that newline, so the match must reach the end. *)
Definition cik_suffix_at (s : string) : option string :=
  let '(_, r1) := span is_space s in
  match strip_prefix "(CIK" r1 with
  | None => None
  | Some r2 =>
      let '(ws, r3) := span is_space r2 in
      let '(ds, r4) := span is_digit r3 in
      match ws, ds, r4 with
      | String _ _, String _ _, String c r5 =>
          if Ascii.eqb c ")" then
            match span is_space r5 with
            | (_, EmptyString) => Some EmptyString
            | _ => None
            end
          else None
      | _, _, _ => None
      end
  end.

(** [\s*\( + re.escape(ticker) + \)\s*] at the start of [s]; the
    escaped ticker matches the ticker literally *)
Definition ticker_paren_at (ticker s : string) : option string :=
  let '(_, r1) := span is_space s in
  match strip_prefix ("(" ++ ticker ++ ")") r1 with
  | Some r2 => Some (snd (span is_space r2))
  | None => None
  end.

(** the company of a hit: [display_names[1]] without its [(CIK ...)]
    suffix and, when a ticker was found, without [(TICKER)] *)
Definition clean_company (company_raw ticker : string) : string :=
  let company := re_sub cik_suffix_at "" company_raw in
  if String.eqb ticker "" then company
  else strip (re_sub (ticker_paren_at ticker) " " company).

(** [ciks[0].lstrip("0")] on a string *)
Fixpoint lstrip_zeros (s : string) : string :=
  match s with
  | String c r => if Ascii.eqb c "0" then lstrip_zeros r else s
  | EmptyString => s
  end.

Fixpoint has_colon (s : string) : bool :=
  match s with
  | String c r => Ascii.eqb c ":" || has_colon r
  | EmptyString => false
  end.

(** [s.split(":", 1)] on a string that contains [":"] *)
Fixpoint split_colon (s : string) : string * string :=
  match s with
  | EmptyString => (EmptyString, EmptyString)
  | String c r =>
      if Ascii.eqb c ":" then (EmptyString, r)
      else let '(a, b) := split_colon r in (String c a, b)
  end.

(** [":" in v] *)
Definition json_contains_colon (v : json) : outcome bool :=
  match v with
  | JStr s => Ok (has_colon s)
  | JArr l => Ok (existsb (fun x => match x with JStr s => String.eqb s ":" | _ => false end) l)
  | JObj o => Ok (existsb (fun kv => String.eqb (fst kv) ":") o)
  | _ => Raised "TypeError"
  end.

(** [v[i]] with an int index; JSON object keys are strings, so an int
    key is never found *)
Definition json_index (v : json) (i : nat) : outcome json :=
  match v with
  | JArr l => match nth_error l i with Some x => Ok x | None => Raised "IndexError" end
  | JStr s => match String.get i s with
              | Some c => Ok (JStr (String c EmptyString))
              | None => Raised "IndexError"
              end
  | JObj _ => Raised "KeyError"
  | _ => Raised "TypeError"
  end.

(** [len(v)] *)
Definition json_len (v : json) : outcome nat :=
  match v with
  | JStr s => Ok (String.length s)
  | JArr l => Ok (length l)
  | JObj o => Ok (length o)
  | _ => Raised "TypeError"
  end.

Definition ARCHIVES_URL : string := "https://www.sec.gov/Archives/edgar/data/".

(** one dict appended to [filings] *)
Record search_filing := {
  sf_url : string;
  sf_ticker : string;
  sf_company : string;
  sf_filing_date : json;
  sf_accession : string }.

(** display name of a hit: company and ticker *)
Definition hit_names (src : list (string * json)) : outcome (string * string) :=
  let display_names := obj_get src "display_names" (JArr []) in
  match json_len display_names with
  | Raised e => Raised e
  | Ok n =>
      if (2 <=? n)%nat then
        match json_index display_names 1 with
        | Raised e => Raised e
        | Ok (JStr company_raw) =>
            let ticker := extract_ticker_from_display_name company_raw in
            Ok (clean_company company_raw ticker, ticker)
        | Ok _ => Raised "TypeError"
        end
      else Ok ("", "")
  end.

(** one iteration of the loop over [all_hits]: [Ok None] for
    [continue], [Ok (Some f)] for an appended filing *)
Definition hit_filing (hit : json) : outcome (option search_filing) :=
  match hit with
  | JObj h =>
      let id := obj_get h "_id" (JStr "") in
      let src := obj_get h "_source" (JObj []) in
      match json_contains_colon id with
      | Raised e => Raised e
      | Ok false => Ok None
      | Ok true =>
          match id with
          | JStr s =>
              let '(accession, filename) := split_colon s in
              let accession_nodash := remove_dashes accession in
              match src with
              | JObj so =>
                  let ciks := obj_get so "ciks" (JArr []) in
                  if negb (json_truthy ciks) then Ok None
                  else
                    match json_index ciks 0 with
                    | Raised e => Raised e
                    | Ok (JStr c0) =>
                        let cik := lstrip_zeros c0 in
                        let xml_url :=
                          ARCHIVES_URL ++ cik ++ "/" ++ accession_nodash ++ "/" ++ filename in
                        match hit_names so with
                        | Raised e => Raised e
                        | Ok (company, ticker) =>
                            Ok (Some {| sf_url := xml_url; sf_ticker := ticker;
                                        sf_company := company;
                                        sf_filing_date := obj_get so "file_date" (JStr "");
                                        sf_accession := accession |})
                        end
                    | Ok _ => Raised "AttributeError"
                    end
              | _ => Raised "AttributeError"
              end
          | _ => Raised "AttributeError"
          end
      end
  | _ => Raised "AttributeError"
  end.

(** the second stage of [search_form4_filings_by_date] *)
Fixpoint hits_to_filings (hits : list json) : outcome (list search_filing) :=
  match hits with
  | [] => Ok []
  | hit :: rest =>
      match hit_filing hit with
      | Raised e => Raised e
      | Ok o =>
          match hits_to_filings rest with
          | Raised e => Raised e
          | Ok fs => Ok (match o with Some f => f :: fs | None => fs end)
          end
      end
  end.

End SearchHits.

(** ** main.py *)
Module MainCli.
Import Py Parser Scraper Re.

(** *** [datetime.strptime(s, "%Y-%m-%d")]

    [_strptime] matches [s] with [re.match] against the regex
    [(?P<Y>\d\d\d\d)-(?P<m>1[0-2]|0[1-9]|[1-9])-(?P<d>3[01]|[12]\d|0[1-9]|[1-9]| [1-9])],
    raises [ValueError] when it does not match or leaves unconverted
    characters, and then when the year is 0 or the day is past the end
    of the month. *)

Definition in_range (c : ascii) (lo hi : nat) : bool :=
  ((lo <=? nat_of_ascii c) && (nat_of_ascii c <=? hi))%nat.

(** [\d\d\d\d] *)
Definition match_Y (s : string) : option (Z * string) :=
  match s with
  | String a (String b (String c (String d r))) =>
      if is_digit a && is_digit b && is_digit c && is_digit d then
        Some (digit_val a * 1000 + digit_val b * 100 + digit_val c * 10 + digit_val d, r)
      else None
  | _ => None
  end.

(** [1[0-2]|0[1-9]|[1-9]]: the alternatives that match, in the order
    the engine tries them, with their value and what follows *)
Definition match_m (s : string) : list (Z * string) :=
  (match s with
   | String a (String b r) =>
       if Ascii.eqb a "1" && in_range b 48 50 then [(10 + digit_val b, r)] else []
   | _ => []
   end)
  ++ (match s with
      | String a (String b r) =>
          if Ascii.eqb a "0" && in_range b 49 57 then [(digit_val b, r)] else []
      | _ => []
      end)
  ++ (match s with
      | String a r => if in_range a 49 57 then [(digit_val a, r)] else []
      | _ => []
      end).

(** [3[01]|[12]\d|0[1-9]|[1-9]| [1-9]]; [int(" 5")] is 5 *)
Definition match_d (s : string) : list (Z * string) :=
  (match s with
   | String a (String b r) =>
       if Ascii.eqb a "3" && in_range b 48 49 then [(30 + digit_val b, r)] else []
   | _ => []
   end)
  ++ (match s with
      | String a (String b r) =>
          if in_range a 49 50 && is_digit b then [(10 * digit_val a + digit_val b, r)] else []
      | _ => []
      end)
  ++ (match s with
      | String a (String b r) =>
          if Ascii.eqb a "0" && in_range b 49 57 then [(digit_val b, r)] else []
      | _ => []
      end)
  ++ (match s with
      | String a r => if in_range a 49 57 then [(digit_val a, r)] else []
      | _ => []
      end)
  ++ (match s with
      | String a (String b r) =>
          if Ascii.eqb a " " && in_range b 49 57 then [(digit_val b, r)] else []
      | _ => []
      end).

(** [re.match]: the first successful path through the alternatives;
    the day group ends the pattern, so its first alternative that
    matches is taken *)
Definition match_format (s : string) : option (Z * Z * Z * string) :=
  match match_Y s with
  | Some (y, String h r1) =>
      if Ascii.eqb h "-" then
        first_some
          (map (fun mr =>
                  match snd mr with
                  | String h' r3 =>
                      if Ascii.eqb h' "-" then
                        match match_d r3 with
                        | (d, r4) :: _ => Some (y, fst mr, d, r4)
                        | [] => None
                        end
                      else None
                  | EmptyString => None
                  end) (match_m r1))
      else None
  | _ => None
  end.

Definition is_leap (y : Z) : bool :=
  (y mod 4 =? 0) && (negb (y mod 100 =? 0) || (y mod 400 =? 0)).

Definition days_in_month (y m : Z) : Z :=
  if m =? 2 then (if is_leap y then 29 else 28)
  else if (m =? 4) || (m =? 6) || (m =? 9) || (m =? 11) then 30
  else 31.

(** the parsed date, or [None] for the [ValueError] *)
Definition strptime_ymd (s : string) : option (Z * Z * Z) :=
  match match_format s with
  | None => None
  | Some (y, m, d, rest) =>
      if negb (String.eqb rest "") then None
      else if (1 <=? y) && (d <=? days_in_month y m) then Some (y, m, d)
      else None
  end.

(** *** [main()] *)

(** the parsed command line: [--date], [--mode] (one of the choices, or
    absent), [--tickers] ([nargs="+"]) and [--max-filings] *)
Record args := {
  arg_date : option string;
  arg_mode : option string;
  arg_tickers : option (list string);
  arg_max_filings : Z }.

(** the calls [main] makes *)
Inductive call :=
| CallCollect (tickers : option (list string)) (mode : string) (max_filings_per_ticker : Z)
| CallSave (file_path title date_str : string).

Definition COLLECT_MODE : string := "watchlist".

Definition ends_with_slash (s : string) : bool :=
  match String.get (String.length s - 1) s with
  | Some c => Ascii.eqb c "/"
  | None => false
  end.

(** [os.path.join(a, b)] on POSIX *)
Definition path_join (a b : string) : string :=
  if String.prefix "/" b then b
  else if String.eqb a "" || ends_with_slash a then a ++ b
  else a ++ "/" ++ b.

(** [d.strftime("%Y-%m-%d")] for a date [(y, m, d)] with a four-digit
    year: the year, then the month and the day on two digits each *)
Definition digit_char (k : Z) : ascii := ascii_of_nat (48 + Z.to_nat k).

Definition strftime_ymd (y m d : Z) : string :=
  String (digit_char (y / 1000)) (String (digit_char (y / 100 mod 10))
  (String (digit_char (y / 10 mod 10)) (String (digit_char (y mod 10))
  (String "-" (String (digit_char (m / 10)) (String (digit_char (m mod 10))
  (String "-" (String (digit_char (d / 10)) (String (digit_char (d mod 10))
   EmptyString))))))))).

Section Main.
(** [datetime.now().strftime("%Y-%m-%d")] *)
Variable today : string.
Variable DATA_DIR : string.
(** [collect_insider_trades(tickers=..., mode=..., max_filings_per_ticker=...)] *)
Variable collect : option (list string) -> string -> Z -> outcome (list record).
(** [save_to_excel(trades, file_path, title, date_str)] *)
Variable save_to_excel : list record -> string -> string -> string -> outcome unit.

(** the calls made and the exit status: [sys.exit(n)] or [0] when
    [main] returns *)
Definition main (a : args) : list call * Z :=
  let date_str :=
    match arg_date a with
    | Some d =>
        if String.eqb d "" then Some today
        else match strptime_ymd d with Some _ => Some d | None => None end
    | None => Some today
    end in
  match date_str with
  | None => ([], 1)
  | Some date_str =>
      let mode :=
        match arg_mode a with
        | Some m => if String.eqb m "" then COLLECT_MODE else m
        | None => COLLECT_MODE
        end in
      let tickers :=
        match arg_tickers a with
        | Some (t :: ts) => Some (map upper (t :: ts))
        | _ => None
        end in
      let c := CallCollect tickers mode (arg_max_filings a) in
      match collect tickers mode (arg_max_filings a) with
      | Raised _ => ([c], 1)
      | Ok [] => ([c], 0)
      | Ok trades =>
          let file_name := "insider-trades-" ++ date_str ++ ".xlsx" in
          let file_path := path_join DATA_DIR file_name in
          let title := "SEC Form 4 Insider Trades" in
          let s := CallSave file_path title date_str in
          match save_to_excel trades file_path title date_str with
          | Raised _ => ([c; s], 1)
          | Ok _ => ([c; s], 0)
          end
      end
  end.
End Main.

End MainCli.

(** ** excel_writer.py and dashboard.py *)
Module Report.
Import Py Parser.

(** [config.COLUMN_NAMES] *)
Definition COLUMN_NAMES : list (string * string) :=
  [("filing_date", "Filing Date"); ("ticker", "Ticker"); ("company", "Company");
   ("insider_name", "Insider Name"); ("insider_title", "Insider Title");
   ("transaction_type", "Type"); ("transaction_code", "Code");
   ("shares", "Shares"); ("price_per_share", "Price/Share");
   ("total_value", "Total Value"); ("shares_owned_after", "Shares After");
   ("ownership_type", "Ownership"); ("filing_url", "Filing URL")].

(** the header of the sheet written by [save_to_excel]: the columns of
    [pd.DataFrame(trades)] (every key of some trade) that are keys of
    [COLUMN_NAMES], in that order, renamed to their display names;
    [None] when [trades] is empty and nothing is written *)
Definition sheet_columns (trades : list record) : option (list string) :=
  match trades with
  | [] => None
  | _ :: _ =>
      let ordered_cols :=
        List.filter (fun c => existsb (fun t => bool_decide (is_Some (t !! c))) trades)
          (map fst COLUMN_NAMES) in
      Some (map (fun c => dict_get COLUMN_NAMES c c) ordered_cols)
  end.

(** [date.weekday()] of the date whose proleptic Gregorian ordinal is
    [o] ([date.toordinal()]); Monday is 0 *)
Definition weekday (o : Z) : Z := (o + 6) mod 7.

(** the default date range of the dashboard sidebar, as ordinals:
    [(default_start, default_end)] *)
Definition default_dates (today : Z) : Z * Z :=
  let default_end :=
    if weekday today =? 5 then today - 1
    else if weekday today =? 6 then today - 2
    else today in
  (default_end - 4, default_end).

End Report.

(** ** Concrete documents and runs used below *)
Module Inputs.
Import Py Soup Parser.

Definition value (s : string) : node := Elem "value" [Txt s].

(** the end-to-end scenario of the spec: one purchase of 1,000 shares
    at 50.25, no ownership block *)
Definition doc_purchase : node :=
  Elem "[document]" [Elem "ownershipDocument" [
    Elem "issuer" [Elem "issuerName" [Txt " Apple Inc. "];
                   Elem "issuerTradingSymbol" [Txt "aapl"]];
    Elem "nonDerivativeTable" [Elem "nonDerivativeTransaction" [
      Elem "transactionCoding" [Elem "transactionCode" [Txt "P"]];
      Elem "transactionAmounts" [
        Elem "transactionShares" [value "1,000"];
        Elem "transactionPricePerShare" [value "50.25"];
        Elem "transactionAcquiredDisposedCode" [value "A"]]]]]].

(** a disposal whose share count is the text "NaN" *)
Definition doc_disposed_nan : node :=
  Elem "[document]" [Elem "ownershipDocument" [
    Elem "nonDerivativeTable" [Elem "nonDerivativeTransaction" [
      Elem "transactionAmounts" [
        Elem "transactionShares" [value "NaN"];
        Elem "transactionPricePerShare" [value "10"];
        Elem "transactionAcquiredDisposedCode" [value "D"]]]]]].

(** a disposal whose share count is already negative *)
Definition doc_disposed_negative : node :=
  Elem "[document]" [Elem "ownershipDocument" [
    Elem "derivativeTable" [Elem "DerivativeTransaction" [
      Elem "TransactionAmounts" [
        Elem "TransactionShares" [Elem "Value" [Txt "-250"]];
        Elem "TransactionAcquiredDisposedCode" [Elem "Value" [Txt "D"]]]]]]].

(** an EFTS index holding 130 filings, answering [from]/[size] with
    the next [size] hits and reporting a total of 130 *)
Definition efts130 (from size : Z) : Scraper.page nat :=
  Scraper.PageOk (firstn (Z.to_nat size) (skipn (Z.to_nat from) (seq 0 130))) 130.

(** a table with two transaction lines, both in lowerCamelCase *)
Definition doc_lines_lower : node :=
  Elem "[document]" [Elem "nonDerivativeTable" [
    Elem "nonDerivativeTransaction" [Elem "transactionCoding" [Elem "transactionCode" [Txt "P"]]];
    Elem "nonDerivativeTransaction" [Elem "transactionCoding" [Elem "transactionCode" [Txt "S"]]]]].

(** the same document with the second line's tag in PascalCase *)
Definition doc_lines_mixed : node :=
  Elem "[document]" [Elem "nonDerivativeTable" [
    Elem "nonDerivativeTransaction" [Elem "transactionCoding" [Elem "transactionCode" [Txt "P"]]];
    Elem "NonDerivativeTransaction" [Elem "transactionCoding" [Elem "transactionCode" [Txt "S"]]]]].

(** a watchlist run: one ticker, one Form 4 filing, served with 200 *)
Definition cik_map_aapl (t : string) : option string :=
  if String.eqb t "AAPL" then Some "0000320193" else None.

Definition recent_aapl : Scraper.recent :=
  {| Scraper.forms := ["4"]; Scraper.accessions := ["0000320193-24-000001"];
     Scraper.filing_dates := ["2024-01-02"]; Scraper.documents := ["form4.xml"] |}.

Definition sub_net_aapl (url : string) : Scraper.sub_response := Scraper.SubOk recent_aapl.

Definition net_ok (url : string) : Scraper.response := Scraper.Resp 200 "<ownershipDocument/>".

Definition soup_purchase (xml : string) : node := doc_purchase.

(** [json.loads] on the body "[]" *)
Definition json_empty_array (body : string) : option Scraper.json :=
  if String.eqb body "[]" then Some (Scraper.JArr []) else None.


(** a ticker map holding AAPL *)
Definition map_aapl : Scraper.json := Scraper.JObj [("AAPL", Scraper.JStr "0000320193")].

(** [json.loads] on the bodies "[]" and "map" *)
Definition json_inputs (body : string) : option Scraper.json :=
  if String.eqb body "[]" then Some (Scraper.JArr [])
  else if String.eqb body "map" then Some map_aapl
  else None.

(** a cache file written at time 0 holding "map" *)
Definition cache_aapl : option (Py.float * string) := Some (Py.of_Z 0, "map").

End Inputs.

(** * Proofs *)

(** ** Trees *)
Module SoupFacts.
Import Soup.

(** induction on trees, through the list of children *)
Fixpoint node_rect' (P : node -> Prop) (HT : forall s, P (Txt s))
    (HE : forall nm kids, Forall P kids -> P (Elem nm kids)) (n : node) : P n :=
  match n with
  | Txt s => HT s
  | Elem nm kids =>
      HE nm kids
        ((fix go (l : list node) : Forall P l :=
            match l with
            | [] => @List.Forall_nil _ P
            | k :: r => @List.Forall_cons _ P k r (node_rect' P HT HE k) (go r)
            end) kids)
  end.

Lemma descendants_trans (n t u : node) :
  In t (descendants n) -> In u (descendants t) -> In u (descendants n).
Proof.
  revert t u. induction n as [s | nm kids IH] using node_rect'; intros t u Ht Hu.
  - destruct Ht.
  - simpl in *. apply in_flat_map in Ht as [k [Hk Ht]].
    apply in_flat_map. exists k. split; [exact Hk|].
    rewrite List.Forall_forall in IH.
    destruct Ht as [<- | Ht]; right; [exact Hu|].
    exact (IH k Hk t u Ht Hu).
Qed.

Lemma find_in (n t : node) (a : string) :
  find n a = Some t -> In t (descendants n).
Proof. unfold find. intros H. exact (proj1 (find_some _ _ H)). Qed.

Lemma find_or_in (n t : node) (a b : string) :
  find_or n a b = Some t -> In t (descendants n).
Proof.
  unfold find_or. destruct (find n a) eqn:E; intros H.
  - injection H as <-. exact (find_in _ _ _ E).
  - exact (find_in _ _ _ H).
Qed.

Lemma find_all_or_in (n t : node) (a b : string) :
  In t (find_all_or n a b) -> In t (descendants n).
Proof.
  unfold find_all_or, find_all.
  destruct (List.filter (has_name a) (descendants n)) eqn:E; intros H.
  - exact (proj1 (proj1 (filter_In _ _ _) H)).
  - rewrite <- E in H. exact (proj1 (proj1 (filter_In _ _ _) H)).
Qed.

Lemma find_app {A} (p : A -> bool) (l1 l2 : list A) :
  List.find p (l1 ++ l2) =
  match List.find p l1 with Some x => Some x | None => List.find p l2 end.
Proof.
  induction l1 as [|a r IH]; [reflexivity|].
  simpl. destruct (p a); [reflexivity | exact IH].
Qed.

Lemma find_none_intro {A} (p : A -> bool) (l : list A) :
  (forall x, In x l -> p x = false) -> List.find p l = None.
Proof.
  induction l as [|a r IH]; intros H; [reflexivity|].
  simpl. rewrite (H a (or_introl eq_refl)). apply IH.
  intros x Hx. exact (H x (or_intror Hx)).
Qed.

End SoupFacts.

(** ** Records emitted by the extractor *)
Module ParserFacts.
Import Py Soup Parser SoupFacts.

Lemma update_lookup_ne (d : record) (kvs : list (string * pyval)) (k : string) :
  Forall (fun kv => fst kv <> k) kvs -> update d kvs !! k = d !! k.
Proof.
  revert d. induction kvs as [|[k' v] kvs IH]; intros d H; simpl; [done|].
  inversion H as [|? ? Hk Hr]; subst. rewrite IH by exact Hr.
  apply lookup_insert_ne. simpl in Hk. congruence.
Qed.

Lemma extra_fields_keys c t n ti u (k : string) :
  k <> "company" -> k <> "ticker" -> k <> "insider_name" ->
  k <> "insider_title" -> k <> "filing_url" ->
  Forall (fun kv => fst kv <> k) (extra_fields c t n ti u).
Proof. intros. repeat constructor; simpl; congruence. Qed.

(** every emitted record is a transaction line of the document, parsed
    by [_parse_transaction] and updated with the issuer and owner fields *)
Lemma parse_form4_xml_records (soup : node) (url : string) (r : record) :
  In r (parse_form4_xml soup url) ->
  exists txn kind c t n ti,
    In txn (descendants soup) /\
    r = update (parse_transaction txn kind) (extra_fields c t n ti url).
Proof.
  unfold parse_form4_xml.
  destruct (issuer_info soup) as [[c cik] t].
  destruct (owner_info soup) as [n ti].
  intros H. apply in_app_or in H.
  destruct H as [H | H]; unfold table_trades in H;
    destruct (find_or soup _ _) as [table|] eqn:Et; try destruct H;
    apply in_map_iff in H as [txn [<- Htxn]];
    exists txn; eexists; exists c, t, n, ti; split; try reflexivity;
    exact (descendants_trans _ _ _ (find_or_in _ _ _ _ Et)
             (find_all_or_in _ _ _ _ Htxn)).
Qed.

Lemma parse_transaction_fields (txn : node) (kind : string) :
  let '(shares0, price, ad) := txn_amounts txn in
  parse_transaction txn kind !! "shares" = Some (PNum (normalise_shares ad shares0)) /\
  parse_transaction txn kind !! "price_per_share" = Some (PNum price) /\
  parse_transaction txn kind !! "total_value" =
    Some (PNum (fmul (fabs (normalise_shares ad shares0)) price)).
Proof.
  unfold parse_transaction.
  destruct (txn_amounts txn) as [[s0 p] ad].
  split; [|split]; reflexivity.
Qed.

Lemma neg_abs_nonpositive (x : float) :
  is_nan x = false -> fle (fneg (fabs x)) fzero = true.
Proof. destruct x; simpl; easy. Qed.

(** the [shares] field of each record, next to the transaction line it
    comes from *)
Lemma parse_form4_xml_shares (soup : node) (url : string) :
  map (fun r => r !! "shares") (parse_form4_xml soup url) =
  map (fun txn => let '(shares0, _, ad) := txn_amounts txn in
                  Some (PNum (normalise_shares ad shares0)))
      (txn_lines soup).
Proof.
  unfold parse_form4_xml, txn_lines, table_lines, table_trades.
  destruct (issuer_info soup) as [[c cik] t].
  destruct (owner_info soup) as [n ti].
  cbv beta iota zeta. rewrite !map_app.
  f_equal; (destruct (find_or soup _ _) as [table|]; [|reflexivity]);
    rewrite map_map; apply map_ext; intros txn;
    rewrite update_lookup_ne by (apply extra_fields_keys; discriminate);
    match goal with |- parse_transaction _ ?k !! _ = _ =>
      pose proof (parse_transaction_fields txn k) as Hf end;
    destruct (txn_amounts txn) as [[s0 p] ad]; exact (proj1 Hf).
Qed.

End ParserFacts.

(** ** Strings *)
Module StrFacts.
Import Py Re.

(** [String.append] does not unfold under [simpl]; its defining equation *)
Lemma str_cons_app (c : ascii) (a b : string) : (String c a ++ b)%string = String c (a ++ b).
Proof. reflexivity. Qed.

Lemma str_nil_app (b : string) : ("" ++ b)%string = b.
Proof. reflexivity. Qed.

Lemma str_app_assoc (a b c : string) : ((a ++ b) ++ c)%string = (a ++ (b ++ c))%string.
Proof. induction a as [|x a IH]; [reflexivity | exact (f_equal (String x) IH)]. Qed.

Lemma str_app_nil_r (a : string) : (a ++ "")%string = a.
Proof. induction a as [|x a IH]; [reflexivity | exact (f_equal (String x) IH)]. Qed.

Lemma str_length_app (a b : string) :
  String.length (a ++ b) = (String.length a + String.length b)%nat.
Proof. induction a as [|x a IH]; [reflexivity | exact (f_equal S IH)]. Qed.

Lemma list_ascii_app (a b : string) :
  list_ascii_of_string (a ++ b) = (list_ascii_of_string a ++ list_ascii_of_string b)%list.
Proof. induction a as [|x a IH]; [reflexivity | exact (f_equal (cons x) IH)]. Qed.

Lemma string_of_list_app (l1 l2 : list ascii) :
  string_of_list_ascii (l1 ++ l2) = (string_of_list_ascii l1 ++ string_of_list_ascii l2)%string.
Proof. induction l1 as [|x l IH]; [reflexivity | exact (f_equal (String x) IH)]. Qed.

Lemma rev_str_app (a b : string) : rev_str (a ++ b) = (rev_str b ++ rev_str a)%string.
Proof.
  unfold rev_str. rewrite list_ascii_app, rev_app_distr, string_of_list_app. reflexivity.
Qed.

Lemma rev_str_involutive (a : string) : rev_str (rev_str a) = a.
Proof.
  unfold rev_str. rewrite list_ascii_of_string_of_list_ascii, rev_involutive.
  apply string_of_list_ascii_of_string.
Qed.

Lemma all_space_rev (s : string) : all_space (rev_str s) = all_space s.
Proof.
  unfold all_space, rev_str. rewrite list_ascii_of_string_of_list_ascii.
  induction (list_ascii_of_string s) as [|c l IH]; [reflexivity|].
  simpl. rewrite forallb_app, IH. simpl. rewrite andb_true_r, andb_comm. reflexivity.
Qed.

Lemma lstrip_app (x y : string) :
  lstrip (x ++ y) = if all_space x then lstrip y else (lstrip x ++ y)%string.
Proof.
  unfold all_space. induction x as [|c x IH]; [reflexivity|].
  simpl. destruct (is_space c); simpl; [exact IH | reflexivity].
Qed.

Lemma lstrip_all_space (x : string) : all_space x = true -> lstrip x = "".
Proof.
  intros H. pose proof (lstrip_app x "") as E. rewrite str_app_nil_r, H in E. exact E.
Qed.

(** a trailing run of whitespace does not change [strip] *)
Lemma strip_app_space (x w : string) : all_space w = true -> strip (x ++ w) = strip x.
Proof.
  intros Hw. unfold strip. rewrite lstrip_app.
  destruct (all_space x) eqn:Hx.
  - rewrite (lstrip_all_space w Hw), (lstrip_all_space x Hx). reflexivity.
  - rewrite rev_str_app, lstrip_app, all_space_rev, Hw. reflexivity.
Qed.

(** a leading run of whitespace does not change [strip] *)
Lemma strip_space_app (w x : string) : all_space w = true -> strip (w ++ x) = strip x.
Proof. intros Hw. unfold strip. rewrite lstrip_app, Hw. reflexivity. Qed.

Lemma remove_commas_app (a b : string) :
  remove_commas (a ++ b) = (remove_commas a ++ remove_commas b)%string.
Proof.
  induction a as [|c a IH]; [reflexivity|].
  rewrite str_cons_app. simpl. rewrite IH.
  destruct (Ascii.eqb c ","); reflexivity.
Qed.

Lemma remove_commas_space (w : string) : all_space w = true -> remove_commas w = w.
Proof.
  unfold all_space. induction w as [|c w IH]; intros H; [reflexivity|].
  simpl in H. apply andb_prop in H. destruct H as [Hc Hw].
  simpl. destruct (Ascii.eqb_spec c ",") as [->|_]; [discriminate Hc|].
  rewrite (IH Hw). reflexivity.
Qed.

End StrFacts.

(** ** Claims on the extractor *)
Module ExtractorClaims.
Import Py Soup Parser SoupFacts ParserFacts StrFacts Inputs.

(** C1: every record emitted by [parse_form4_xml] carries
    [total_value = abs(shares) * price_per_share], computed from the
    record's own final [shares] and [price_per_share]; writing the
    recomputed value back leaves the record unchanged. *)
Theorem total_value_is_recomputed (soup : node) (url : string) (r : record) :
  In r (parse_form4_xml soup url) ->
  exists shares price,
    r !! "shares" = Some (PNum shares) /\
    r !! "price_per_share" = Some (PNum price) /\
    r !! "total_value" = Some (PNum (fmul (fabs shares) price)) /\
    <["total_value" := PNum (fmul (fabs shares) price)]> r = r.
Proof.
  intros H.
  destruct (parse_form4_xml_records soup url r H)
    as (txn & kind & c & t & n & ti & _ & ->).
  pose proof (parse_transaction_fields txn kind) as Hf.
  destruct (txn_amounts txn) as [[s0 p] ad].
  destruct Hf as (Hs & Hp & Ht).
  exists (normalise_shares ad s0), p.
  assert (Htv : update (parse_transaction txn kind) (extra_fields c t n ti url)
                  !! "total_value" = Some (PNum (fmul (fabs (normalise_shares ad s0)) p))).
  { rewrite update_lookup_ne by (apply extra_fields_keys; discriminate). exact Ht. }
  split; [|split; [|split]].
  - rewrite update_lookup_ne by (apply extra_fields_keys; discriminate). exact Hs.
  - rewrite update_lookup_ne by (apply extra_fields_keys; discriminate). exact Hp.
  - exact Htv.
  - apply insert_id. exact Htv.
Qed.

Lemma total_value_is_recomputed_witness :
  In (hd ∅ (parse_form4_xml doc_purchase "u")) (parse_form4_xml doc_purchase "u") /\
  exists shares price,
    hd ∅ (parse_form4_xml doc_purchase "u") !! "shares" = Some (PNum shares) /\
    hd ∅ (parse_form4_xml doc_purchase "u") !! "price_per_share" = Some (PNum price) /\
    hd ∅ (parse_form4_xml doc_purchase "u") !! "total_value" =
      Some (PNum (fmul (fabs shares) price)) /\
    <["total_value" := PNum (fmul (fabs shares) price)]>
      (hd ∅ (parse_form4_xml doc_purchase "u")) = hd ∅ (parse_form4_xml doc_purchase "u").
Proof.
  assert (H : In (hd ∅ (parse_form4_xml doc_purchase "u")) (parse_form4_xml doc_purchase "u"))
    by (vm_compute; left; reflexivity).
  split; [exact H|].
  apply (total_value_is_recomputed doc_purchase "u"). exact H.
Defined.

(** C2, counterexample: a disposal line whose share count reads "NaN"
    yields [shares = -abs(nan)], a NaN, which is not [<= 0]. *)
Lemma disposed_shares_nan_counterexample :
  txn_amounts (Elem "nonDerivativeTransaction" [
      Elem "transactionAmounts" [
        Elem "transactionShares" [value "NaN"];
        Elem "transactionPricePerShare" [value "10"];
        Elem "transactionAcquiredDisposedCode" [value "D"]]])
    = (S754_nan, of_Z 10, "D") /\
  ~ (forall r, In r (parse_form4_xml doc_disposed_nan "u") ->
       exists shares, r !! "shares" = Some (PNum shares) /\ fle shares fzero = true).
Proof.
  split; [vm_compute; reflexivity|].
  intros H.
  destruct (H (hd ∅ (parse_form4_xml doc_disposed_nan "u"))) as (x & Hx & Hle).
  { vm_compute; left; reflexivity. }
  vm_compute in Hx. injection Hx as <-. vm_compute in Hle. discriminate.
Qed.

(** C2, as amended: the i-th record of [parse_form4_xml] comes from the
    i-th transaction line of the document (the lines of the
    non-derivative table, then those of the derivative table), and
    there is one record per line; the record's [shares] is
    [-abs(parsed count)] when that line's acquired/disposed flag is
    exactly "D", and the parsed count itself otherwise; under "D" it is
    [<= 0] whenever the parsed count is not NaN. *)
Theorem disposed_shares_forced_negative (soup : node) (url : string) :
  length (parse_form4_xml soup url) = length (txn_lines soup) /\
  forall i txn, nth_error (txn_lines soup) i = Some txn ->
    exists r, nth_error (parse_form4_xml soup url) i = Some r /\
    let '(shares0, _, ad) := txn_amounts txn in
    r !! "shares" =
      Some (PNum (if String.eqb ad "D" then fneg (fabs shares0) else shares0)) /\
    (ad = "D" -> is_nan shares0 = false ->
       exists shares, r !! "shares" = Some (PNum shares) /\ fle shares fzero = true).
Proof.
  pose proof (parse_form4_xml_shares soup url) as E.
  split.
  { apply (f_equal (@length _)) in E. rewrite !length_map in E. exact E. }
  intros i txn Hi.
  apply (f_equal (fun l => nth_error l i)) in E.
  rewrite !List.nth_error_map, Hi in E. cbn [option_map] in E.
  destruct (nth_error (parse_form4_xml soup url) i) as [r|]; [|discriminate E].
  injection E as E. exists r. split; [reflexivity|].
  destruct (txn_amounts txn) as [[s0 p] ad].
  split; [exact E|].
  intros -> Hnan. eexists. split; [exact E|].
  exact (neg_abs_nonpositive s0 Hnan).
Qed.

Lemma disposed_shares_forced_negative_witness :
  nth_error (txn_lines doc_disposed_negative) 0 =
    Some (Elem "DerivativeTransaction" [
      Elem "TransactionAmounts" [
        Elem "TransactionShares" [Elem "Value" [Txt "-250"]];
        Elem "TransactionAcquiredDisposedCode" [Elem "Value" [Txt "D"]]]]) /\
  exists r, nth_error (parse_form4_xml doc_disposed_negative "u") 0 = Some r /\
    let '(shares0, _, ad) :=
      txn_amounts (Elem "DerivativeTransaction" [
        Elem "TransactionAmounts" [
          Elem "TransactionShares" [Elem "Value" [Txt "-250"]];
          Elem "TransactionAcquiredDisposedCode" [Elem "Value" [Txt "D"]]]]) in
    r !! "shares" =
      Some (PNum (if String.eqb ad "D" then fneg (fabs shares0) else shares0)) /\
    (ad = "D" -> is_nan shares0 = false ->
       exists shares, r !! "shares" = Some (PNum shares) /\ fle shares fzero = true).
Proof.
  assert (H : nth_error (txn_lines doc_disposed_negative) 0 =
    Some (Elem "DerivativeTransaction" [
      Elem "TransactionAmounts" [
        Elem "TransactionShares" [Elem "Value" [Txt "-250"]];
        Elem "TransactionAcquiredDisposedCode" [Elem "Value" [Txt "D"]]]]))
    by (vm_compute; reflexivity).
  split; [exact H|].
  exact (proj2 (disposed_shares_forced_negative doc_disposed_negative "u") 0%nat _ H).
Defined.

Lemma remove_commas_idem (s : string) : remove_commas (remove_commas s) = remove_commas s.
Proof.
  induction s as [|c r IH]; simpl; [done|].
  destruct (Ascii.eqb c ",") eqn:E; simpl; [exact IH|].
  rewrite E, IH. done.
Qed.

(** C3: extraction never fails and falls back to defaults.  [_to_float]
    removes the commas and the surrounding whitespace before [float()]
    and yields [0.0] where [float()] raises; an absent block or field
    gives [""], [0.0], or "D" / "Direct" for the ownership nature, both
    for an absent block and for an absent field or [value] inside a
    present block; a transaction line with nothing in it gives the
    all-default record; whitespace around the numeric text is dropped
    whatever the text.
    [parse_form4_xml] is a total function returning a list. *)
Theorem extraction_defaults :
  (forall s, py_float (strip (remove_commas s)) = None -> to_float s = fzero) /\
  (forall s, to_float (remove_commas s) = to_float s) /\
  to_float " 1,000 " = of_Z 1000 /\
  to_float (String (ascii_of_nat 9) ("50.25" ++ String (ascii_of_nat 10) "")) =
    to_float "50.25" /\
  to_float "12 shares" = fzero /\
  (forall tag, value_of tag = None -> float_value tag = fzero) /\
  (forall txn, find_or txn "transactionAmounts" "TransactionAmounts" = None ->
     txn_amounts txn = (fzero, fzero, "")) /\
  (forall txn amounts,
     find_or txn "transactionAmounts" "TransactionAmounts" = Some amounts ->
     (find_or amounts "transactionShares" "TransactionShares" = None ->
        fst (fst (txn_amounts txn)) = fzero) /\
     (find_or amounts "transactionPricePerShare" "TransactionPricePerShare" = None ->
        snd (fst (txn_amounts txn)) = fzero) /\
     (find_or amounts "transactionAcquiredDisposedCode"
        "TransactionAcquiredDisposedCode" = None ->
        snd (txn_amounts txn) = "")) /\
  (forall txn, find_or txn "postTransactionAmounts" "PostTransactionAmounts" = None ->
     txn_shares_after txn = fzero) /\
  (forall txn, find_or txn "ownershipNature" "OwnershipNature" = None ->
     txn_ownership txn = "D") /\
  (forall txn kind, txn_ownership txn = "D" ->
     parse_transaction txn kind !! "ownership_type" = Some (PStr "Direct")) /\
  (forall txn, find_or txn "transactionCoding" "TransactionCoding" = None ->
     txn_code txn = "") /\
  (forall soup, find_or soup "issuer" "Issuer" = None -> issuer_info soup = ("", "", "")) /\
  (forall soup, find_or soup "reportingOwner" "ReportingOwner" = None ->
     owner_info soup = ("", "")) /\
  (forall nm kind,
     parse_transaction (Elem nm []) kind =
     update ∅ [("transaction_code", PStr ""); ("transaction_type", PStr "");
               ("shares", PNum fzero); ("price_per_share", PNum fzero);
               ("total_value", PNum fzero); ("shares_owned_after", PNum fzero);
               ("ownership_type", PStr "Direct")]) /\
  (forall soup issuer, find_or soup "issuer" "Issuer" = Some issuer ->
     (find_or issuer "issuerName" "IssuerName" = None -> fst (fst (issuer_info soup)) = "") /\
     (find_or issuer "issuerCik" "IssuerCik" = None -> snd (fst (issuer_info soup)) = "") /\
     (find_or issuer "issuerTradingSymbol" "IssuerTradingSymbol" = None ->
        snd (issuer_info soup) = "")) /\
  (forall soup owner, find_or soup "reportingOwner" "ReportingOwner" = Some owner ->
     (find_or owner "reportingOwnerId" "ReportingOwnerId" = None ->
        fst (owner_info soup) = "") /\
     (forall owner_id,
        find_or owner "reportingOwnerId" "ReportingOwnerId" = Some owner_id ->
        find_or owner_id "rptOwnerName" "RptOwnerName" = None -> fst (owner_info soup) = "") /\
     (find_or owner "reportingOwnerRelationship" "ReportingOwnerRelationship" = None ->
        snd (owner_info soup) = "")) /\
  (forall txn coding, find_or txn "transactionCoding" "TransactionCoding" = Some coding ->
     find_or coding "transactionCode" "TransactionCode" = None -> txn_code txn = "") /\
  (forall txn post,
     find_or txn "postTransactionAmounts" "PostTransactionAmounts" = Some post ->
     find_or post "sharesOwnedFollowingTransaction" "SharesOwnedFollowingTransaction" = None ->
     txn_shares_after txn = fzero) /\
  (forall txn own, find_or txn "ownershipNature" "OwnershipNature" = Some own ->
     (find_or own "directOrIndirectOwnership" "DirectOrIndirectOwnership" = None ->
        txn_ownership txn = "D") /\
     (forall do_tag,
        find_or own "directOrIndirectOwnership" "DirectOrIndirectOwnership" = Some do_tag ->
        value_of do_tag = None -> txn_ownership txn = "D")) /\
  (forall txn amounts ad_tag,
     find_or txn "transactionAmounts" "TransactionAmounts" = Some amounts ->
     find_or amounts "transactionAcquiredDisposedCode"
       "TransactionAcquiredDisposedCode" = Some ad_tag ->
     value_of ad_tag = None -> snd (txn_amounts txn) = "") /\
  (forall parent tag_name, find_or parent tag_name (pascal tag_name) = None ->
     get_text parent tag_name = "" /\ get_bool parent tag_name = false) /\
  (forall w1 s w2, all_space w1 = true -> all_space w2 = true ->
     to_float (w1 ++ s ++ w2) = to_float s).
Proof.
  split; [intros s H; unfold to_float; rewrite H; reflexivity|].
  split; [intros s; unfold to_float; rewrite remove_commas_idem; reflexivity|].
  split; [vm_compute; reflexivity|].
  split; [vm_compute; reflexivity|].
  split; [vm_compute; reflexivity|].
  split; [intros tag H; unfold float_value; rewrite H; vm_compute; reflexivity|].
  split; [intros txn H; unfold txn_amounts; rewrite H; reflexivity|].
  split.
  { intros txn amounts H. unfold txn_amounts. rewrite H.
    split; [|split]; intros H'; rewrite H'; reflexivity. }
  split; [intros txn H; unfold txn_shares_after; rewrite H; reflexivity|].
  split; [intros txn H; unfold txn_ownership; rewrite H; reflexivity|].
  split.
  { intros txn kind H. unfold parse_transaction. rewrite H.
    destruct (txn_amounts txn) as [[s0 p] ad]. reflexivity. }
  split; [intros txn H; unfold txn_code; rewrite H; reflexivity|].
  split; [intros soup H; unfold issuer_info; rewrite H; reflexivity|].
  split; [intros soup H; unfold owner_info; rewrite H; reflexivity|].
  split; [intros nm kind; reflexivity|].
  split.
  { intros soup issuer H. unfold issuer_info. rewrite H.
    split; [|split]; intros H'; rewrite H'; reflexivity. }
  split.
  { intros soup owner H. unfold owner_info. rewrite H.
    split; [|split].
    - intros H'. rewrite H'. reflexivity.
    - intros owner_id H1 H2. rewrite H1, H2. reflexivity.
    - intros H'. rewrite H'. reflexivity. }
  split; [intros txn coding H1 H2; unfold txn_code; rewrite H1, H2; reflexivity|].
  split; [intros txn post H1 H2; unfold txn_shares_after; rewrite H1, H2; reflexivity|].
  split.
  { intros txn own H. unfold txn_ownership. rewrite H. split.
    - intros H'. rewrite H'. reflexivity.
    - intros do_tag H1 H2. rewrite H1, H2. reflexivity. }
  split; [intros txn amounts ad_tag H1 H2 H3; unfold txn_amounts; rewrite H1, H2, H3;
          reflexivity|].
  split; [intros parent tag_name H; unfold get_bool, get_text; rewrite H; split; reflexivity|].
  intros w1 s w2 H1 H2. unfold to_float.
  rewrite !remove_commas_app, (remove_commas_space w1 H1), (remove_commas_space w2 H2).
  rewrite strip_space_app by exact H1. rewrite strip_app_space by exact H2. reflexivity.
Qed.

Lemma extraction_defaults_witness :
  to_float "n/a" = fzero /\
  float_value (Elem "transactionShares" []) = fzero /\
  txn_amounts (Elem "nonDerivativeTransaction" []) = (fzero, fzero, "") /\
  fst (fst (txn_amounts (Elem "t" [Elem "transactionAmounts" []]))) = fzero /\
  snd (fst (txn_amounts (Elem "t" [Elem "transactionAmounts" []]))) = fzero /\
  snd (txn_amounts (Elem "t" [Elem "transactionAmounts" []])) = "" /\
  txn_shares_after (Elem "t" []) = fzero /\
  txn_ownership (Elem "t" []) = "D" /\
  parse_transaction (Elem "t" []) "Derivative" !! "ownership_type" = Some (PStr "Direct") /\
  txn_code (Elem "t" []) = "" /\
  issuer_info (Elem "[document]" []) = ("", "", "") /\
  owner_info (Elem "[document]" []) = ("", "") /\
  fst (fst (issuer_info (Elem "d" [Elem "issuer" []]))) = "" /\
  fst (owner_info (Elem "d" [Elem "reportingOwner" [Elem "reportingOwnerId" []]])) = "" /\
  txn_code (Elem "t" [Elem "transactionCoding" []]) = "" /\
  txn_shares_after (Elem "t" [Elem "postTransactionAmounts" []]) = fzero /\
  txn_ownership (Elem "t" [Elem "ownershipNature" [Elem "directOrIndirectOwnership" []]]) = "D" /\
  snd (txn_amounts (Elem "t" [Elem "transactionAmounts" [
         Elem "transactionAcquiredDisposedCode" []]])) = "" /\
  get_text (Elem "r" []) "officerTitle" = "" /\
  to_float (String (ascii_of_nat 9) ("7" ++ String (ascii_of_nat 10) "")) = to_float "7".
Proof.
  destruct extraction_defaults as
    (H1 & _ & _ & _ & _ & H6 & H7 & H8 & H9 & H10 & H11 & H12 & H13 & H14 & _ &
     H16 & H17 & H18 & H19 & H20 & H21 & H22 & H23).
  destruct (H8 (Elem "t" [Elem "transactionAmounts" []]) (Elem "transactionAmounts" []))
    as (H8a & H8b & H8c); [vm_compute; reflexivity|].
  split; [apply H1; vm_compute; reflexivity|].
  split; [apply H6; vm_compute; reflexivity|].
  split; [apply H7; vm_compute; reflexivity|].
  split; [apply H8a; vm_compute; reflexivity|].
  split; [apply H8b; vm_compute; reflexivity|].
  split; [apply H8c; vm_compute; reflexivity|].
  split; [apply H9; vm_compute; reflexivity|].
  split; [apply H10; vm_compute; reflexivity|].
  split; [apply H11, H10; vm_compute; reflexivity|].
  split; [apply H12; vm_compute; reflexivity|].
  split; [apply H13; vm_compute; reflexivity|].
  split; [apply H14; vm_compute; reflexivity|].
  split; [apply (proj1 (H16 (Elem "d" [Elem "issuer" []]) (Elem "issuer" [])
                          ltac:(vm_compute; reflexivity)));
          vm_compute; reflexivity|].
  split; [apply (proj1 (proj2 (H17 (Elem "d" [Elem "reportingOwner" [Elem "reportingOwnerId" []]])
                                 (Elem "reportingOwner" [Elem "reportingOwnerId" []])
                                 ltac:(vm_compute; reflexivity))) (Elem "reportingOwnerId" []));
          vm_compute; reflexivity|].
  split; [apply (H18 _ (Elem "transactionCoding" [])); vm_compute; reflexivity|].
  split; [apply (H19 _ (Elem "postTransactionAmounts" [])); vm_compute; reflexivity|].
  split; [apply (proj2 (H20 (Elem "t" [Elem "ownershipNature" [Elem "directOrIndirectOwnership" []]])
                          (Elem "ownershipNature" [Elem "directOrIndirectOwnership" []])
                          ltac:(vm_compute; reflexivity)) (Elem "directOrIndirectOwnership" []));
          vm_compute; reflexivity|].
  split; [apply (H21 _ (Elem "transactionAmounts" [Elem "transactionAcquiredDisposedCode" []])
                   (Elem "transactionAcquiredDisposedCode" [])); vm_compute; reflexivity|].
  split; [apply (proj1 (H22 (Elem "r" []) "officerTitle" ltac:(vm_compute; reflexivity)))|].
  apply (H23 (String (ascii_of_nat 9) "") "7" (String (ascii_of_nat 10) ""));
    vm_compute; reflexivity.
Defined.

End ExtractorClaims.

(** ** Claims on the date-range search loop *)
Module SearchClaims.
Import Scraper Views Inputs.

Lemma search_loop_total {H} (fuel : nat) (server : Z -> Z -> page H)
    (max_filings offset : Z) (acc : list H) (reqs : list (Z * Z)) :
  (Z.to_nat (max_filings - offset) < fuel)%nat ->
  exists r, search_loop fuel server max_filings offset acc reqs = Some r.
Proof.
  revert offset acc reqs.
  induction fuel as [|fuel IH]; intros offset acc reqs Hf; [lia|].
  simpl. destruct (offset <? max_filings) eqn:Hlt; [|eauto].
  apply Z.ltb_lt in Hlt.
  destruct (server offset (Z.min 100 (max_filings - offset))) as [| |hits total];
    [eauto|eauto|].
  destruct hits as [|h t]; [eauto|].
  destruct (total <=? offset + Z.of_nat (length (h :: t))); [eauto|].
  apply IH. simpl length. lia.
Qed.

Lemma search_loop_sizes {H} (fuel : nat) (server : Z -> Z -> page H)
    (max_filings offset : Z) (acc : list H) (reqs : list (Z * Z))
    (e : loop_end) (hits : list H) (reqs' : list (Z * Z)) :
  Forall size_ok reqs ->
  search_loop fuel server max_filings offset acc reqs = Some (e, hits, reqs') ->
  Forall size_ok reqs'.
Proof.
  revert offset acc reqs.
  induction fuel as [|fuel IH]; intros offset acc reqs Hok Hrun; [discriminate|].
  simpl in Hrun. destruct (offset <? max_filings) eqn:Hlt;
    [|injection Hrun as _ _ <-; exact Hok].
  apply Z.ltb_lt in Hlt.
  assert (Hok' : Forall size_ok (reqs ++ [(offset, Z.min 100 (max_filings - offset))])%list).
  { apply Forall_app; split; [exact Hok|].
    constructor; [unfold size_ok; simpl; lia | constructor]. }
  destruct (server offset (Z.min 100 (max_filings - offset))) as [| |hs total];
    [injection Hrun as _ _ <-; exact Hok' | injection Hrun as _ _ <-; exact Hok' |].
  destruct hs as [|h t]; [injection Hrun as _ _ <-; exact Hok'|].
  destruct (total <=? _); [injection Hrun as _ _ <-; exact Hok'|].
  exact (IH _ _ _ Hok' Hrun).
Qed.

Lemma efts130_two_pages (max_filings : Z) :
  130 <= max_filings ->
  search_pages efts130 max_filings =
    Some (LoopBreak, seq 0 130, [(0, 100); (100, Z.min 100 (max_filings - 100))]).
Proof.
  intros Hmax. unfold search_pages.
  destruct (Z.to_nat max_filings) as [|[|k]] eqn:Hn; [lia|lia|].
  cbn [search_loop].
  rewrite (proj2 (Z.ltb_lt 0 max_filings)) by lia.
  replace (Z.min 100 (max_filings - 0)) with 100 by lia.
  change (efts130 0 100) with (PageOk (seq 0 100) 130).
  change (seq 0 100) with (0%nat :: seq 1 99) at 1.
  cbv iota beta.
  change (130 <=? 0 + Z.of_nat (length (0%nat :: seq 1 99))) with false.
  cbv iota. change (0 + Z.of_nat (length (0%nat :: seq 1 99))) with 100.
  cbn [search_loop].
  rewrite (proj2 (Z.ltb_lt 100 max_filings)) by lia.
  set (size := Z.min 100 (max_filings - 100)).
  assert (Hs : firstn (Z.to_nat size) (skipn (Z.to_nat 100) (seq 0 130)) = seq 100 30).
  { change (skipn (Z.to_nat 100) (seq 0 130)) with (seq 100 30).
    apply firstn_all2. rewrite length_seq. unfold size. lia. }
  unfold efts130. rewrite Hs.
  change (seq 100 30) with (100%nat :: seq 101 29) at 1.
  cbv iota beta.
  change (130 <=? 100 + Z.of_nat (length (100%nat :: seq 101 29))) with true.
  cbv iota. reflexivity.
Qed.

(** C4: the pagination loop of [search_form4_filings_by_date]
    terminates for every upstream behaviour, every page request has a
    size in (0, 100], no request is made once the offset has reached
    [max_filings], the loop stops right after a page with
    [offset + len(hits) >= total], and for an index reporting 130
    filings (with [max_filings >= 130]) exactly two requests are made,
    of 100 and then 30 hits. *)
Theorem search_pagination_terminates :
  (forall H (server : Z -> Z -> page H) (max_filings : Z),
     exists e hits reqs,
       search_pages server max_filings = Some (e, hits, reqs) /\
       Forall size_ok reqs) /\
  (forall H (server : Z -> Z -> page H) fuel max_filings offset acc reqs,
     max_filings <= offset ->
     search_loop (S fuel) server max_filings offset acc reqs = Some (LoopBreak, acc, reqs)) /\
  (forall H (server : Z -> Z -> page H) fuel max_filings offset acc reqs hits total,
     offset < max_filings ->
     server offset (Z.min 100 (max_filings - offset)) = PageOk hits total ->
     hits <> [] ->
     total <= offset + Z.of_nat (length hits) ->
     search_loop (S fuel) server max_filings offset acc reqs =
       Some (LoopBreak, (acc ++ hits)%list,
             (reqs ++ [(offset, Z.min 100 (max_filings - offset))])%list)) /\
  (forall max_filings, 130 <= max_filings ->
     exists hits,
       search_pages efts130 max_filings =
         Some (LoopBreak, hits, [(0, 100); (100, Z.min 100 (max_filings - 100))]) /\
       length hits = 130%nat /\
       Z.min 100 (max_filings - 100) >= 30).
Proof.
  split; [|split; [|split]].
  - intros H server max_filings.
    destruct (search_loop_total (S (Z.to_nat max_filings)) server max_filings 0 [] []
                ltac:(lia)) as [[[e hits] reqs] Hr].
    exists e, hits, reqs. split; [exact Hr|].
    exact (search_loop_sizes _ _ _ _ _ _ _ _ _ (Forall_nil_2 _) Hr).
  - intros H server fuel max_filings offset acc reqs Hge. simpl.
    destruct (offset <? max_filings) eqn:E; [apply Z.ltb_lt in E; lia|reflexivity].
  - intros H server fuel max_filings offset acc reqs hits total Hlt Hs Hne Ht.
    simpl. rewrite (proj2 (Z.ltb_lt _ _) Hlt), Hs.
    destruct hits as [|h t]; [congruence|].
    rewrite (proj2 (Z.leb_le _ _) Ht). reflexivity.
  - intros max_filings Hmax. exists (seq 0 130).
    split; [exact (efts130_two_pages max_filings Hmax)|].
    split; [apply length_seq|lia].
Qed.

Lemma search_pagination_terminates_witness :
  search_loop 1 efts130 100 100 [] [] = Some (LoopBreak, [], []) /\
  search_loop 1 efts130 200 100 [] [] =
    Some (LoopBreak, seq 100 30, [(100, 100)]) /\
  exists hits,
    search_pages efts130 200 =
      Some (LoopBreak, hits, [(0, 100); (100, Z.min 100 (200 - 100))]) /\
    length hits = 130%nat /\ Z.min 100 (200 - 100) >= 30.
Proof.
  destruct search_pagination_terminates as (_ & H2 & H3 & H4).
  split; [apply (H2 nat efts130 O 100 100 [] []); lia|].
  split.
  { apply (H3 nat efts130 O 200 100 [] [] (seq 100 30) 130);
      [lia | vm_compute; reflexivity | discriminate | vm_compute; discriminate]. }
  apply H4. lia.
Defined.

End SearchClaims.

(** ** Claims on the identifier map cache *)
Module CacheClaims.
Import Py Scraper.

(** C6: with a cache file younger than 86400 seconds,
    [fetch_ticker_to_cik_map] returns what [json.load] reads from it,
    with no request and the file untouched (a malformed file raises);
    at 86400 seconds or more it requests the upstream index, and when it
    returns, the map it returns is the one it wrote over the whole cache
    file.  A file 25 hours (90000 s) old is not fresh, one 86399 s old
    is, and one exactly 86400 s old is not. *)
Theorem cik_cache_window (json_load : string -> option json)
    (json_dump : list (string * string) -> string) (py_str : json -> string)
    (net : string -> response) (now mtime : float) (w : write_result) (contents : string) :
  (flt (fsub now mtime) (of_Z 86400) = true ->
     fetch_ticker_to_cik_map json_load json_dump py_str net now w (Some (mtime, contents)) =
       (match json_load contents with
        | Some v => Ok v
        | None => Raised "JSONDecodeError"
        end, [], Some (mtime, contents))) /\
  (flt (fsub now mtime) (of_Z 86400) = false ->
     let '(o, evs, cache') :=
       fetch_ticker_to_cik_map json_load json_dump py_str net now w (Some (mtime, contents)) in
     evs = [EvGet SEC_TICKERS_URL] /\
     (forall v, o = Ok v ->
        exists mapping, v = mapping_json mapping /\ cache' = Some (now, json_dump mapping))) /\
  flt (fsub (of_Z 90000) (of_Z 0)) (of_Z 86400) = false /\
  flt (fsub (of_Z 86399) (of_Z 0)) (of_Z 86400) = true /\
  flt (fsub (of_Z 86400) (of_Z 0)) (of_Z 86400) = false.
Proof.
  split; [|split; [|split; [|split]]].
  - intros Hfresh. unfold fetch_ticker_to_cik_map. rewrite Hfresh.
    destruct (json_load contents); reflexivity.
  - intros Hstale. unfold fetch_ticker_to_cik_map. rewrite Hstale.
    destruct (net SEC_TICKERS_URL) as [|status body];
      [split; [reflexivity | intros v Hv; discriminate]|].
    destruct (raise_for_status status);
      [split; [reflexivity | intros v Hv; discriminate]|].
    destruct (json_load body) as [[| | | | | |raw]|];
      try (split; [reflexivity | intros v Hv; discriminate]).
    destruct (build_mapping py_str raw []) as [mapping|e];
      [|split; [reflexivity | intros v Hv; discriminate]].
    destruct w as [| |n]; split; try reflexivity; intros v Hv; try discriminate.
    injection Hv as <-. exists mapping. split; reflexivity.
  - vm_compute. reflexivity.
  - vm_compute. reflexivity.
  - vm_compute. reflexivity.
Qed.

Lemma cik_cache_window_witness :
  fetch_ticker_to_cik_map (fun _ => Some (JObj [])) (fun _ => "{}") (fun _ => "")
    (fun _ => Resp 200 "{}") (of_Z 3600) WriteOk (Some (of_Z 0, "{}")) =
    (Ok (JObj []), [], Some (of_Z 0, "{}")) /\
  (let '(o, evs, cache') :=
     fetch_ticker_to_cik_map (fun _ => Some (JObj [])) (fun _ => "{}") (fun _ => "")
       (fun _ => Resp 200 "{}") (of_Z 90000) WriteOk (Some (of_Z 0, "{}")) in
   evs = [EvGet SEC_TICKERS_URL] /\
   (forall v, o = Ok v ->
      exists mapping, v = mapping_json mapping /\
                      cache' = Some (of_Z 90000, "{}"))).
Proof.
  destruct (cik_cache_window (fun _ => Some (JObj [])) (fun _ => "{}") (fun _ => "")
              (fun _ => Resp 200 "{}") (of_Z 3600) (of_Z 0) WriteOk "{}") as (H1 & _).
  destruct (cik_cache_window (fun _ => Some (JObj [])) (fun _ => "{}") (fun _ => "")
              (fun _ => Resp 200 "{}") (of_Z 90000) (of_Z 0) WriteOk "{}") as (_ & H2 & _).
  split; [apply H1; vm_compute; reflexivity|].
  apply H2. vm_compute. reflexivity.
Defined.

End CacheClaims.

(** ** Collection strategies *)
Module CollectFacts.
Import Py Soup Parser Scraper Views.

Section Runs.
Variable soup_of : string -> node.
Variable net : string -> response.

Lemma date_loop_trades (cb : bool) (total i : nat) (filings : list filing_ref) :
  fst (date_loop soup_of net cb total i filings) = flat_map (date_contribution soup_of net) filings.
Proof.
  revert i. induction filings as [|f r IH]; intros i; [reflexivity|].
  simpl. specialize (IH (S i)).
  destruct (date_loop soup_of net cb total (S i) r) as [ts evs'] eqn:E.
  simpl in *. rewrite IH. reflexivity.
Qed.

Lemma collect_all_trades (cb : bool) (filings : list filing_ref) :
  fst (collect_all_form4_by_date soup_of net cb filings) =
  flat_map (date_contribution soup_of net) filings.
Proof.
  unfold collect_all_form4_by_date. destruct filings as [|f r]; [reflexivity|].
  pose proof (date_loop_trades cb (length (f :: r)) 0 (f :: r)) as H.
  destruct (date_loop soup_of net cb (length (f :: r)) 0 (f :: r)). exact H.
Qed.

Lemma watch_filings_trades (ticker : string) (filings : list wl_filing) :
  fst (watch_filings soup_of net ticker filings) =
  flat_map (watch_contribution soup_of net ticker) filings.
Proof.
  induction filings as [|f r IH]; [reflexivity|].
  simpl. destruct (watch_filings soup_of net ticker r) as [ts evs'] eqn:E.
  simpl in *. rewrite IH. reflexivity.
Qed.

Lemma date_loop_events_cb (total i : nat) (filings : list filing_ref) :
  snd (date_loop soup_of net true total i filings) =
  flat_map (fun p => [EvProgress (fst p) total; EvSleep; EvGet (fr_url (snd p))])
    (combine (seq i (length filings)) filings).
Proof.
  revert i. induction filings as [|f r IH]; intros i; [reflexivity|].
  simpl. specialize (IH (S i)).
  destruct (date_loop soup_of net true total (S i) r) as [ts evs'] eqn:E.
  simpl in *. rewrite IH. reflexivity.
Qed.

Lemma date_loop_no_progress (total i : nat) (filings : list filing_ref) (j n : nat) :
  ~ In (EvProgress j n) (snd (date_loop soup_of net false total i filings)).
Proof.
  revert i. induction filings as [|f r IH]; intros i; [simpl; tauto|].
  simpl. specialize (IH (S i)).
  destruct (date_loop soup_of net false total (S i) r) as [ts evs'] eqn:E.
  simpl in *. intros [H | [H | H]]; [discriminate | discriminate | exact (IH H)].
Qed.

Lemma date_loop_gets (cb : bool) (total i : nat) (filings : list filing_ref) (f : filing_ref) :
  In f filings -> In (EvGet (fr_url f)) (snd (date_loop soup_of net cb total i filings)).
Proof.
  revert i. induction filings as [|g r IH]; intros i Hin; [destruct Hin|].
  simpl. specialize (IH (S i)).
  destruct (date_loop soup_of net cb total (S i) r) as [ts evs'] eqn:E.
  simpl in *. apply in_or_app.
  destruct Hin as [-> | Hin].
  - left. apply in_or_app. right. right. left. reflexivity.
  - right. exact (IH Hin).
Qed.

Lemma watch_filings_quiet (ticker : string) (filings : list wl_filing) :
  Forall quiet (snd (watch_filings soup_of net ticker filings)).
Proof.
  induction filings as [|f r IH]; [constructor|].
  simpl. destruct (watch_filings soup_of net ticker r) as [ts evs'] eqn:E.
  simpl in *. repeat constructor. exact IH.
Qed.

Lemma watch_filings_gets (ticker : string) (filings : list wl_filing) (f : wl_filing) :
  In f filings -> In (EvGet (wf_url f)) (snd (watch_filings soup_of net ticker filings)).
Proof.
  induction filings as [|g r IH]; intros Hin; [destruct Hin|].
  simpl. destruct (watch_filings soup_of net ticker r) as [ts evs'] eqn:E.
  simpl in *. destruct Hin as [-> | Hin]; [right; left; reflexivity|].
  right. right. exact (IH Hin).
Qed.

Variable sub_net : string -> sub_response.
Variable json_load : string -> option json.
Variable json_dump : list (string * string) -> string.
Variable py_str : json -> string.
Variable dict_slice_exn : string.

Lemma collect_watchlist_quiet (cik_map : string -> option string) (tickers : list string)
    (m : Z) :
  Forall quiet (snd (collect_watchlist soup_of net sub_net cik_map tickers m)).
Proof.
  induction tickers as [|t rest IH]; [constructor|].
  simpl.
  destruct (collect_watchlist soup_of net sub_net cik_map rest m) as [o evs'] eqn:Er.
  simpl in IH.
  destruct (cik_map (upper t)) as [cik|]; [destruct (String.eqb cik "")|];
    [simpl; exact IH| |simpl; exact IH].
  destruct (sub_net (SEC_SUBMISSIONS_URL cik)) as [| |r];
    [simpl; repeat constructor; exact IH | simpl; repeat constructor|].
  destruct (form4_filings 0 (forms r) r cik (upper t)) as [fs|];
    [|simpl; repeat constructor].
  pose proof (watch_filings_quiet (upper t) (slice_upto fs m)) as Hw.
  destruct (watch_filings soup_of net (upper t) (slice_upto fs m)) as [ts evs].
  simpl in *. constructor; [exact I|]. constructor; [exact I|].
  apply Forall_app. split; [exact Hw | exact IH].
Qed.

Lemma fetch_ticker_quiet (now : float) (w : write_result) (cache : option (float * string)) :
  Forall quiet (snd (fst (fetch_ticker_to_cik_map json_load json_dump py_str net now w cache))).
Proof.
  unfold fetch_ticker_to_cik_map.
  repeat match goal with
  | |- context [match ?x with _ => _ end] => destruct x
  end; simpl; repeat constructor.
Qed.

Lemma watchlist_run_quiet (cik_map : json) (tickers : list string) (m : Z) :
  Forall quiet (snd (watchlist_run soup_of net sub_net py_str cik_map tickers m)).
Proof.
  unfold watchlist_run. destruct cik_map; try apply collect_watchlist_quiet;
    destruct tickers; constructor.
Qed.

Lemma collect_call_quiet recurse (now : float) (w : write_result)
    (cache : option (float * string)) (tickers : list string) (mode : string) (m : Z)
    (url : string) :
  (forall c t, Forall quiet (snd (fst (recurse c t)))) ->
  Forall quiet (snd (fst (collect_call soup_of net sub_net json_load json_dump py_str
                            dict_slice_exn recurse now w cache tickers mode m url))).
Proof.
  intros Hr. unfold collect_call.
  pose proof (fetch_ticker_quiet now w cache) as Hf.
  destruct (fetch_ticker_to_cik_map json_load json_dump py_str net now w cache)
    as [[[map|e] evm] cache1]; simpl in Hf; [|exact Hf].
  destruct (String.eqb mode "watchlist").
  { pose proof (watchlist_run_quiet map tickers m) as Hw.
    destruct (watchlist_run soup_of net sub_net py_str map tickers m) as [o evs].
    simpl in *. apply Forall_app. split; assumption. }
  destruct (String.eqb mode "latest"); [|exact Hf].
  assert (Hfb : Forall quiet (snd (fst (let '(o, evs', cache2) := recurse cache1 tickers in
                                         (o, ((evm ++ [EvGet url]) ++ evs')%list, cache2))))).
  { specialize (Hr cache1 tickers).
    destruct (recurse cache1 tickers) as [[o evs'] cache2]. simpl in *.
    apply Forall_app. split; [|exact Hr]. apply Forall_app. split; [exact Hf|].
    repeat constructor. }
  destruct (net url) as [|status body]; [exact Hfb|].
  destruct (raise_for_status status); [exact Hfb|].
  destruct (json_load body) as [data|]; [|exact Hfb].
  destruct (latest_scan dict_slice_exn data); simpl;
    apply Forall_app; split; [exact Hf | repeat constructor | exact Hf | repeat constructor].
Qed.

Lemma collect_insider_trades_quiet (now1 now2 : float) (w1 w2 : write_result)
    (cache : option (float * string)) (tickers : list string) (mode : string) (m : Z)
    (url : string) :
  Forall quiet (snd (fst (collect_insider_trades soup_of net sub_net json_load json_dump
                            py_str dict_slice_exn now1 now2 w1 w2 cache tickers mode m url))).
Proof.
  unfold collect_insider_trades. apply collect_call_quiet.
  intros c t. apply collect_call_quiet. intros. constructor.
Qed.

End Runs.

End CollectFacts.

(** ** Claims on the collection strategies *)
Module CollectClaims.
Import Py Soup Parser Scraper Views CollectFacts Inputs.

(** C7, counterexample: a watchlist run that fetches and parses a
    filing never calls a progress callback; [collect_insider_trades]
    takes none. *)
Lemma watchlist_progress_counterexample :
  let '(o, evs, _) :=
    collect_insider_trades soup_purchase net_ok sub_net_aapl json_inputs (fun _ => "map")
      (fun _ => "") "TypeError" (of_Z 60) (of_Z 60) WriteOk WriteOk cache_aapl
      ["aapl"] "watchlist" 10 "" in
  (exists ts, o = Ok ts /\ length ts = 1%nat) /\
  In (EvGet "https://www.sec.gov/Archives/edgar/data/0000320193/000032019324000001/form4.xml") evs /\
  ~ (exists i n, In (EvProgress i n) evs).
Proof.
  vm_compute. split; [eexists; split; reflexivity|].
  split; [right; right; right; left; reflexivity|].
  intros (i & n & H). simpl in H. intuition discriminate.
Qed.

(** C7, as amended: only the date-range strategy takes a progress
    callback.  Given one and a non-empty filing list of length [n], it
    is called with [(i, n)] just before filing [i] is fetched, for
    [i = 0 .. n-1], and with [(n, n)] after the last one; without one,
    or with no filings, no progress call happens.  No run of
    [collect_insider_trades], in any mode, calls a progress callback. *)
Theorem progress_callback_date_range_only :
  (forall soup_of net (filings : list filing_ref),
     filings <> [] ->
     snd (collect_all_form4_by_date soup_of net true filings) =
       (flat_map (fun p => [EvProgress (fst p) (length filings); EvSleep;
                            EvGet (fr_url (snd p))])
          (combine (seq 0 (length filings)) filings)
        ++ [EvProgress (length filings) (length filings)])%list) /\
  (forall soup_of net cb (filings : list filing_ref) i n,
     cb = false \/ filings = [] ->
     ~ In (EvProgress i n) (snd (collect_all_form4_by_date soup_of net cb filings))) /\
  (forall soup_of net sub_net json_load json_dump py_str dict_slice_exn now1 now2 w1 w2
          cache tickers mode m url,
     Forall quiet (snd (fst (collect_insider_trades soup_of net sub_net json_load json_dump
                               py_str dict_slice_exn now1 now2 w1 w2 cache tickers mode
                               m url)))).
Proof.
  split; [|split].
  - intros soup_of net filings Hne.
    destruct filings as [|f r]; [congruence|].
    unfold collect_all_form4_by_date.
    pose proof (date_loop_events_cb soup_of net (length (f :: r)) 0 (f :: r)) as H.
    destruct (date_loop soup_of net true (length (f :: r)) 0 (f :: r)) as [ts evs].
    simpl in H |- *. rewrite H. reflexivity.
  - intros soup_of net cb filings i n [-> | ->].
    + unfold collect_all_form4_by_date.
      destruct filings as [|f r]; [simpl; tauto|].
      pose proof (date_loop_no_progress soup_of net (length (f :: r)) 0 (f :: r) i n) as H.
      destruct (date_loop soup_of net false (length (f :: r)) 0 (f :: r)) as [ts evs].
      simpl in *. rewrite app_nil_r. exact H.
    + simpl. tauto.
  - intros. apply collect_insider_trades_quiet.
Qed.

Lemma progress_callback_date_range_only_witness :
  snd (collect_all_form4_by_date soup_purchase net_ok true
         [{| fr_url := "u"; fr_ticker := ""; fr_company := ""; fr_filing_date := "d" |}]) =
    [EvProgress 0 1; EvSleep; EvGet "u"; EvProgress 1 1] /\
  ~ In (EvProgress 0 0) (snd (collect_all_form4_by_date soup_purchase net_ok true [])).
Proof.
  destruct progress_callback_date_range_only as (H1 & H2 & _).
  split.
  - rewrite (H1 soup_purchase net_ok
               [{| fr_url := "u"; fr_ticker := ""; fr_company := ""; fr_filing_date := "d" |}]).
    + reflexivity.
    + discriminate.
  - apply (H2 soup_purchase net_ok true [] 0%nat 0%nat). right. reflexivity.
Defined.

(** C8: in the date-range strategy each parsed record gets
    [filing_date] from the filing reference unconditionally, [ticker]
    and [company] only when the record's own value is falsy (empty)
    and the reference's is non-empty, and no other field changes; in
    the watchlist strategy each record gets [ticker] (the ticker the
    filing list was fetched for, which is every filing's own
    [ticker]) and [filing_date], and no other field changes.  The
    trades of both runs are exactly these updated records. *)
Theorem collection_field_updates :
  (forall (filing : filing_ref) (trade : record),
     let r := fill_from_filing filing trade in
     r !! "filing_date" = Some (PStr (fr_filing_date filing)) /\
     r !! "ticker" =
       (if negb (get_truthy trade "ticker") && negb (String.eqb (fr_ticker filing) "")
        then Some (PStr (fr_ticker filing)) else trade !! "ticker") /\
     r !! "company" =
       (if negb (get_truthy trade "company") && negb (String.eqb (fr_company filing) "")
        then Some (PStr (fr_company filing)) else trade !! "company") /\
     (forall k, k <> "ticker" -> k <> "company" -> k <> "filing_date" ->
        r !! k = trade !! k)) /\
  (forall (ticker : string) (filing : wl_filing) (trade : record),
     let r := set_from_filing ticker filing trade in
     r !! "filing_date" = Some (PStr (wf_filing_date filing)) /\
     r !! "ticker" = Some (PStr ticker) /\
     (forall k, k <> "ticker" -> k <> "filing_date" -> r !! k = trade !! k)) /\
  (forall (r : recent) (cik ticker : string) (fs : list wl_filing),
     form4_filings 0 (forms r) r cik ticker = Some fs ->
     Forall (fun f => wf_ticker f = ticker) fs) /\
  (forall soup_of net cb (filings : list filing_ref),
     fst (collect_all_form4_by_date soup_of net cb filings) =
     flat_map (date_contribution soup_of net) filings) /\
  (forall soup_of net ticker (filings : list wl_filing),
     fst (watch_filings soup_of net ticker filings) =
     flat_map (watch_contribution soup_of net ticker) filings).
Proof.
  split; [|split; [|split; [|split]]].
  - intros filing trade. unfold fill_from_filing. cbv zeta.
    assert (Hc : forall v, get_truthy (<["ticker" := v]> trade) "company" =
                           get_truthy trade "company").
    { intros v. unfold get_truthy. rewrite lookup_insert_ne by discriminate.
      reflexivity. }
    destruct (negb (get_truthy trade "ticker") && negb (String.eqb (fr_ticker filing) ""));
      [rewrite Hc|];
      destruct (negb (get_truthy trade "company") && negb (String.eqb (fr_company filing) ""));
      (split; [apply lookup_insert_eq|]);
      repeat first [ rewrite lookup_insert_eq
                   | rewrite lookup_insert_ne by discriminate
                   | split ];
      try reflexivity;
      intros k H1 H2 H3;
      repeat (rewrite lookup_insert_ne by congruence); reflexivity.
  - intros ticker filing trade. unfold set_from_filing. cbv zeta.
    split; [apply lookup_insert_eq|]. split.
    + rewrite lookup_insert_ne by discriminate. apply lookup_insert_eq.
    + intros k H1 H2. rewrite !lookup_insert_ne by congruence. reflexivity.
  - intros r cik ticker.
    generalize 0%nat. generalize (forms r).
    induction l as [|form rest IH]; intros i fs H; simpl in H.
    + injection H as <-. constructor.
    + destruct (String.eqb form "4"); [|exact (IH (S i) fs H)].
      destruct (nth_error (accessions r) i); [|discriminate].
      destruct (nth_error (documents r) i); [|discriminate].
      destruct (nth_error (filing_dates r) i); [|discriminate].
      destruct (form4_filings (S i) rest r cik ticker) as [fs'|] eqn:E; [|discriminate].
      simpl in H. injection H as <-. constructor; [reflexivity|].
      exact (IH (S i) fs' E).
  - intros. apply collect_all_trades.
  - intros. apply watch_filings_trades.
Qed.

Lemma collection_field_updates_witness :
  exists fs, form4_filings 0 (forms recent_aapl) recent_aapl "0000320193" "AAPL" = Some fs /\
             Forall (fun f => wf_ticker f = "AAPL") fs.
Proof.
  destruct collection_field_updates as (_ & _ & H3 & _).
  eexists. split.
  - vm_compute. reflexivity.
  - apply (H3 recent_aapl "0000320193" "AAPL"). vm_compute. reflexivity.
Defined.

(** C9, counterexample: a 304 answer is not 2xx, yet [fetch_form4_xml]
    returns its body, since [raise_for_status] only raises for 4xx and
    5xx. *)
Lemma fetch_non_2xx_counterexample :
  fetch_form4_xml (fun _ => Resp 304 "<ownershipDocument/>") "u" =
    Some "<ownershipDocument/>" /\
  ~ (200 <= 304 < 300).
Proof. split; [reflexivity | lia]. Qed.

(** C9, as amended: [fetch_form4_xml] returns [None] exactly on a
    network error or a 4xx/5xx status, and the body for every other
    status; it never raises.  Both strategies skip a filing whose
    fetch gave [None] (it contributes no records) and go on with the
    rest: every filing is still requested. *)
Theorem fetch_failure_is_skipped :
  (forall net url,
     fetch_form4_xml net url = None <->
     net url = NetError \/
     exists status body, net url = Resp status body /\ 400 <= status < 600) /\
  (forall net url status body,
     net url = Resp status body -> ~ (400 <= status < 600) ->
     fetch_form4_xml net url = Some body) /\
  (forall soup_of net (filing : filing_ref),
     fetch_form4_xml net (fr_url filing) = None -> date_contribution soup_of net filing = []) /\
  (forall soup_of net ticker (filing : wl_filing),
     fetch_form4_xml net (wf_url filing) = None ->
     watch_contribution soup_of net ticker filing = []) /\
  (forall soup_of net cb (filings : list filing_ref) f,
     In f filings ->
     In (EvGet (fr_url f)) (snd (collect_all_form4_by_date soup_of net cb filings))) /\
  (forall soup_of net ticker (filings : list wl_filing) f,
     In f filings -> In (EvGet (wf_url f)) (snd (watch_filings soup_of net ticker filings))).
Proof.
  split; [|split; [|split; [|split; [|split]]]].
  - intros net url. unfold fetch_form4_xml, raise_for_status.
    destruct (net url) as [|status body]; split.
    + intros _. left. reflexivity.
    + intros _. reflexivity.
    + intros H. right. exists status, body. split; [reflexivity|].
      destruct ((400 <=? status) && (status <? 600)) eqn:E; [|discriminate].
      apply andb_prop in E. destruct E as [E1 E2].
      apply Z.leb_le in E1. apply Z.ltb_lt in E2. lia.
    + intros [H | (st & b & H & Hr)]; [discriminate|].
      injection H as <- <-.
      replace ((400 <=? status) && (status <? 600)) with true; [reflexivity|].
      symmetry. apply andb_true_intro.
      split; [apply Z.leb_le | apply Z.ltb_lt]; lia.
  - intros net url status body H Hn. unfold fetch_form4_xml, raise_for_status.
    rewrite H.
    destruct ((400 <=? status) && (status <? 600)) eqn:E; [|reflexivity].
    apply andb_prop in E. destruct E as [E1 E2].
    apply Z.leb_le in E1. apply Z.ltb_lt in E2. lia.
  - intros soup_of net filing H. unfold date_contribution. rewrite H. reflexivity.
  - intros soup_of net ticker filing H. unfold watch_contribution. rewrite H. reflexivity.
  - intros soup_of net cb filings f Hin. unfold collect_all_form4_by_date.
    destruct filings as [|g r]; [destruct Hin|].
    pose proof (date_loop_gets soup_of net cb (length (g :: r)) 0 (g :: r) f Hin) as H.
    destruct (date_loop soup_of net cb (length (g :: r)) 0 (g :: r)) as [ts evs].
    simpl in *. apply in_or_app. left. exact H.
  - intros soup_of net ticker filings f Hin. exact (watch_filings_gets soup_of net ticker filings f Hin).
Qed.

Lemma fetch_failure_is_skipped_witness :
  fetch_form4_xml (fun _ => Resp 404 "") "u" = None /\
  fetch_form4_xml (fun _ => Resp 200 "x") "u" = Some "x" /\
  In (EvGet "u2")
    (snd (collect_all_form4_by_date soup_purchase (fun _ => NetError) false
            [{| fr_url := "u1"; fr_ticker := ""; fr_company := ""; fr_filing_date := "d" |};
             {| fr_url := "u2"; fr_ticker := ""; fr_company := ""; fr_filing_date := "d" |}])).
Proof.
  destruct fetch_failure_is_skipped as (H1 & H2 & _ & _ & H5 & _).
  split; [|split].
  - apply (proj2 (H1 (fun _ => Resp 404 "") "u")). right. exists 404, "".
    split; [reflexivity | lia].
  - apply (H2 (fun _ => Resp 200 "x") "u" 200 "x"); [reflexivity | lia].
  - apply (H5 soup_purchase (fun _ => NetError) false _
             {| fr_url := "u2"; fr_ticker := ""; fr_company := ""; fr_filing_date := "d" |}).
    right. left. reflexivity.
Defined.




End CollectClaims.

(** ** Renaming a tag *)
Module CaseFacts.
Import Py Soup SoupFacts Parser.

Lemma find_map {A B} (p : B -> bool) (f : A -> B) (l : list A) :
  List.find p (map f l) = option_map f (List.find (fun x => p (f x)) l).
Proof.
  induction l as [|x r IH]; [reflexivity|].
  simpl. destruct (p (f x)); [reflexivity | exact IH].
Qed.

Lemma filter_map_comm {A B} (p : B -> bool) (f : A -> B) (l : list A) :
  List.filter p (map f l) = map f (List.filter (fun x => p (f x)) l).
Proof.
  induction l as [|x r IH]; [reflexivity|].
  simpl. destruct (p (f x)); simpl; rewrite IH; reflexivity.
Qed.

Lemma find_ext_in {A} (p q : A -> bool) (l : list A) :
  (forall x, In x l -> p x = q x) -> List.find p l = List.find q l.
Proof.
  induction l as [|x r IH]; intros H; [reflexivity|].
  simpl. rewrite (H x (or_introl eq_refl)).
  destruct (q x); [reflexivity|].
  apply IH. intros y Hy. exact (H y (or_intror Hy)).
Qed.

Lemma filter_none {A} (p : A -> bool) (l : list A) :
  (forall x, In x l -> p x = false) -> List.filter p l = [].
Proof.
  induction l as [|x r IH]; intros H; [reflexivity|].
  simpl. rewrite (H x (or_introl eq_refl)).
  apply IH. intros y Hy. exact (H y (or_intror Hy)).
Qed.

Lemma descendants_rename (a b : string) (n : node) :
  descendants (rename_tag a b n) = map (rename_tag a b) (descendants n).
Proof.
  induction n as [s | nm kids IH] using node_rect'; [reflexivity|].
  simpl. induction kids as [|k r IHr]; [reflexivity|].
  inversion IH as [|? ? Hk Hr]; subst. simpl.
  rewrite Hk, (IHr Hr), map_app. reflexivity.
Qed.

Lemma text_rename (a b : string) (n : node) : text (rename_tag a b n) = text n.
Proof.
  induction n as [s | nm kids IH] using node_rect'; [reflexivity|].
  simpl. induction kids as [|k r IHr]; [reflexivity|].
  inversion IH as [|? ? Hk Hr]; subst. simpl.
  rewrite Hk. f_equal. exact (IHr Hr).
Qed.

Lemma has_name_rename_other (a b x : string) (d : node) :
  x <> a -> x <> b -> has_name x (rename_tag a b d) = has_name x d.
Proof.
  intros H1 H2. destruct d as [nm kids | s]; [|reflexivity]. simpl.
  destruct (String.eqb_spec nm a) as [->|_]; [|reflexivity].
  destruct (String.eqb_spec b x), (String.eqb_spec a x); congruence.
Qed.

Lemma has_name_rename_src (a b : string) (d : node) :
  a <> b -> has_name a (rename_tag a b d) = false.
Proof.
  intros H. destruct d as [nm kids | s]; [|reflexivity]. simpl.
  destruct (String.eqb_spec nm a) as [->|Hne].
  - apply String.eqb_neq. congruence.
  - apply String.eqb_neq. exact Hne.
Qed.

Lemma has_name_rename_dst (a b : string) (d : node) :
  has_name b d = false -> has_name b (rename_tag a b d) = has_name a d.
Proof.
  destruct d as [nm kids | s]; [|reflexivity]. simpl. intros H.
  destruct (String.eqb_spec nm a) as [->|Hne].
  - rewrite !String.eqb_refl. reflexivity.
  - exact H.
Qed.

Lemma no_elem_spec (b : string) (n : node) :
  no_elem b n = true -> forall d, In d (descendants n) -> has_name b d = false.
Proof.
  unfold no_elem. intros H d Hd. rewrite forallb_forall in H.
  specialize (H d Hd). destruct (has_name b d); [discriminate H | reflexivity].
Qed.

Lemma no_elem_desc (b : string) (n t : node) :
  no_elem b n = true -> In t (descendants n) -> no_elem b t = true.
Proof.
  unfold no_elem. rewrite !forallb_forall. intros H Ht d Hd.
  apply H. exact (descendants_trans _ _ _ Ht Hd).
Qed.

Lemma find_rename_other (a b x : string) (n : node) :
  x <> a -> x <> b ->
  find (rename_tag a b n) x = option_map (rename_tag a b) (find n x).
Proof.
  intros H1 H2. unfold find. rewrite descendants_rename, find_map. f_equal.
  apply find_ext_in. intros d _. apply has_name_rename_other; assumption.
Qed.

Lemma find_rename_src (a b : string) (n : node) :
  a <> b -> find (rename_tag a b n) a = None.
Proof.
  intros H. unfold find. rewrite descendants_rename, find_map.
  rewrite find_none_intro; [reflexivity|].
  intros d _. apply has_name_rename_src. exact H.
Qed.

Lemma find_rename_dst (a b : string) (n : node) :
  no_elem b n = true ->
  find (rename_tag a b n) b = option_map (rename_tag a b) (find n a).
Proof.
  intros H. unfold find. rewrite descendants_rename, find_map. f_equal.
  apply find_ext_in. intros d Hd. apply has_name_rename_dst.
  exact (no_elem_spec b n H d Hd).
Qed.

Lemma find_no_elem (b : string) (n : node) : no_elem b n = true -> find n b = None.
Proof. intros H. unfold find. apply find_none_intro. exact (no_elem_spec b n H). Qed.

Lemma find_all_rename_other (a b x : string) (n : node) :
  x <> a -> x <> b ->
  find_all (rename_tag a b n) x = map (rename_tag a b) (find_all n x).
Proof.
  intros H1 H2. unfold find_all. rewrite descendants_rename, filter_map_comm. f_equal.
  apply List.filter_ext_in. intros d _. apply has_name_rename_other; assumption.
Qed.

Lemma find_all_rename_src (a b : string) (n : node) :
  a <> b -> find_all (rename_tag a b n) a = [].
Proof.
  intros H. unfold find_all. rewrite descendants_rename, filter_map_comm.
  rewrite filter_none; [reflexivity|].
  intros d _. apply has_name_rename_src. exact H.
Qed.

Lemma find_all_rename_dst (a b : string) (n : node) :
  no_elem b n = true ->
  find_all (rename_tag a b n) b = map (rename_tag a b) (find_all n a).
Proof.
  intros H. unfold find_all. rewrite descendants_rename, filter_map_comm. f_equal.
  apply List.filter_ext_in. intros d Hd. apply has_name_rename_dst.
  exact (no_elem_spec b n H d Hd).
Qed.

Lemma find_all_no_elem (b : string) (n : node) : no_elem b n = true -> find_all n b = [].
Proof. intros H. unfold find_all. apply filter_none. exact (no_elem_spec b n H). Qed.

(** names of lower-case start and their PascalCase forms *)
Lemma upper_char_not_lower (c : ascii) :
  ((97 <=? nat_of_ascii (upper_char c)) && (nat_of_ascii (upper_char c) <=? 122))%nat = false.
Proof. destruct c as [[] [] [] [] [] [] [] []]; reflexivity. Qed.

Lemma upper_char_inj (c c' : ascii) :
  ((97 <=? nat_of_ascii c) && (nat_of_ascii c <=? 122))%nat = true ->
  ((97 <=? nat_of_ascii c') && (nat_of_ascii c' <=? 122))%nat = true ->
  upper_char c = upper_char c' -> c = c'.
Proof.
  unfold upper_char. intros H H' E. rewrite H, H' in E.
  apply andb_prop in H as [H1 _]. apply andb_prop in H' as [H1' _].
  apply Nat.leb_le in H1, H1'.
  apply (f_equal nat_of_ascii) in E.
  pose proof (nat_ascii_bounded c). pose proof (nat_ascii_bounded c').
  rewrite !nat_ascii_embedding in E by lia.
  rewrite <- (ascii_nat_embedding c), <- (ascii_nat_embedding c').
  f_equal. lia.
Qed.

Lemma lower_start_pascal (a : string) : lower_start a = true -> a <> pascal a.
Proof.
  destruct a as [|c r]; [discriminate|]. cbn [lower_start pascal]. intros H E.
  injection E as E. rewrite E, upper_char_not_lower in H. discriminate H.
Qed.

Lemma lower_start_names (a x : string) :
  lower_start a = true -> lower_start x = true ->
  x = a \/ (x <> a /\ x <> pascal a /\ pascal x <> a /\ pascal x <> pascal a).
Proof.
  intros Ha Hx.
  destruct (String.eqb_spec x a) as [E|Ne]; [left; exact E|right].
  destruct a as [|c r]; [discriminate|]. destruct x as [|c' r']; [discriminate|].
  cbn [lower_start pascal] in Ha, Hx |- *.
  split; [exact Ne|]. split; [|split].
  - intros E. injection E as E _. rewrite E, upper_char_not_lower in Hx. discriminate Hx.
  - intros E. injection E as E _. rewrite <- E, upper_char_not_lower in Ha. discriminate Ha.
  - intros E. injection E as E1 E2. apply Ne.
    rewrite (upper_char_inj c' c Hx Ha E1), E2. reflexivity.
Qed.

Lemma find_or_rename (a : string) (n : node) (x y : string) :
  lower_start a = true -> lower_start x = true -> y = pascal x ->
  no_elem (pascal a) n = true ->
  find_or (rename_tag a (pascal a) n) x y =
  option_map (rename_tag a (pascal a)) (find_or n x y).
Proof.
  intros Ha Hx -> Hb. unfold find_or.
  destruct (lower_start_names a x Ha Hx) as [-> | (H1 & H2 & H3 & H4)].
  - rewrite find_rename_src by exact (lower_start_pascal a Ha).
    rewrite find_rename_dst by exact Hb.
    destruct (find n a); [reflexivity|].
    rewrite find_no_elem by exact Hb. reflexivity.
  - rewrite find_rename_other by assumption.
    destruct (find n x); [reflexivity|].
    apply find_rename_other; assumption.
Qed.

Lemma find_all_or_rename (a : string) (n : node) (x y : string) :
  lower_start a = true -> lower_start x = true -> y = pascal x ->
  no_elem (pascal a) n = true ->
  find_all_or (rename_tag a (pascal a) n) x y =
  map (rename_tag a (pascal a)) (find_all_or n x y).
Proof.
  intros Ha Hx -> Hb. unfold find_all_or.
  destruct (lower_start_names a x Ha Hx) as [-> | (H1 & H2 & H3 & H4)].
  - rewrite find_all_rename_src by exact (lower_start_pascal a Ha).
    rewrite find_all_rename_dst by exact Hb.
    destruct (find_all n a); [|reflexivity].
    rewrite find_all_no_elem by exact Hb. reflexivity.
  - rewrite find_all_rename_other by assumption.
    destruct (find_all n x); [|reflexivity].
    apply find_all_rename_other; assumption.
Qed.

(** one lookup of the extractor on a renamed tree, followed by a case
    split on its result *)
Ltac rename_lookup :=
  match goal with
  | |- context [find_or (rename_tag ?a (pascal ?a) ?n) ?x ?y] =>
      rewrite (find_or_rename a n x y) by first [reflexivity | assumption];
      let t := fresh "t" in
      let E := fresh "E" in
      let Hbt := fresh "Hb" in
      destruct (find_or n x y) as [t|] eqn:E; cbn [option_map];
      [assert (Hbt : no_elem (pascal a) t = true)
         by (apply (no_elem_desc (pascal a) n t);
             [assumption | exact (find_or_in _ _ _ _ E)]) |]
  end.

Section Rename.
Variable a : string.
Hypothesis Ha : lower_start a = true.

Lemma float_value_rename (t : node) :
  no_elem (pascal a) t = true -> float_value (rename_tag a (pascal a) t) = float_value t.
Proof.
  intros Hb. unfold float_value, value_of.
  repeat rename_lookup; rewrite ?text_rename; reflexivity.
Qed.

Lemma get_text_rename (p : node) (tag_name : string) :
  lower_start tag_name = true -> no_elem (pascal a) p = true ->
  get_text (rename_tag a (pascal a) p) tag_name = get_text p tag_name.
Proof.
  intros Ht Hb. unfold get_text.
  repeat rename_lookup; rewrite ?text_rename; reflexivity.
Qed.

Lemma get_bool_rename (p : node) (tag_name : string) :
  lower_start tag_name = true -> no_elem (pascal a) p = true ->
  get_bool (rename_tag a (pascal a) p) tag_name = get_bool p tag_name.
Proof. intros Ht Hb. unfold get_bool. rewrite get_text_rename by assumption. reflexivity. Qed.

Lemma txn_code_rename (t : node) :
  no_elem (pascal a) t = true -> txn_code (rename_tag a (pascal a) t) = txn_code t.
Proof.
  intros Hb. unfold txn_code.
  repeat rename_lookup; rewrite ?text_rename; reflexivity.
Qed.

Lemma txn_amounts_rename (t : node) :
  no_elem (pascal a) t = true -> txn_amounts (rename_tag a (pascal a) t) = txn_amounts t.
Proof.
  intros Hb. unfold txn_amounts, value_of.
  repeat rename_lookup; rewrite ?float_value_rename, ?text_rename by assumption;
    reflexivity.
Qed.

Lemma txn_shares_after_rename (t : node) :
  no_elem (pascal a) t = true -> txn_shares_after (rename_tag a (pascal a) t) = txn_shares_after t.
Proof.
  intros Hb. unfold txn_shares_after.
  repeat rename_lookup; rewrite ?float_value_rename by assumption; reflexivity.
Qed.

Lemma txn_ownership_rename (t : node) :
  no_elem (pascal a) t = true -> txn_ownership (rename_tag a (pascal a) t) = txn_ownership t.
Proof.
  intros Hb. unfold txn_ownership, value_of.
  repeat rename_lookup; rewrite ?text_rename; reflexivity.
Qed.

Lemma parse_transaction_rename (t : node) (kind : string) :
  no_elem (pascal a) t = true ->
  parse_transaction (rename_tag a (pascal a) t) kind = parse_transaction t kind.
Proof.
  intros Hb. unfold parse_transaction.
  rewrite txn_code_rename, txn_amounts_rename, txn_shares_after_rename,
    txn_ownership_rename by assumption.
  reflexivity.
Qed.

Lemma issuer_info_rename (soup : node) :
  no_elem (pascal a) soup = true ->
  issuer_info (rename_tag a (pascal a) soup) = issuer_info soup.
Proof.
  intros Hb. unfold issuer_info.
  repeat rename_lookup; rewrite ?text_rename; reflexivity.
Qed.

Lemma titles_of_rename (rel : node) :
  no_elem (pascal a) rel = true -> titles_of (rename_tag a (pascal a) rel) = titles_of rel.
Proof.
  intros Hb. unfold titles_of.
  rewrite !get_bool_rename, !get_text_rename by first [reflexivity | assumption].
  reflexivity.
Qed.

Lemma owner_info_rename (soup : node) :
  no_elem (pascal a) soup = true ->
  owner_info (rename_tag a (pascal a) soup) = owner_info soup.
Proof.
  intros Hb. unfold owner_info.
  repeat rename_lookup; rewrite ?text_rename, ?titles_of_rename by assumption; reflexivity.
Qed.

Lemma table_trades_rename (soup : node) (ta tb xa xb kind : string) extra :
  lower_start ta = true -> tb = pascal ta -> lower_start xa = true -> xb = pascal xa ->
  no_elem (pascal a) soup = true ->
  table_trades (rename_tag a (pascal a) soup) ta tb xa xb kind extra =
  table_trades soup ta tb xa xb kind extra.
Proof.
  intros Hta Htb Hxa Hxb Hb. unfold table_trades.
  rename_lookup; [|reflexivity].
  rewrite (find_all_or_rename a t xa xb) by assumption.
  rewrite map_map. apply map_ext_in. intros txn Hin.
  rewrite parse_transaction_rename; [reflexivity|].
  exact (no_elem_desc _ _ _ Hb0 (find_all_or_in _ _ _ _ Hin)).
Qed.

End Rename.

End CaseFacts.

(** ** Case variants of tag names *)
Module CaseClaims.
Import Py Soup SoupFacts Parser CaseFacts Inputs.

(** C5, counterexample: the two documents differ only in the casing of
    one transaction tag, but [find_all(a) or find_all(b)] takes the
    PascalCase lines only when there is no lowerCamelCase one, so the
    first yields two records and the second one. *)
Lemma mixed_case_lines_counterexample :
  length (parse_form4_xml doc_lines_lower "u") = 2%nat /\
  length (parse_form4_xml doc_lines_mixed "u") = 1%nat.
Proof. split; reflexivity. Qed.

(** C5, as amended: every single-element lookup tries the
    lowerCamelCase name and then the PascalCase one, and a list lookup
    takes the PascalCase elements only when there is no lowerCamelCase
    one.  So writing every element of one lowerCamelCase tag name [a]
    (say [issuerName]) in PascalCase instead yields the same records,
    company name included, provided the document had no element of
    that PascalCase name; and a table that mixes both casings of its
    transaction tag keeps only its lowerCamelCase lines. *)
Theorem tag_case_variants :
  (forall (a : string) (soup : node) (url : string),
     lower_start a = true -> no_elem (pascal a) soup = true ->
     parse_form4_xml (rename_tag a (pascal a) soup) url = parse_form4_xml soup url) /\
  (forall (table : node) (x y : string),
     find_all table x <> [] ->
     find_all_or table x y = find_all table x /\
     (x <> y -> forall t, In t (find_all table y) -> ~ In t (find_all_or table x y))).
Proof.
  split.
  - intros a soup url Ha Hb. unfold parse_form4_xml.
    rewrite (issuer_info_rename a Ha soup Hb), (owner_info_rename a Ha soup Hb).
    destruct (issuer_info soup) as [[c cik] t], (owner_info soup) as [n ti].
    cbv beta iota zeta.
    rewrite !(table_trades_rename a Ha soup) by first [reflexivity | assumption].
    reflexivity.
  - intros table x y H. unfold find_all_or.
    destruct (find_all table x) as [|t0 r] eqn:E; [congruence|].
    split; [reflexivity|]. intros Hxy t Hy Hx. rewrite <- E in Hx.
    unfold find_all in Hx, Hy. apply filter_In in Hx, Hy.
    destruct Hx as [_ Hx], Hy as [_ Hy].
    destruct t as [nm kids | s]; [|discriminate Hx]. simpl in Hx, Hy.
    apply String.eqb_eq in Hx, Hy. congruence.
Qed.

Lemma tag_case_variants_witness :
  parse_form4_xml (rename_tag "issuerName" "IssuerName" doc_purchase) "u" =
    parse_form4_xml doc_purchase "u" /\
  find_all_or (Elem "nonDerivativeTable" [
      Elem "nonDerivativeTransaction" [];
      Elem "NonDerivativeTransaction" []]) "nonDerivativeTransaction" "NonDerivativeTransaction" =
    [Elem "nonDerivativeTransaction" []].
Proof.
  split.
  - exact (proj1 tag_case_variants "issuerName" doc_purchase "u"
             ltac:(reflexivity) ltac:(vm_compute; reflexivity)).
  - assert (H : find_all (Elem "nonDerivativeTable" [
                   Elem "nonDerivativeTransaction" [];
                   Elem "NonDerivativeTransaction" []]) "nonDerivativeTransaction" <> [])
      by (vm_compute; discriminate).
    rewrite (proj1 (proj2 tag_case_variants _ _ "NonDerivativeTransaction" H)).
    vm_compute. reflexivity.
Defined.

End CaseClaims.

(** ** The display-name ticker *)
Module TickerFacts.
Import Py Scraper Re SearchHits StrFacts.

Lemma take_upper_spec (k : nat) (s g rest : string) :
  take_upper k s = Some (g, rest) ->
  String.length g = k /\ all_upper g = true /\ s = (g ++ rest)%string.
Proof.
  revert s g. induction k as [|k IH]; intros s g H.
  - injection H as <- <-. repeat split.
  - destruct s as [|c r]; [discriminate|]. simpl in H.
    destruct (is_upper c) eqn:Hc; [|discriminate].
    destruct (take_upper k r) as [[g' rest']|] eqn:E; [|discriminate].
    injection H as <- <-. destruct (IH r g' E) as (H1 & H2 & ->).
    unfold all_upper in *. simpl. rewrite Hc, H1, H2. repeat split.
Qed.

Lemma first_some_map_in {A B} (f : A -> option B) (l : list A) (x : B) :
  first_some (map f l) = Some x -> exists k, In k l /\ f k = Some x.
Proof.
  unfold first_some. induction l as [|a l IH]; simpl; [discriminate|].
  destruct (f a) eqn:E; intros H.
  - injection H as <-. exists a. split; [left; reflexivity | exact E].
  - destruct (IH H) as (k & Hk & Hf). exists k. split; [right; exact Hk | exact Hf].
Qed.

Lemma ticker_at_shape (s g : string) :
  ticker_at s = Some g -> (1 <= String.length g <= 5)%nat /\ all_upper g = true.
Proof.
  unfold ticker_at. destruct s as [|c r]; [discriminate|].
  destruct (Ascii.eqb c "(") ; [|discriminate]. intros H.
  apply first_some_map_in in H as (k & Hk & Hf).
  destruct (take_upper k r) as [[g' rest]|] eqn:E; [|discriminate].
  destruct rest as [|d r']; [discriminate|].
  destruct (Ascii.eqb d ")"); [|discriminate]. injection Hf as <-.
  destruct (take_upper_spec k r g' _ E) as (H1 & H2 & _).
  split; [|exact H2]. rewrite H1. simpl in Hk. intuition lia.
Qed.

Lemma search_ticker_shape (s g : string) :
  search_ticker s = Some g -> (1 <= String.length g <= 5)%nat /\ all_upper g = true.
Proof.
  induction s as [|c r IH]; intros H; [discriminate|].
  change (match ticker_at (String c r) with Some g => Some g
          | None => search_ticker r end = Some g) in H.
  destruct (ticker_at (String c r)) eqn:E.
  - injection H as <-. exact (ticker_at_shape _ _ E).
  - exact (IH H).
Qed.

Lemma take_upper_exact (t s : string) :
  all_upper t = true -> take_upper (String.length t) (t ++ s) = Some (t, s).
Proof.
  unfold all_upper. induction t as [|c t IH]; intros H; [reflexivity|].
  simpl in H. apply andb_prop in H as [Hc Ht].
  rewrite str_cons_app. simpl. rewrite Hc, (IH Ht). reflexivity.
Qed.

Lemma take_upper_past (t s : string) (c : ascii) (k : nat) :
  all_upper t = true -> is_upper c = false -> (String.length t < k)%nat ->
  take_upper k (t ++ String c s) = None.
Proof.
  unfold all_upper. revert k. induction t as [|a t IH]; intros k H Hc Hk.
  - destruct k as [|k]; [simpl in Hk; lia|]. simpl. rewrite Hc. reflexivity.
  - simpl in H. apply andb_prop in H as [Ha Ht].
    destruct k as [|k]; [simpl in Hk; lia|].
    rewrite str_cons_app. simpl. rewrite Ha.
    simpl in Hk. rewrite (IH k Ht Hc) by lia. reflexivity.
Qed.

Lemma ticker_at_paren (t rest : string) :
  all_upper t = true -> (1 <= String.length t <= 5)%nat ->
  ticker_at (String "(" (t ++ String ")" rest)) = Some t.
Proof.
  intros Ht Hl.
  assert (Hp : forall k, (String.length t < k)%nat ->
                take_upper k (t ++ String ")" rest) = None)
    by (intros k Hk; apply take_upper_past; [exact Ht | reflexivity | exact Hk]).
  pose proof (take_upper_exact t (String ")" rest) Ht) as He.
  unfold ticker_at. simpl Ascii.eqb. cbv iota.
  unfold first_some. cbv [map fold_right].
  destruct (String.length t) as [|[|[|[|[|[|n]]]]]] eqn:El; try lia;
    repeat (rewrite Hp by lia); rewrite He; reflexivity.
Qed.

Lemma search_ticker_app (p s : string) :
  has_char "(" p = false -> search_ticker (p ++ s) = search_ticker s.
Proof.
  unfold has_char. induction p as [|c p IH]; intros H; [reflexivity|].
  cbn [list_ascii_of_string existsb] in H. apply orb_false_iff in H as [Hc Hp].
  rewrite str_cons_app.
  change (match ticker_at (String c (p ++ s)) with Some g => Some g
          | None => search_ticker (p ++ s) end = search_ticker s).
  unfold ticker_at at 1. rewrite Ascii.eqb_sym, Hc. exact (IH Hp).
Qed.

End TickerFacts.

(** ** [re.sub] on the display names *)
Module RegexFacts.
Import Py Re SearchHits StrFacts.

Lemma span_spec (p : ascii -> bool) (s u v : string) :
  span p s = (u, v) ->
  s = (u ++ v)%string /\ forallb p (list_ascii_of_string u) = true /\
  match v with String c _ => p c = false | EmptyString => True end.
Proof.
  revert u v. induction s as [|c s IH]; intros u v H.
  - injection H as <- <-. repeat split.
  - simpl in H. destruct (p c) eqn:Hc.
    + destruct (span p s) as [a b] eqn:E. injection H as <- <-.
      destruct (IH a b eq_refl) as (-> & H2 & H3).
      split; [reflexivity|]. simpl. rewrite Hc, H2. split; [reflexivity | exact H3].
    + injection H as <- <-. split; [reflexivity|]. split; [reflexivity | exact Hc].
Qed.

Lemma span_app_all (p : ascii -> bool) (w x : string) :
  forallb p (list_ascii_of_string w) = true ->
  span p (w ++ x) = ((w ++ fst (span p x))%string, snd (span p x)).
Proof.
  induction w as [|c w IH]; intros H.
  - rewrite !str_nil_app. destruct (span p x); reflexivity.
  - simpl in H. apply andb_prop in H as [Hc Hw].
    rewrite str_cons_app. simpl. rewrite Hc, (IH Hw). reflexivity.
Qed.

Lemma span_app_stop (p : ascii -> bool) (a x u : string) (c : ascii) (r : string) :
  span p a = (u, String c r) -> span p (a ++ x) = (u, String c (r ++ x)).
Proof.
  revert u. induction a as [|d a IH]; intros u H; [discriminate|].
  simpl in H. rewrite str_cons_app. simpl.
  destruct (p d).
  - destruct (span p a) as [a1 b1] eqn:E. injection H as <- Hb. subst b1.
    rewrite (IH a1 eq_refl). reflexivity.
  - injection H as <- <- <-. reflexivity.
Qed.

Lemma strip_prefix_spec (pre s r : string) :
  strip_prefix pre s = Some r -> s = (pre ++ r)%string.
Proof.
  revert s. induction pre as [|c pre IH]; intros s H.
  - injection H as <-. reflexivity.
  - destruct s as [|d s]; [discriminate|]. simpl in H.
    destruct (Ascii.eqb c d) eqn:E; [|discriminate].
    apply Ascii.eqb_eq in E as <-. rewrite (IH s H). reflexivity.
Qed.

Lemma strip_prefix_app (pre r : string) : strip_prefix pre (pre ++ r) = Some r.
Proof.
  induction pre as [|c pre IH]; [reflexivity|].
  rewrite str_cons_app. simpl. rewrite Ascii.eqb_refl. exact IH.
Qed.

(** scanning past a prefix at none of whose positions the pattern matches *)
Lemma re_sub_skip (m : string -> option string) (repl p s : string) (fuel : nat) :
  (forall p1 p2, p = (p1 ++ p2)%string -> p2 <> ""%string -> m (p2 ++ s)%string = None) ->
  re_sub_aux (String.length p + fuel) m repl (p ++ s) = (p ++ re_sub_aux fuel m repl s)%string.
Proof.
  induction p as [|c p IH]; intros H; [reflexivity|].
  rewrite str_cons_app. simpl String.length. rewrite Nat.add_succ_l. cbn [re_sub_aux].
  pose proof (H "" (String c p) eq_refl ltac:(discriminate)) as Hm.
  rewrite str_cons_app in Hm. rewrite Hm.
  rewrite IH; [reflexivity|].
  intros p1 p2 E Hp2. apply (H (String c p1) p2); [rewrite E; reflexivity | exact Hp2].
Qed.

Lemma re_sub_aux_match (m : string -> option string) (repl s rest : string) (fuel : nat) :
  m s = Some rest -> re_sub_aux (S fuel) m repl s = (repl ++ re_sub_aux fuel m repl rest)%string.
Proof. intros H. simpl. rewrite H. reflexivity. Qed.

Lemma re_sub_aux_nil (m : string -> option string) (repl : string) (fuel : nat) :
  m ""%string = None -> re_sub_aux fuel m repl "" = ""%string.
Proof. intros H. destruct fuel; simpl; [reflexivity|]. rewrite H. reflexivity. Qed.

(** the number of [c] in [s] *)
Lemma count_app (c : ascii) (a b : string) :
  length (List.filter (Ascii.eqb c) (list_ascii_of_string (a ++ b))) =
  (length (List.filter (Ascii.eqb c) (list_ascii_of_string a)) +
   length (List.filter (Ascii.eqb c) (list_ascii_of_string b)))%nat.
Proof. rewrite list_ascii_app, List.filter_app, length_app. reflexivity. Qed.

Lemma count_none (c : ascii) (q : ascii -> bool) (s : string) :
  q c = false -> forallb q (list_ascii_of_string s) = true ->
  length (List.filter (Ascii.eqb c) (list_ascii_of_string s)) = 0%nat.
Proof.
  intros Hc. induction s as [|d s IH]; intros H; [reflexivity|].
  simpl in H. apply andb_prop in H as [Hd Hs]. cbn [list_ascii_of_string List.filter].
  destruct (Ascii.eqb c d) eqn:E.
  - apply Ascii.eqb_eq in E as <-. congruence.
  - exact (IH Hs).
Qed.

(** a match of [\s*\(CIK\s+\d+\)\s*$] holds exactly one [")"] and
    runs to the end of the string *)
Lemma cik_suffix_at_shape (x r : string) :
  cik_suffix_at x = Some r ->
  r = ""%string /\ length (List.filter (Ascii.eqb ")") (list_ascii_of_string x)) = 1%nat.
Proof.
  unfold cik_suffix_at.
  destruct (span is_space x) as [w1 r1] eqn:E1.
  destruct (strip_prefix "(CIK" r1) as [r2|] eqn:E2; [|discriminate].
  destruct (span is_space r2) as [ws r3] eqn:E3.
  destruct (span is_digit r3) as [ds r4] eqn:E4.
  destruct ws as [|? ?]; [discriminate|]. destruct ds as [|? ?]; [discriminate|].
  destruct r4 as [|c r5]; [discriminate|].
  destruct (Ascii.eqb c ")") eqn:Ec; [|discriminate].
  destruct (span is_space r5) as [w3 [|? ?]] eqn:E5; [|discriminate].
  intros H. injection H as <-. split; [reflexivity|].
  apply Ascii.eqb_eq in Ec as ->.
  destruct (span_spec _ _ _ _ E1) as (-> & Hw1 & _).
  apply strip_prefix_spec in E2 as ->.
  destruct (span_spec _ _ _ _ E3) as (-> & Hws & _).
  destruct (span_spec _ _ _ _ E4) as (-> & Hds & _).
  destruct (span_spec _ _ _ _ E5) as (-> & Hw3 & _).
  rewrite !count_app, (count_none ")" is_space _ eq_refl Hw1),
    (count_none ")" is_space _ eq_refl Hws), (count_none ")" is_digit _ eq_refl Hds).
  rewrite str_app_nil_r. change (String ")" w3) with (")" ++ w3)%string.
  rewrite count_app, (count_none ")" is_space _ eq_refl Hw3). reflexivity.
Qed.

(** a non-empty suffix of a string keeps its last character *)
Lemma suffix_last (p1 p2 q : string) (c : ascii) :
  (p1 ++ p2)%string = (q ++ String c "")%string -> p2 <> ""%string ->
  exists q2, p2 = (q2 ++ String c "")%string.
Proof.
  revert q. induction p1 as [|d p1 IH]; intros q E Hp2.
  - exists q. exact E.
  - destruct q as [|e q].
    + simpl in E. injection E as _ E. destruct p1, p2; try discriminate. contradiction.
    + rewrite !str_cons_app in E. injection E as _ E. exact (IH q E Hp2).
Qed.

Lemma has_char_app (c : ascii) (a b : string) :
  has_char c (a ++ b) = has_char c a || has_char c b.
Proof. unfold has_char. rewrite list_ascii_app, existsb_app. reflexivity. Qed.

Lemma all_space_app (a b : string) : all_space (a ++ b) = all_space a && all_space b.
Proof. unfold all_space. rewrite list_ascii_app, forallb_app. reflexivity. Qed.

(** a string is some text that is empty or ends in a non-space, then
    a run of whitespace *)
Lemma split_trailing_space (s : string) :
  exists n0 w, s = (n0 ++ w)%string /\ all_space w = true /\
    (n0 = ""%string \/ exists n1 c, n0 = (n1 ++ String c "")%string /\ is_space c = false).
Proof.
  induction s as [|c s (n0 & w & -> & Hw & Hn)].
  - exists ""%string, ""%string. repeat split. left; reflexivity.
  - destruct Hn as [-> | (n1 & d & -> & Hd)].
    + destruct (is_space c) eqn:Hc.
      * exists ""%string, (String c w). split; [reflexivity|]. split; [|left; reflexivity].
        unfold all_space in *. simpl. rewrite Hc, Hw. reflexivity.
      * exists (String c ""), w. split; [reflexivity|]. split; [exact Hw|].
        right. exists ""%string, c. split; [reflexivity | exact Hc].
    + exists (String c (n1 ++ String d "")), w. split.
      * rewrite str_cons_app, str_app_assoc. reflexivity.
      * split; [exact Hw|]. right. exists (String c n1), d. split; [reflexivity | exact Hd].
Qed.

(** a pattern that starts with optional whitespace then ["("] does not
    match where the first non-space character is some other one *)
Lemma span_space_not_paren (a x : string) :
  has_char "(" a = false -> all_space a = false ->
  exists u c r, span is_space (a ++ x) = (u, String c (r ++ x)) /\ Ascii.eqb c "(" = false.
Proof.
  intros Ha Hs. destruct (span is_space a) as [u v] eqn:E.
  destruct (span_spec _ _ _ _ E) as (Ea & Hu & Hv).
  destruct v as [|c r].
  - rewrite str_app_nil_r in Ea. subst a. unfold all_space in Hs. congruence.
  - exists u, c, r. split; [exact (span_app_stop _ _ _ _ _ _ E)|].
    subst a. rewrite has_char_app in Ha. apply orb_false_iff in Ha as [_ Ha].
    unfold has_char in Ha. cbn [list_ascii_of_string existsb] in Ha.
    apply orb_false_iff in Ha as [Ha _]. rewrite Ascii.eqb_sym. exact Ha.
Qed.

Lemma strip_prefix_cons_neq (a c : ascii) (p r : string) :
  Ascii.eqb a c = false -> strip_prefix (String a p) (String c r) = None.
Proof. intros H. simpl. rewrite H. reflexivity. Qed.

Lemma ticker_paren_at_none (t a x : string) :
  has_char "(" a = false -> all_space a = false -> ticker_paren_at t (a ++ x) = None.
Proof.
  intros Ha Hs. destruct (span_space_not_paren a x Ha Hs) as (u & c & r & E & Hc).
  unfold ticker_paren_at. rewrite E, str_cons_app, strip_prefix_cons_neq; [reflexivity|].
  rewrite Ascii.eqb_sym. exact Hc.
Qed.

Lemma digit_not_space (c : ascii) : is_digit c = true -> is_space c = false.
Proof.
  unfold is_digit, is_space. set (n := nat_of_ascii c). intros H.
  destruct (Nat.leb_spec 48 n), (Nat.leb_spec n 57); try discriminate.
  destruct (Nat.leb_spec 9 n), (Nat.leb_spec n 13), (Nat.leb_spec 28 n), (Nat.leb_spec n 32);
    simpl; try reflexivity; lia.
Qed.

Lemma cik_suffix_at_exact (d : string) :
  d <> ""%string -> forallb is_digit (list_ascii_of_string d) = true ->
  cik_suffix_at ("  (CIK " ++ d ++ ")") = Some ""%string.
Proof.
  intros Hne Hd. destruct d as [|c d']; [contradiction|].
  simpl in Hd. apply andb_prop in Hd as [Hc Hd'].
  assert (Hdg : span is_digit (d' ++ ")") = (d', ")"%string)).
  { rewrite (span_app_all is_digit d' ")" Hd'). simpl. rewrite str_app_nil_r. reflexivity. }
  change (cik_suffix_at (String " " (String " " (String "(" (String "C" (String "I"
    (String "K" (String " " (String c (d' ++ ")"))))))))) = Some ""%string).
  unfold cik_suffix_at. simpl. rewrite (digit_not_space c Hc). simpl. rewrite Hc, Hdg. reflexivity.
Qed.

(** [company = re.sub(r"\s*\(CIK\s+\d+\)\s*$", "", company_raw)] on a
    display name ["NAME  (TICKER)  (CIK digits)"] *)
Lemma sub_cik (p d : string) :
  d <> ""%string -> forallb is_digit (list_ascii_of_string d) = true ->
  (exists q, p = (q ++ ")")%string) ->
  re_sub cik_suffix_at "" (p ++ "  (CIK " ++ d ++ ")") = p.
Proof.
  intros Hne Hd [q Hq]. unfold re_sub.
  rewrite str_length_app, <- Nat.add_succ_r, re_sub_skip.
  - assert (Hm : cik_suffix_at ("  (CIK " ++ d ++ ")") = Some ""%string)
      by exact (cik_suffix_at_exact d Hne Hd).
    destruct (String.length ("  (CIK " ++ d ++ ")")) eqn:El.
    + destruct d; [contradiction | discriminate].
    + rewrite (re_sub_aux_match _ _ _ _ _ Hm), str_nil_app, re_sub_aux_nil by reflexivity.
      apply str_app_nil_r.
  - intros p1 p2 E Hp2 .
    destruct (cik_suffix_at (p2 ++ "  (CIK " ++ d ++ ")")) as [r|] eqn:Em; [|reflexivity].
    exfalso. apply cik_suffix_at_shape in Em as [_ Hc].
    destruct (suffix_last p1 p2 q ")" (eq_trans (eq_sym E) Hq) Hp2) as [q2 ->].
    rewrite !count_app in Hc. cbn [list_ascii_of_string List.filter Ascii.eqb Bool.eqb length] in Hc.
    lia.
Qed.

(** [re.sub(r"\s*\(" + re.escape(ticker) + r"\)\s*", " ", company).strip()]
    on ["NAME  (TICKER)"] when [NAME] holds no ["("] *)
Lemma sub_ticker (name t : string) :
  has_char "(" name = false ->
  strip (re_sub (ticker_paren_at t) " " (name ++ "  (" ++ t ++ ")")) = strip name.
Proof.
  intros Hn. destruct (split_trailing_space name) as (n0 & w & -> & Hw & Hn0).
  rewrite has_char_app in Hn. apply orb_false_iff in Hn as [Hn0c _].
  unfold re_sub. rewrite str_app_assoc, str_length_app, <- Nat.add_succ_r, re_sub_skip.
  - assert (Hm : ticker_paren_at t (w ++ "  (" ++ t ++ ")") = Some ""%string).
    { unfold ticker_paren_at. rewrite (span_app_all is_space w _ Hw).
      assert (Hs : span is_space ("  (" ++ t ++ ")") = ("  "%string, ("(" ++ t ++ ")")%string))
        by reflexivity.
      rewrite Hs. cbn [fst snd].
      pose proof (strip_prefix_app ("(" ++ t ++ ")") "") as Hp.
      rewrite str_app_nil_r in Hp. rewrite Hp. reflexivity. }
    destruct (String.length (w ++ "  (" ++ t ++ ")")) eqn:El.
    + rewrite str_length_app in El. simpl in El. lia.
    + rewrite (re_sub_aux_match _ _ _ _ _ Hm), re_sub_aux_nil by reflexivity.
      rewrite str_app_nil_r, (strip_app_space n0 " " eq_refl), (strip_app_space n0 w Hw).
      reflexivity.
  - intros p1 p2 E Hp2. destruct Hn0 as [-> | (n1 & c & -> & Hc)].
    + destruct p1, p2; try discriminate. contradiction.
    + destruct (suffix_last p1 p2 n1 c (eq_sym E) Hp2) as [q2 ->].
      apply ticker_paren_at_none.
      * rewrite E in Hn0c. rewrite has_char_app in Hn0c.
        apply orb_false_iff in Hn0c as [_ H]. exact H.
      * rewrite all_space_app. unfold all_space at 2. simpl. rewrite Hc.
        apply andb_false_r.
Qed.

End RegexFacts.

(** ** The hits of the full-text search *)
Module HitFacts.
Import Py Scraper Re SearchHits StrFacts TickerFacts RegexFacts.

Lemma has_colon_app_colon (a b : string) : has_colon (a ++ String ":" b) = true.
Proof.
  induction a as [|c a IH]; [reflexivity|].
  rewrite str_cons_app. simpl. rewrite IH. apply orb_true_r.
Qed.

Lemma split_colon_app (a b : string) :
  has_colon a = false -> split_colon (a ++ String ":" b) = (a, b).
Proof.
  induction a as [|c a IH]; intros H; [reflexivity|].
  simpl in H. apply orb_false_iff in H as [Hc Ha].
  rewrite str_cons_app. simpl. rewrite Hc, (IH Ha). reflexivity.
Qed.

Lemma str_eqb_nonempty (t : string) : (1 <= String.length t)%nat -> String.eqb t "" = false.
Proof. destruct t; [simpl; lia | reflexivity]. Qed.

Lemma hit_filing_url (hit : json) (f : search_filing) :
  hit_filing hit = Ok (Some f) -> exists rest, sf_url f = (ARCHIVES_URL ++ rest)%string.
Proof.
  unfold hit_filing. intros H.
  repeat match type of H with
  | context [match ?x with _ => _ end] => destruct x; try discriminate
  end.
  all: injection H as <-; eexists; reflexivity.
Qed.

(** ** Theorems *)

(** [_extract_ticker_from_display_name] returns either [""] or one to
    five capital letters *)
Theorem extract_ticker_shape (name : string) :
  let t := extract_ticker_from_display_name name in
  t = ""%string \/ ((1 <= String.length t <= 5)%nat /\ all_upper t = true).
Proof.
  unfold extract_ticker_from_display_name.
  destruct (search_ticker name) as [g|] eqn:E; [right | left; reflexivity].
  exact (search_ticker_shape _ _ E).
Qed.

(** after a prefix with no ["("], the first [(TICKER)] of one to five
    capitals is the ticker found, whatever follows *)
Theorem extract_ticker_first_paren (p t rest : string) :
  has_char "(" p = false -> all_upper t = true -> (1 <= String.length t <= 5)%nat ->
  extract_ticker_from_display_name (p ++ "(" ++ t ++ ")" ++ rest) = t.
Proof.
  intros Hp Ht Hl. unfold extract_ticker_from_display_name.
  rewrite search_ticker_app by exact Hp.
  change ("(" ++ t ++ ")" ++ rest)%string with (String "(" (t ++ String ")" rest)).
  unfold search_ticker. rewrite (ticker_at_paren t rest Ht Hl). reflexivity.
Qed.

Lemma extract_ticker_first_paren_witness :
  has_char "(" "Apple Inc.  " = false /\ all_upper "AAPL" = true /\
  (1 <= String.length "AAPL" <= 5)%nat /\
  extract_ticker_from_display_name ("Apple Inc.  " ++ "(" ++ "AAPL" ++ ")" ++ "  (CIK 0000320193)")
  = "AAPL"%string.
Proof.
  split; [reflexivity|]. split; [reflexivity|]. split; [simpl; lia|].
  apply extract_ticker_first_paren; [reflexivity | reflexivity | simpl; lia].
Defined.

(** an EDGAR hit whose [_id] is ["ACC:FILE"], whose first CIK is [cik]
    and whose second display name is ["NAME  (TICKER)  (CIK digits)"],
    whatever its other keys and list entries, becomes the filing with
    the archive URL of [cik] without leading zeros, [ACC] without dashes
    and [FILE], the ticker, the stripped company name, the source's
    [file_date] and [ACC] *)
Theorem hit_filing_edgar (h so : list (string * json)) (acc fname cik name t d : string)
    (ciks_rest : list json) (dn0 : json) (dn_rest : list json) :
  has_colon acc = false -> has_char "(" name = false ->
  all_upper t = true -> (1 <= String.length t <= 5)%nat ->
  d <> ""%string -> forallb is_digit (list_ascii_of_string d) = true ->
  obj_get h "_id" (JStr "") = JStr (acc ++ ":" ++ fname) ->
  obj_get h "_source" (JObj []) = JObj so ->
  obj_get so "ciks" (JArr []) = JArr (JStr cik :: ciks_rest) ->
  obj_get so "display_names" (JArr []) =
    JArr (dn0 :: JStr (name ++ "  (" ++ t ++ ")  (CIK " ++ d ++ ")") :: dn_rest) ->
  hit_filing (JObj h)
  = Ok (Some {| sf_url := ARCHIVES_URL ++ lstrip_zeros cik ++ "/" ++ remove_dashes acc
                          ++ "/" ++ fname;
                sf_ticker := t; sf_company := strip name;
                sf_filing_date := obj_get so "file_date" (JStr "");
                sf_accession := acc |}).
Proof.
  intros Hacc Hname Ht Hl Hd Hdig Hid Hsrc Hciks Hdn.
  set (raw := (name ++ "  (" ++ t ++ ")  (CIK " ++ d ++ ")")%string) in Hdn.
  assert (Htick : extract_ticker_from_display_name raw = t).
  { assert (E : raw = ((name ++ "  ") ++ "(" ++ t ++ ")" ++ "  (CIK " ++ d ++ ")")%string)
      by (unfold raw; rewrite str_app_assoc; reflexivity).
    rewrite E. apply extract_ticker_first_paren; [|exact Ht|exact Hl].
    rewrite has_char_app, Hname. reflexivity. }
  assert (Hcomp : clean_company raw t = strip name).
  { unfold clean_company. rewrite str_eqb_nonempty by lia.
    assert (E : raw = ((name ++ "  (" ++ t ++ ")") ++ "  (CIK " ++ d ++ ")")%string).
    { unfold raw. rewrite !str_app_assoc. reflexivity. }
    rewrite E, sub_cik; [exact (sub_ticker name t Hname) | exact Hd | exact Hdig |].
    exists (name ++ "  (" ++ t)%string. rewrite !str_app_assoc. reflexivity. }
  assert (Hnames : hit_names so = Ok (strip name, t)).
  { unfold hit_names. rewrite Hdn. cbn [json_len json_index nth_error length Nat.leb].
    rewrite Htick, Hcomp. reflexivity. }
  unfold hit_filing. rewrite Hid, Hsrc.
  change (acc ++ ":" ++ fname)%string with (acc ++ String ":" fname)%string.
  cbn [json_contains_colon]. rewrite has_colon_app_colon, split_colon_app by exact Hacc.
  rewrite Hciks. cbn [json_truthy negb json_index nth_error]. rewrite Hnames. reflexivity.
Qed.

Lemma hit_filing_edgar_witness :
  let so := [("ciks", JArr [JStr "0000320193"; JStr "0001214156"]);
             ("display_names",
               JArr [JStr "COOK TIMOTHY D  (CIK 0001214156)";
                     JStr ("Apple Inc." ++ "  (" ++ "AAPL" ++ ")  (CIK " ++ "0000320193" ++ ")");
                     JStr "other"]);
             ("form", JStr "4");
             ("file_date", JStr "2024-10-04")] in
  hit_filing (JObj [("_index", JStr "edgar_file");
                    ("_id", JStr ("0000320193-24-000081" ++ ":" ++ "wk-form4.xml"));
                    ("_source", JObj so)])
  = Ok (Some {| sf_url := ARCHIVES_URL ++ lstrip_zeros "0000320193" ++ "/"
                          ++ remove_dashes "0000320193-24-000081" ++ "/" ++ "wk-form4.xml";
                sf_ticker := "AAPL"; sf_company := strip "Apple Inc.";
                sf_filing_date := obj_get so "file_date" (JStr "");
                sf_accession := "0000320193-24-000081" |}).
Proof.
  intros so.
  apply (hit_filing_edgar _ so "0000320193-24-000081" "wk-form4.xml" "0000320193"
           "Apple Inc." "AAPL" "0000320193" [JStr "0001214156"]
           (JStr "COOK TIMOTHY D  (CIK 0001214156)") [JStr "other"]);
    try reflexivity; try (simpl; lia); discriminate.
Defined.

(** a hit whose [_id] is a string without [":"], or whose source has no
    CIK, is dropped without error *)
Theorem hits_skip (h : list (string * json)) (rest : list json) :
  forall s, obj_get h "_id" (JStr "") = JStr s ->
  (has_colon s = false \/
   exists so, obj_get h "_source" (JObj []) = JObj so /\
              json_truthy (obj_get so "ciks" (JArr [])) = false) ->
  hits_to_filings (JObj h :: rest) = hits_to_filings rest.
Proof.
  intros s Hid Hskip. cbn [hits_to_filings]. unfold hit_filing. rewrite Hid.
  cbn [json_contains_colon].
  destruct Hskip as [Hc | (so & Hso & Hciks)].
  - rewrite Hc. destruct (hits_to_filings rest); reflexivity.
  - destruct (has_colon s); [|destruct (hits_to_filings rest); reflexivity].
    destruct (split_colon s). rewrite Hso, Hciks. cbn.
    destruct (hits_to_filings rest); reflexivity.
Qed.

Lemma hits_skip_witness :
  hits_to_filings [JObj [("_id", JStr "no-colon")]; JObj [("_id", JStr "a:b")]]
  = hits_to_filings [JObj [("_id", JStr "a:b")]].
Proof.
  apply (hits_skip _ _ "no-colon"); [reflexivity | left; reflexivity].
Defined.

(** the loop over the hits: a hit that raises aborts the whole search,
    otherwise the filings of a concatenation are the concatenation *)
Theorem hits_to_filings_app (a b : list json) :
  hits_to_filings (a ++ b)%list =
  match hits_to_filings a with
  | Raised e => Raised e
  | Ok fa =>
      match hits_to_filings b with
      | Raised e => Raised e
      | Ok fb => Ok (fa ++ fb)%list
      end
  end.
Proof.
  induction a as [|h a IH]; simpl.
  - destruct (hits_to_filings b); reflexivity.
  - destruct (hit_filing h) as [o|e]; [|reflexivity]. rewrite IH.
    destruct (hits_to_filings a) as [fa|e]; [|reflexivity].
    destruct (hits_to_filings b) as [fb|e]; [|reflexivity].
    destruct o; reflexivity.
Qed.

(** every filing returned has an archive URL, and there are no more
    filings than hits *)
Theorem hits_to_filings_urls (hits : list json) (fs : list search_filing) :
  hits_to_filings hits = Ok fs ->
  (length fs <= length hits)%nat /\
  Forall (fun f => exists rest, sf_url f = (ARCHIVES_URL ++ rest)%string) fs.
Proof.
  revert fs. induction hits as [|h hits IH]; intros fs H.
  - injection H as <-. split; [simpl; lia | constructor].
  - simpl in H. destruct (hit_filing h) as [o|e] eqn:Eh; [|discriminate].
    destruct (hits_to_filings hits) as [fs'|e]; [|discriminate].
    injection H as <-. destruct (IH fs' eq_refl) as [Hl Hf].
    destruct o as [f|]; simpl.
    + split; [lia|]. constructor; [exact (hit_filing_url _ _ Eh) | exact Hf].
    + split; [lia | exact Hf].
Qed.

Lemma hits_to_filings_urls_witness :
  let hits := [JObj [("_id", JStr "0001-24-1:f.xml");
                     ("_source", JObj [("ciks", JArr [JStr "0042"])])];
               JObj [("_id", JStr "nocolon")]] in
  exists fs, hits_to_filings hits = Ok fs /\
  (length fs <= length hits)%nat /\
  Forall (fun f => exists rest, sf_url f = (ARCHIVES_URL ++ rest)%string) fs.
Proof.
  intros hits. eexists. split; [reflexivity|]. apply hits_to_filings_urls. reflexivity.
Defined.

End HitFacts.

(** ** The records of [parse_form4_xml] *)
Module ParseFacts.
Import Py Soup Parser SoupFacts ParserFacts.

Lemma update_is_some (d : record) (kvs : list (string * pyval)) (k : string) :
  is_Some (update d kvs !! k) <-> is_Some (d !! k) \/ In k (map fst kvs).
Proof.
  revert d. induction kvs as [|[k' v] kvs IH]; intros d; simpl.
  - tauto.
  - rewrite IH. destruct (decide (k' = k)) as [<-|Hne].
    + rewrite lookup_insert_eq. split; [intros _; right; left; reflexivity|].
      intros _. left. eexists; reflexivity.
    + rewrite lookup_insert_ne by exact Hne. tauto.
Qed.

(** every record comes from a transaction line, updated with the issuer
    and owner fields of the document *)
Lemma parse_records_extra (soup : node) (url : string) (r : record) :
  In r (parse_form4_xml soup url) ->
  exists txn kind,
    r = update (parse_transaction txn kind)
          (extra_fields (fst (fst (issuer_info soup))) (snd (issuer_info soup))
             (fst (owner_info soup)) (snd (owner_info soup)) url).
Proof.
  unfold parse_form4_xml.
  destruct (issuer_info soup) as [[c cik] t].
  destruct (owner_info soup) as [n ti]. cbn [fst snd].
  intros H. apply in_app_or in H.
  destruct H as [H | H]; unfold table_trades in H;
    destruct (find_or soup _ _) as [table|]; try destruct H;
    apply in_map_iff in H as [txn [<- _]]; exists txn; eexists; reflexivity.
Qed.

Lemma extra_lookup (d : record) c t n ti u :
  update d (extra_fields c t n ti u) !! "company" = Some (PStr c) /\
  update d (extra_fields c t n ti u) !! "ticker" = Some (PStr t) /\
  update d (extra_fields c t n ti u) !! "insider_name" = Some (PStr n) /\
  update d (extra_fields c t n ti u) !! "insider_title" = Some (PStr ti) /\
  update d (extra_fields c t n ti u) !! "filing_url" = Some (PStr u).
Proof.
  unfold update, extra_fields. simpl.
  repeat split; (rewrite lookup_insert_eq; reflexivity) ||
    (repeat (rewrite lookup_insert_ne by discriminate); rewrite lookup_insert_eq; reflexivity).
Qed.

Lemma upper_char_idem (c : ascii) : upper_char (upper_char c) = upper_char c.
Proof. destruct c as [[] [] [] [] [] [] [] []]; reflexivity. Qed.

Lemma upper_idem (s : string) : upper (upper s) = upper s.
Proof.
  unfold upper. induction s as [|c s IH]; [reflexivity|].
  simpl. rewrite upper_char_idem, IH. reflexivity.
Qed.

Lemma issuer_ticker_upper (soup : node) : upper (snd (issuer_info soup)) = snd (issuer_info soup).
Proof.
  unfold issuer_info.
  destruct (find_or soup "issuer" "Issuer") as [issuer|]; [|reflexivity]. simpl.
  destruct (find_or issuer _ _); [apply upper_idem | reflexivity].
Qed.

Lemma join_empty (sep : string) (l : list string) :
  Forall (fun x => x <> ""%string) l -> join sep l = ""%string <-> l = [].
Proof.
  intros H. destruct l as [|x [|y l]]; simpl.
  - tauto.
  - inversion H; subst. split; [intros E; contradiction | discriminate].
  - inversion H; subst. split; [|discriminate].
    destruct x; [contradiction | discriminate].
Qed.

Lemma or_default_nonempty (x d : string) :
  d <> ""%string -> (if String.eqb x "" then d else x) <> ""%string.
Proof. intros Hd. destruct (String.eqb_spec x ""); assumption. Qed.

Lemma titles_nonempty (rel : node) : Forall (fun x => x <> ""%string) (titles_of rel).
Proof.
  unfold titles_of.
  destruct (get_bool rel "isDirector"), (get_bool rel "isOfficer"),
    (get_bool rel "isTenPercentOwner"), (get_bool rel "isOther"); cbn [app];
    repeat apply List.Forall_cons; try apply List.Forall_nil;
    try apply or_default_nonempty; discriminate.
Qed.

Lemma dict_get_codes (c d : string) :
  In (c, d) TRANSACTION_CODES -> dict_get TRANSACTION_CODES c c = d.
Proof.
  intros H. simpl in H.
  repeat (destruct H as [H|H]; [injection H as <- <-; reflexivity|]). destruct H.
Qed.

Lemma dict_get_absent (l : list (string * string)) (c def : string) :
  ~ In c (map fst l) -> dict_get l c def = def.
Proof.
  induction l as [|[k v] l IH]; simpl; intros H; [reflexivity|].
  destruct (String.eqb_spec c k) as [->|_]; [tauto|]. apply IH. tauto.
Qed.

(** ** Theorems *)

(** every record has exactly the twelve keys: the seven of
    [_parse_transaction] and the five added by [parse_form4_xml] *)
Theorem parse_form4_xml_keys (soup : node) (url : string) (r : record) :
  In r (parse_form4_xml soup url) ->
  forall k, is_Some (r !! k) <->
    In k ["transaction_code"; "transaction_type"; "shares"; "price_per_share";
          "total_value"; "shares_owned_after"; "ownership_type";
          "company"; "ticker"; "insider_name"; "insider_title"; "filing_url"].
Proof.
  intros H k. destruct (parse_records_extra soup url r H) as (txn & kind & ->).
  unfold parse_transaction.
  destruct (txn_amounts txn) as [[s0 p] ad].
  rewrite !update_is_some, lookup_empty. simpl.
  split; [intros [[[? E] | ?] | ?]; [discriminate | tauto | tauto] | tauto].
Qed.

Lemma parse_form4_xml_keys_witness :
  In (update (parse_transaction (Elem "nonDerivativeTransaction" []) "Non-Derivative")
        (extra_fields "" "" "" "" "u"))
     (parse_form4_xml (Elem "doc" [Elem "nonDerivativeTable"
                                     [Elem "nonDerivativeTransaction" []]]) "u") /\
  is_Some (update (parse_transaction (Elem "nonDerivativeTransaction" []) "Non-Derivative")
             (extra_fields "" "" "" "" "u") !! "ticker").
Proof.
  split; [left; reflexivity|].
  apply (proj2 (parse_form4_xml_keys (Elem "doc" [Elem "nonDerivativeTable"
                                     [Elem "nonDerivativeTransaction" []]]) "u" _
           (or_introl eq_refl) "ticker")).
  simpl. tauto.
Defined.

(** all records of one document carry the same company, ticker, insider
    name and title, and the URL they were parsed from; the ticker is in
    upper case *)
Theorem parse_form4_xml_shared (soup : node) (url : string) (r1 r2 : record) :
  In r1 (parse_form4_xml soup url) -> In r2 (parse_form4_xml soup url) ->
  Forall (fun k => r1 !! k = r2 !! k)
    ["company"; "ticker"; "insider_name"; "insider_title"; "filing_url"] /\
  r1 !! "filing_url" = Some (PStr url) /\
  exists t, r1 !! "ticker" = Some (PStr t) /\ upper t = t.
Proof.
  intros H1 H2.
  destruct (parse_records_extra soup url r1 H1) as (txn1 & kind1 & ->).
  destruct (parse_records_extra soup url r2 H2) as (txn2 & kind2 & ->).
  destruct (extra_lookup (parse_transaction txn1 kind1) (fst (fst (issuer_info soup)))
              (snd (issuer_info soup)) (fst (owner_info soup)) (snd (owner_info soup)) url)
    as (A1 & A2 & A3 & A4 & A5).
  destruct (extra_lookup (parse_transaction txn2 kind2) (fst (fst (issuer_info soup)))
              (snd (issuer_info soup)) (fst (owner_info soup)) (snd (owner_info soup)) url)
    as (B1 & B2 & B3 & B4 & B5).
  split; [repeat constructor; congruence|].
  split; [exact A5|].
  exists (snd (issuer_info soup)). split; [exact A2 | apply issuer_ticker_upper].
Qed.

Lemma parse_form4_xml_shared_witness :
  let soup := Elem "doc" [Elem "issuer" [Elem "issuerTradingSymbol" [Txt " aapl "]];
                          Elem "nonDerivativeTable"
                            [Elem "nonDerivativeTransaction" []; Elem "nonDerivativeTransaction" []]] in
  exists r1 r2, In r1 (parse_form4_xml soup "u") /\ In r2 (parse_form4_xml soup "u") /\
  Forall (fun k => r1 !! k = r2 !! k)
    ["company"; "ticker"; "insider_name"; "insider_title"; "filing_url"] /\
  r1 !! "filing_url" = Some (PStr "u") /\
  exists t, r1 !! "ticker" = Some (PStr t) /\ upper t = t.
Proof.
  intros soup.
  exists (nth 0 (parse_form4_xml soup "u") ∅), (nth 1 (parse_form4_xml soup "u") ∅).
  assert (H1 : In (nth 0 (parse_form4_xml soup "u") ∅) (parse_form4_xml soup "u"))
    by (apply nth_In; vm_compute; lia).
  assert (H2 : In (nth 1 (parse_form4_xml soup "u") ∅) (parse_form4_xml soup "u"))
    by (apply nth_In; vm_compute; lia).
  split; [exact H1|]. split; [exact H2|].
  exact (parse_form4_xml_shared soup "u" _ _ H1 H2).
Defined.

(** [insider_title] is empty exactly when the owner block or its
    relationship block is missing, or none of the four relationship
    flags is set *)
Theorem insider_title_empty (soup : node) :
  snd (owner_info soup) = ""%string <->
  forall owner rel,
    find_or soup "reportingOwner" "ReportingOwner" = Some owner ->
    find_or owner "reportingOwnerRelationship" "ReportingOwnerRelationship" = Some rel ->
    get_bool rel "isDirector" = false /\ get_bool rel "isOfficer" = false /\
    get_bool rel "isTenPercentOwner" = false /\ get_bool rel "isOther" = false.
Proof.
  unfold owner_info.
  destruct (find_or soup "reportingOwner" "ReportingOwner") as [owner|];
    [|simpl; split; [intros _ o r E; discriminate | reflexivity]].
  cbn [snd]. split.
  - intros Ht o r E Er. injection E as <-. rewrite Er in Ht.
    apply (join_empty _ _ (titles_nonempty r)) in Ht. unfold titles_of in Ht.
    destruct (get_bool r "isDirector"), (get_bool r "isOfficer"),
      (get_bool r "isTenPercentOwner"), (get_bool r "isOther"); simpl in Ht;
      try discriminate; repeat split.
  - intros H.
    destruct (find_or owner "reportingOwnerRelationship" "ReportingOwnerRelationship")
      as [rel|] eqn:Er; [|reflexivity].
    destruct (H owner rel eq_refl Er) as (A & B & C & D).
    apply (join_empty _ _ (titles_nonempty rel)). unfold titles_of.
    rewrite A, B, C, D. reflexivity.
Qed.

(** the transaction type is the description of a known code and the
    code itself otherwise; the ownership type is ["Direct"] or
    ["Indirect"] *)
Theorem parse_form4_xml_classification (soup : node) (url : string) (r : record) :
  In r (parse_form4_xml soup url) ->
  exists c, r !! "transaction_code" = Some (PStr c) /\
  (forall d, In (c, d) TRANSACTION_CODES -> r !! "transaction_type" = Some (PStr d)) /\
  (~ In c (map fst TRANSACTION_CODES) -> r !! "transaction_type" = Some (PStr c)) /\
  (r !! "ownership_type" = Some (PStr "Direct") \/
     r !! "ownership_type" = Some (PStr "Indirect")).
Proof.
  intros H. destruct (parse_records_extra soup url r H) as (txn & kind & ->).
  set (ex := extra_fields _ _ _ _ _).
  assert (Hx : forall k, k <> "company" -> k <> "ticker" -> k <> "insider_name" ->
                 k <> "insider_title" -> k <> "filing_url" ->
                 update (parse_transaction txn kind) ex !! k = parse_transaction txn kind !! k)
    by (intros k ? ? ? ? ?; apply update_lookup_ne, extra_fields_keys; assumption).
  rewrite !Hx by discriminate.
  exists (txn_code txn). unfold parse_transaction.
  destruct (txn_amounts txn) as [[s0 p] ad].
  split; [reflexivity|]. split; [|split].
  - intros d Hd. rewrite (dict_get_codes _ _ Hd). reflexivity.
  - intros Hn. rewrite (dict_get_absent _ _ _ Hn). reflexivity.
  - destruct (String.eqb (txn_ownership txn) "D"); [left | right]; reflexivity.
Qed.

Lemma parse_form4_xml_classification_witness :
  let soup := Elem "doc" [Elem "nonDerivativeTable" [Elem "nonDerivativeTransaction"
                 [Elem "transactionCoding" [Elem "transactionCode" [Txt "S"]]]]] in
  exists r, In r (parse_form4_xml soup "u") /\
  exists c, r !! "transaction_code" = Some (PStr c) /\
  (forall d, In (c, d) TRANSACTION_CODES -> r !! "transaction_type" = Some (PStr d)) /\
  (~ In c (map fst TRANSACTION_CODES) -> r !! "transaction_type" = Some (PStr c)) /\
  (r !! "ownership_type" = Some (PStr "Direct") \/
     r !! "ownership_type" = Some (PStr "Indirect")).
Proof.
  intros soup. exists (nth 0 (parse_form4_xml soup "u") ∅).
  assert (H : In (nth 0 (parse_form4_xml soup "u") ∅) (parse_form4_xml soup "u"))
    by (apply nth_In; vm_compute; lia).
  split; [exact H|]. exact (parse_form4_xml_classification soup "u" _ H).
Defined.

End ParseFacts.

(** ** The scraper *)
Module ScraperFacts.
Import Py Soup Parser Scraper Views StrFacts.

Lemma ex_nat_split (Q : nat -> Prop) : (exists j, Q j) <-> Q 0%nat \/ exists j, Q (S j).
Proof.
  split.
  - intros [[|j] H]; [left; exact H | right; exists j; exact H].
  - intros [H | [j H]]; eexists; exact H.
Qed.

Lemma form4_filings_none_at (fs : list string) (r : recent) (cik ticker : string) (i : nat) :
  form4_filings i fs r cik ticker = None <->
  exists j, nth_error fs j = Some "4"%string /\
    (nth_error (accessions r) (i + j) = None \/ nth_error (documents r) (i + j) = None \/
     nth_error (filing_dates r) (i + j) = None).
Proof.
  revert i. induction fs as [|form rest IH]; intros i.
  - simpl. split; [discriminate|]. intros (j & Hj & _). destruct j; discriminate.
  - rewrite ex_nat_split. cbn [nth_error]. rewrite Nat.add_0_r.
    setoid_rewrite <- plus_n_Sm. rewrite <- (IH (S i)). simpl.
    destruct (String.eqb_spec form "4") as [->|Hne].
    + destruct (nth_error (accessions r) i), (nth_error (documents r) i),
        (nth_error (filing_dates r) i);
        destruct (form4_filings (S i) rest r cik ticker); simpl;
        intuition discriminate.
    + split; [intros H; right; exact H|].
      intros [[E _] | H]; [injection E as E; contradiction | exact H].
Qed.

Lemma form4_filings_some_at (fs : list string) (r : recent) (cik ticker : string) (i : nat)
    (out : list wl_filing) :
  form4_filings i fs r cik ticker = Some out ->
  length out = length (List.filter (String.eqb "4") fs) /\
  Forall (fun f =>
    wf_ticker f = ticker /\
    wf_url f = (SEC_FILING_BASE ++ "/" ++ cik ++ "/" ++ remove_dashes (wf_accession f)
                ++ "/" ++ wf_doc f)%string /\
    exists j, nth_error fs j = Some "4"%string /\
      nth_error (accessions r) (i + j) = Some (wf_accession f) /\
      nth_error (documents r) (i + j) = Some (wf_doc f) /\
      nth_error (filing_dates r) (i + j) = Some (wf_filing_date f)) out.
Proof.
  revert i out. induction fs as [|form rest IH]; intros i out H.
  - injection H as <-. split; [reflexivity | constructor].
  - simpl in H. cbn [List.filter]. rewrite String.eqb_sym.
    destruct (String.eqb_spec form "4") as [->|Hne].
    + destruct (nth_error (accessions r) i) as [acc|] eqn:Ea; [|discriminate].
      destruct (nth_error (documents r) i) as [doc|] eqn:Ed; [|discriminate].
      destruct (nth_error (filing_dates r) i) as [date|] eqn:Et; [|discriminate].
      destruct (form4_filings (S i) rest r cik ticker) as [out'|] eqn:E; [|discriminate].
      injection H as <-. destruct (IH (S i) out' E) as [Hl Hf].
      split; [simpl; rewrite Hl; reflexivity|].
      constructor.
      * split; [reflexivity|]. split; [reflexivity|].
        exists 0%nat. rewrite Nat.add_0_r. simpl. repeat split; assumption.
      * eapply List.Forall_impl; [|exact Hf]. simpl.
        intros f (H1 & H2 & j & Hj & A & B & C). split; [exact H1|]. split; [exact H2|].
        exists (S j). rewrite <- plus_n_Sm. repeat split; assumption.
    + destruct (IH (S i) out H) as [Hl Hf]. split.
      * exact Hl.
      * eapply List.Forall_impl; [|exact Hf]. simpl.
        intros f (H1 & H2 & j & Hj & A & B & C). split; [exact H1|]. split; [exact H2|].
        exists (S j). rewrite <- plus_n_Sm. repeat split; assumption.
Qed.

Lemma dict_set_keys (d : list (string * string)) (k v x : string) :
  In x (map fst (dict_set d k v)) -> x = k \/ In x (map fst d).
Proof.
  induction d as [|[k' v'] d IH]; simpl.
  - intros [<- | []]. left. reflexivity.
  - destruct (String.eqb_spec k k') as [->|Hne]; simpl.
    + intros [<- | H]; [right; left; reflexivity | right; right; exact H].
    + intros [<- | H]; [right; left; reflexivity|].
      destruct (IH H) as [-> | H']; [left; reflexivity | right; right; exact H'].
Qed.

Lemma dict_set_nodup (d : list (string * string)) (k v : string) :
  List.NoDup (map fst d) -> List.NoDup (map fst (dict_set d k v)).
Proof.
  induction d as [|[k' v'] d IH]; simpl; intros H.
  - simpl. apply List.NoDup_cons; [intros [] | apply List.NoDup_nil].
  - apply List.NoDup_cons_iff in H as [Hk' Hd].
    destruct (String.eqb_spec k k') as [->|Hne]; simpl.
    + apply List.NoDup_cons; assumption.
    + apply List.NoDup_cons; [|exact (IH Hd)].
      intros Hin. destruct (dict_set_keys d k v k' Hin) as [E | E]; [congruence | contradiction].
Qed.

Lemma dict_set_forall (P : string * string -> Prop) (d : list (string * string)) (k v : string) :
  Forall P d -> P (k, v) -> Forall P (dict_set d k v).
Proof.
  induction d as [|[k' v'] d IH]; simpl; intros H Hkv.
  - constructor; [exact Hkv | constructor].
  - inversion H as [|? ? H1 H2]; subst.
    destruct (String.eqb k k'); constructor; try assumption. exact (IH H2 Hkv).
Qed.

Lemma length_zeros (n : nat) : String.length (string_of_list_ascii (repeat "0"%char n)) = n.
Proof. induction n as [|n IH]; [reflexivity | simpl; rewrite IH; reflexivity]. Qed.

Lemma zfill_length (w : nat) (s : string) : (w <= String.length (zfill w s))%nat.
Proof.
  unfold zfill. destruct (Nat.leb_spec w (String.length s)) as [H|H]; [exact H|].
  destruct s as [|c r].
  - rewrite length_zeros. cbn [String.length] in *. lia.
  - destruct (Ascii.eqb c "-" || Ascii.eqb c "+").
    + cbn [String.length]. rewrite str_length_app, length_zeros.
      cbn [String.length] in H. lia.
    + rewrite str_length_app, length_zeros. lia.
Qed.

Lemma build_mapping_inv (py_str : json -> string) (raw : list (string * json))
    (acc m : list (string * string)) :
  build_mapping py_str raw acc = Ok m ->
  List.NoDup (map fst acc) ->
  Forall (fun kv => upper (fst kv) = fst kv /\ (10 <= String.length (snd kv))%nat) acc ->
  List.NoDup (map fst m) /\
  Forall (fun kv => upper (fst kv) = fst kv /\ (10 <= String.length (snd kv))%nat) m.
Proof.
  revert acc. induction raw as [|[k e] raw IH]; intros acc H Hn Hf; simpl in H.
  - injection H as <-. split; assumption.
  - destruct e as [| | | | | |entry]; try discriminate.
    destruct (obj_lookup entry "ticker") as [[| | | | t | |]|]; try discriminate.
    destruct (obj_lookup entry "cik_str") as [cik_str|]; [|discriminate].
    apply (IH _ H).
    + apply dict_set_nodup. exact Hn.
    + apply dict_set_forall; [exact Hf|]. simpl. split; [apply ParseFacts.upper_idem|].
      apply zfill_length.
Qed.

Lemma watch_filings_events (soup_of : string -> node) (net : string -> response)
    (ticker : string) (filings : list wl_filing) :
  snd (watch_filings soup_of net ticker filings) =
  flat_map (fun f => [EvSleep; EvGet (wf_url f)]) filings.
Proof.
  induction filings as [|f r IH]; [reflexivity|].
  simpl. destruct (watch_filings soup_of net ticker r) as [ts evs'] eqn:E.
  simpl in *. rewrite IH. reflexivity.
Qed.

(** ** Theorems *)

(** [fetch_form4_filings_for_cik] raises [IndexError] exactly when some
    form ["4"] at index [i] has no accession number, primary document or
    filing date at index [i] *)
Theorem form4_filings_none (r : recent) (cik ticker : string) :
  form4_filings 0 (forms r) r cik ticker = None <->
  exists i, nth_error (forms r) i = Some "4"%string /\
    (nth_error (accessions r) i = None \/ nth_error (documents r) i = None \/
     nth_error (filing_dates r) i = None).
Proof. exact (form4_filings_none_at (forms r) r cik ticker 0). Qed.

(** otherwise it returns one filing per form ["4"], each with the
    accession number, document and date of its own index, the ticker it
    was asked for, and the archive URL built from the CIK, the accession
    number without dashes and the document *)
Theorem form4_filings_some (r : recent) (cik ticker : string) (out : list wl_filing) :
  form4_filings 0 (forms r) r cik ticker = Some out ->
  length out = length (List.filter (String.eqb "4") (forms r)) /\
  Forall (fun f =>
    wf_ticker f = ticker /\
    wf_url f = (SEC_FILING_BASE ++ "/" ++ cik ++ "/" ++ remove_dashes (wf_accession f)
                ++ "/" ++ wf_doc f)%string /\
    exists i, nth_error (forms r) i = Some "4"%string /\
      nth_error (accessions r) i = Some (wf_accession f) /\
      nth_error (documents r) i = Some (wf_doc f) /\
      nth_error (filing_dates r) i = Some (wf_filing_date f)) out.
Proof. exact (form4_filings_some_at (forms r) r cik ticker 0 out). Qed.

Lemma form4_filings_some_witness :
  let r := {| forms := ["4"; "8-K"; "4"]; accessions := ["0001-24-1"; "0001-24-2"; "0001-24-3"];
              filing_dates := ["2024-10-01"; "2024-10-02"; "2024-10-03"];
              documents := ["a.xml"; "b.htm"; "c.xml"] |} in
  exists out, form4_filings 0 (forms r) r "320193" "AAPL" = Some out /\
  length out = length (List.filter (String.eqb "4") (forms r)) /\
  Forall (fun f =>
    wf_ticker f = "AAPL"%string /\
    wf_url f = (SEC_FILING_BASE ++ "/" ++ "320193" ++ "/" ++ remove_dashes (wf_accession f)
                ++ "/" ++ wf_doc f)%string /\
    exists i, nth_error (forms r) i = Some "4"%string /\
      nth_error (accessions r) i = Some (wf_accession f) /\
      nth_error (documents r) i = Some (wf_doc f) /\
      nth_error (filing_dates r) i = Some (wf_filing_date f)) out.
Proof.
  intros r. eexists. split; [reflexivity|].
  apply form4_filings_some. reflexivity.
Defined.

(** [filings[:max_filings_per_ticker]] keeps a prefix: the first
    [max] filings for [max >= 0], and all but the last [-max] for a
    negative [max] *)
Theorem slice_upto_prefix {A} (l : list A) (m : Z) :
  exists tail, l = (slice_upto l m ++ tail)%list /\
  length (slice_upto l m) =
    (if (0 <=? m)%Z then Nat.min (Z.to_nat m) (length l)
     else length l - Nat.min (Z.to_nat (- m)) (length l))%nat.
Proof.
  unfold slice_upto. destruct (Z.leb_spec 0 m) as [Hm|Hm].
  - exists (skipn (Z.to_nat m) l). split; [symmetry; apply firstn_skipn|].
    apply length_firstn.
  - exists (skipn (Z.to_nat (Z.of_nat (length l) + m)) l).
    split; [symmetry; apply firstn_skipn|].
    rewrite length_firstn. lia.
Qed.

(** the watchlist run over [a ++ b] is the run over [a] then, unless it
    raised, the run over [b]: trades and requests are concatenated, and
    an exception for one ticker ends the run without the trades already
    collected *)
Theorem collect_watchlist_app soup_of net sub_net cik_map (a b : list string) (m : Z) :
  collect_watchlist soup_of net sub_net cik_map (a ++ b) m =
  let '(oa, ea) := collect_watchlist soup_of net sub_net cik_map a m in
  match oa with
  | Raised e => (Raised e, ea)
  | Ok ta =>
      let '(ob, eb) := collect_watchlist soup_of net sub_net cik_map b m in
      (match ob with Ok tb => Ok (ta ++ tb)%list | Raised e => Raised e end, (ea ++ eb)%list)
  end.
Proof.
  induction a as [|t a IH].
  - simpl. destruct (collect_watchlist soup_of net sub_net cik_map b m) as [[tb|e] eb];
      reflexivity.
  - cbn [app collect_watchlist]. rewrite IH.
    destruct (collect_watchlist soup_of net sub_net cik_map a m) as [[ta|e] ea];
      destruct (collect_watchlist soup_of net sub_net cik_map b m) as [[tb|e'] eb];
      destruct (cik_map (upper t)) as [cik|]; try destruct (String.eqb cik "");
      try destruct (sub_net (SEC_SUBMISSIONS_URL cik)) as [| |r];
      try destruct (form4_filings 0 (forms r) r cik (upper t)) as [fs|];
      try destruct (watch_filings soup_of net (upper t) (slice_upto fs m)) as [ts evs];
      cbn; rewrite ?app_assoc; reflexivity.
Qed.

(** for one ticker: a ticker missing from the CIK map (or mapped to an
    empty CIK) gives no trade and no request; otherwise the requests are
    the submissions URL, then the URL of every kept filing, each after a
    pause *)
Theorem collect_watchlist_ticker soup_of net sub_net cik_map (t : string) (m : Z) :
  ((cik_map (upper t) = None \/ cik_map (upper t) = Some ""%string) ->
   collect_watchlist soup_of net sub_net cik_map [t] m = (Ok [], [])) /\
  (forall cik r fs,
   cik_map (upper t) = Some cik -> cik <> ""%string ->
   sub_net (SEC_SUBMISSIONS_URL cik) = SubOk r ->
   form4_filings 0 (forms r) r cik (upper t) = Some fs ->
   exists ts, collect_watchlist soup_of net sub_net cik_map [t] m =
     (Ok ts, EvSleep :: EvGet (SEC_SUBMISSIONS_URL cik)
               :: flat_map (fun f => [EvSleep; EvGet (wf_url f)]) (slice_upto fs m))).
Proof.
  split.
  - intros [H|H]; simpl; rewrite H; reflexivity.
  - intros cik r fs Hc Hne Hs Hf. simpl. rewrite Hc.
    apply String.eqb_neq in Hne. rewrite Hne, Hs, Hf.
    pose proof (watch_filings_events soup_of net (upper t) (slice_upto fs m)) as He.
    destruct (watch_filings soup_of net (upper t) (slice_upto fs m)) as [ts evs].
    simpl in He. subst evs. exists ts. cbn. rewrite !app_nil_r. reflexivity.
Qed.

Lemma collect_watchlist_ticker_witness :
  let rec := {| forms := ["4"]; accessions := ["0001-24-1"];
                filing_dates := ["2024-10-01"]; documents := ["a.xml"] |} in
  let cmap := fun k => if String.eqb k "AAPL" then Some "320193"%string else None in
  collect_watchlist (fun _ => Elem "d" []) (fun _ => NetError) (fun _ => SubOk rec) cmap
    ["msft"] 10 = (Ok [], []) /\
  exists fs, form4_filings 0 (forms rec) rec "320193" "AAPL" = Some fs /\
  exists ts, collect_watchlist (fun _ => Elem "d" []) (fun _ => NetError) (fun _ => SubOk rec)
    cmap ["aapl"] 10 =
     (Ok ts, EvSleep :: EvGet (SEC_SUBMISSIONS_URL "320193")
               :: flat_map (fun f => [EvSleep; EvGet (wf_url f)]) (slice_upto fs 10)).
Proof.
  intros rec cmap. split.
  - apply (proj1 (collect_watchlist_ticker (fun _ => Elem "d" []) (fun _ => NetError)
             (fun _ => SubOk rec) cmap "msft" 10)). left. reflexivity.
  - eexists. split; [reflexivity|].
    apply (proj2 (collect_watchlist_ticker (fun _ => Elem "d" []) (fun _ => NetError)
             (fun _ => SubOk rec) cmap "aapl" 10) "320193" rec);
      [reflexivity | discriminate | reflexivity | reflexivity].
Defined.

(** the map built from [company_tickers.json] has distinct keys, all in
    upper case, and every CIK is at least ten characters long *)
Theorem build_mapping_keys (py_str : json -> string) (raw : list (string * json))
    (m : list (string * string)) :
  build_mapping py_str raw [] = Ok m ->
  List.NoDup (map fst m) /\
  Forall (fun kv => upper (fst kv) = fst kv /\ (10 <= String.length (snd kv))%nat) m.
Proof.
  intros H. apply (build_mapping_inv py_str raw [] m H); constructor.
Qed.

Lemma build_mapping_keys_witness :
  let raw := [("0", JObj [("cik_str", JInt 320193); ("ticker", JStr "aapl")]);
              ("1", JObj [("cik_str", JInt 789019); ("ticker", JStr "MSFT")]);
              ("2", JObj [("cik_str", JInt 320194); ("ticker", JStr "AAPL")])] in
  let py_str := fun v => match v with JInt z => match z with
                  | 320193 => "320193" | 789019 => "789019" | _ => "320194" end
                  | _ => "" end%string in
  exists m, build_mapping py_str raw [] = Ok m /\
  List.NoDup (map fst m) /\
  Forall (fun kv => upper (fst kv) = fst kv /\ (10 <= String.length (snd kv))%nat) m.
Proof.
  intros raw py_str. eexists. split; [reflexivity|].
  apply (build_mapping_keys py_str raw). reflexivity.
Defined.

(** the cache write of [fetch_ticker_to_cik_map]: after a download of
    the ticker index that builds into [mapping], a successful write
    returns the map and leaves its dump in the cache file; a failed
    [open] raises [OSError] and leaves the cache file as it was; a write
    that fails once [open] has truncated the file raises [OSError] and
    leaves only the first [n] characters of the dump, with a fresh
    modification time, which a call within the next 86400 seconds then
    reads as the cache *)
Theorem fetch_ticker_cache_write json_load json_dump py_str net (now : float)
    (cache : option (float * string)) (status : Z) (body : string)
    (raw : list (string * json)) (mapping : list (string * string)) :
  match cache with
  | Some (mtime, _) => flt (fsub now mtime) (of_Z 86400) = false
  | None => True
  end ->
  net SEC_TICKERS_URL = Resp status body -> raise_for_status status = false ->
  json_load body = Some (JObj raw) -> build_mapping py_str raw [] = Ok mapping ->
  fetch_ticker_to_cik_map json_load json_dump py_str net now WriteOk cache =
    (Ok (mapping_json mapping), [EvGet SEC_TICKERS_URL], Some (now, json_dump mapping)) /\
  fetch_ticker_to_cik_map json_load json_dump py_str net now OpenFail cache =
    (Raised "OSError", [EvGet SEC_TICKERS_URL], cache) /\
  (forall n,
     let part := String.substring 0 n (json_dump mapping) in
     fetch_ticker_to_cik_map json_load json_dump py_str net now (WriteFail n) cache =
       (Raised "OSError", [EvGet SEC_TICKERS_URL], Some (now, part)) /\
     forall now' w', flt (fsub now' now) (of_Z 86400) = true ->
       fetch_ticker_to_cik_map json_load json_dump py_str net now' w' (Some (now, part)) =
         (match json_load part with
          | Some v => Ok v
          | None => Raised "JSONDecodeError"
          end, [], Some (now, part))).
Proof.
  intros Hstale Hnet Hst Hj Hb.
  assert (Hfresh : forall w,
    fetch_ticker_to_cik_map json_load json_dump py_str net now w cache =
    match w with
    | WriteOk => (Ok (mapping_json mapping), [EvGet SEC_TICKERS_URL], Some (now, json_dump mapping))
    | OpenFail => (Raised "OSError", [EvGet SEC_TICKERS_URL], cache)
    | WriteFail n =>
        (Raised "OSError", [EvGet SEC_TICKERS_URL],
         Some (now, String.substring 0 n (json_dump mapping)))
    end).
  { intros w. unfold fetch_ticker_to_cik_map.
    destruct cache as [[mtime contents]|]; [rewrite Hstale|];
      rewrite Hnet, Hst, Hj, Hb; reflexivity. }
  split; [apply (Hfresh WriteOk)|]. split; [apply (Hfresh OpenFail)|].
  intros n part. split; [apply (Hfresh (WriteFail n))|].
  intros now' w' Hnow. unfold fetch_ticker_to_cik_map. rewrite Hnow.
  destruct (json_load part); reflexivity.
Qed.

Lemma fetch_ticker_cache_write_witness :
  let raw := [("0", JObj [("cik_str", JInt 320193); ("ticker", JStr "aapl")])] in
  let load := fun s => if String.eqb s "idx" then Some (JObj raw)
                       else if String.eqb s "{" then None else Some (JObj []) in
  let dump := fun _ : list (string * string) => "{AAPL}"%string in
  fetch_ticker_to_cik_map load dump (fun _ => "320193") (fun _ => Resp 200 "idx") (of_Z 100)
    (WriteFail 1) None =
    (Raised "OSError", [EvGet SEC_TICKERS_URL], Some (of_Z 100, "{")) /\
  fetch_ticker_to_cik_map load dump (fun _ => "320193") (fun _ => Resp 200 "idx") (of_Z 200)
    WriteOk (Some (of_Z 100, "{")) =
    (Raised "JSONDecodeError", [], Some (of_Z 100, "{")).
Proof.
  intros raw load dump.
  destruct (fetch_ticker_cache_write load dump (fun _ => "320193") (fun _ => Resp 200 "idx")
              (of_Z 100) None 200 "idx" raw [("AAPL", "0000320193")])
    as (_ & _ & H); [exact I | reflexivity | reflexivity | reflexivity | reflexivity|].
  destruct (H 1%nat) as [H1 H2]. split; [exact H1|].
  apply H2. vm_compute. reflexivity.
Defined.

End ScraperFacts.

Module MainFacts.
Import Py Parser Scraper Re MainCli.

Lemma digit_char_spec (k : Z) :
  0 <= k <= 9 -> is_digit (digit_char k) = true /\ digit_val (digit_char k) = k.
Proof.
  intros H.
  assert (k = 0 \/ k = 1 \/ k = 2 \/ k = 3 \/ k = 4 \/ k = 5 \/ k = 6 \/ k = 7 \/ k = 8 \/ k = 9)
    as Hk by lia.
  repeat destruct Hk as [-> | Hk]; subst; split; reflexivity.
Qed.

Lemma is_digit_bounds (c : ascii) : is_digit c = true -> 0 <= digit_val c <= 9.
Proof.
  unfold is_digit, digit_val. intros H.
  apply andb_prop in H as [H1 H2]. apply Nat.leb_le in H1, H2. lia.
Qed.

Lemma in_range_bounds (c : ascii) (lo hi : nat) :
  (48 <= lo)%nat -> in_range c lo hi = true ->
  Z.of_nat lo - 48 <= digit_val c <= Z.of_nat hi - 48.
Proof.
  unfold in_range, digit_val. intros Hlo H.
  apply andb_prop in H as [H1 H2]. apply Nat.leb_le in H1, H2. lia.
Qed.

Lemma match_Y_strftime (y : Z) (r : string) :
  0 <= y <= 9999 ->
  match_Y (String (digit_char (y / 1000)) (String (digit_char (y / 100 mod 10))
          (String (digit_char (y / 10 mod 10)) (String (digit_char (y mod 10)) r))))
  = Some (y, r).
Proof.
  intros Hy. unfold match_Y.
  assert (H1 : 0 <= y / 1000 <= 9) by (Z.div_mod_to_equations; lia).
  assert (H2 : 0 <= y / 100 mod 10 <= 9) by (Z.div_mod_to_equations; lia).
  assert (H3 : 0 <= y / 10 mod 10 <= 9) by (Z.div_mod_to_equations; lia).
  assert (H4 : 0 <= y mod 10 <= 9) by (Z.div_mod_to_equations; lia).
  destruct (digit_char_spec _ H1) as [-> ->].
  destruct (digit_char_spec _ H2) as [-> ->].
  destruct (digit_char_spec _ H3) as [-> ->].
  destruct (digit_char_spec _ H4) as [-> ->].
  cbn [andb]. f_equal. f_equal. Z.div_mod_to_equations. lia.
Qed.

Lemma match_m_strftime (m : Z) (r : string) :
  1 <= m <= 12 ->
  exists rest, match_m (String (digit_char (m / 10)) (String (digit_char (m mod 10)) r))
               = (m, r) :: rest.
Proof.
  intros Hm.
  assert (m = 1 \/ m = 2 \/ m = 3 \/ m = 4 \/ m = 5 \/ m = 6 \/ m = 7 \/ m = 8 \/ m = 9
          \/ m = 10 \/ m = 11 \/ m = 12) as Hc by lia.
  repeat destruct Hc as [-> | Hc]; subst; eexists; reflexivity.
Qed.

Lemma match_d_strftime (d : Z) (r : string) :
  1 <= d <= 31 ->
  exists rest, match_d (String (digit_char (d / 10)) (String (digit_char (d mod 10)) r))
               = (d, r) :: rest.
Proof.
  intros Hd.
  assert (exists k, d = Z.of_nat k /\ (1 <= k <= 31)%nat) as [k [-> Hk]]
    by (exists (Z.to_nat d); lia).
  do 32 (destruct k as [|k]; [try lia; eexists; reflexivity|]). lia.
Qed.

Ltac crush_in :=
  repeat match goal with
  | H : In _ (_ ++ _) |- _ => apply in_app_or in H
  | H : In _ (if ?b then _ else _) |- _ =>
      let E := fresh "E" in destruct b eqn:E
  | H : In _ [] |- _ => destruct H
  | H : In _ (_ :: _) |- _ => destruct H as [H | H]
  | H : _ \/ _ |- _ => destruct H
  | H : (_, _) = (_, _) |- _ => injection H as <- <-
  | H : (_ && _)%bool = true |- _ => apply andb_prop in H as [? ?]
  | H : in_range _ _ _ = true |- _ =>
      apply in_range_bounds in H; [simpl in H|lia]
  | H : is_digit _ = true |- _ => apply is_digit_bounds in H
  end.

Lemma match_m_bounds (s r : string) (v : Z) : In (v, r) (match_m s) -> 1 <= v <= 12.
Proof.
  unfold match_m. intros H.
  destruct s as [|a [|b s]]; simpl in H; crush_in; lia.
Qed.

Lemma match_d_bounds (s r : string) (v : Z) : In (v, r) (match_d s) -> 1 <= v <= 31.
Proof.
  unfold match_d. intros H.
  destruct s as [|a [|b s]]; simpl in H; crush_in; lia.
Qed.

Lemma match_Y_bounds (s r : string) (y : Z) : match_Y s = Some (y, r) -> 0 <= y <= 9999.
Proof.
  unfold match_Y. intros H.
  destruct s as [|a [|b [|c [|d s]]]]; try discriminate.
  destruct (is_digit a && is_digit b && is_digit c && is_digit d) eqn:E; [|discriminate].
  injection H as <- _. crush_in. lia.
Qed.

Lemma match_format_bounds (s r : string) (y m d : Z) :
  match_format s = Some (y, m, d, r) -> 0 <= y <= 9999 /\ 1 <= m <= 12 /\ 1 <= d <= 31.
Proof.
  unfold match_format. intros H.
  destruct (match_Y s) as [[y' [|h r1]]|] eqn:EY; try discriminate.
  destruct (Ascii.eqb h "-"); [|discriminate].
  apply TickerFacts.first_some_map_in in H as [[v r2] [Hin Hf]].
  simpl in Hf. destruct r2 as [|h' r3]; [discriminate|].
  destruct (Ascii.eqb h' "-"); [|discriminate].
  destruct (match_d r3) as [|[dv r4] rest] eqn:ED; [discriminate|].
  injection Hf as <- <- <- <-.
  split; [exact (match_Y_bounds _ _ _ EY)|].
  split; [exact (match_m_bounds _ _ _ Hin)|].
  apply (match_d_bounds r3 r4). rewrite ED. left. reflexivity.
Qed.

Lemma match_format_strftime (y m d : Z) :
  0 <= y <= 9999 -> 1 <= m <= 12 -> 1 <= d <= 31 ->
  match_format (strftime_ymd y m d) = Some (y, m, d, EmptyString).
Proof.
  intros Hy Hm Hd. unfold match_format, strftime_ymd.
  rewrite match_Y_strftime by lia.
  destruct (match_m_strftime m (String "-" (String (digit_char (d / 10))
             (String (digit_char (d mod 10)) EmptyString))) Hm) as [rest Em].
  destruct (match_d_strftime d EmptyString Hd) as [rest' Ed].
  cbv beta iota. rewrite Ascii.eqb_refl, Em.
  cbn [map first_some fold_right snd fst]. rewrite Ascii.eqb_refl, Ed. reflexivity.
Qed.

Lemma days_in_month_le_31 (y m : Z) : days_in_month y m <= 31.
Proof.
  unfold days_in_month.
  destruct (m =? 2); [destruct (is_leap y); lia|].
  destruct ((m =? 4) || (m =? 6) || (m =? 9) || (m =? 11)); lia.
Qed.

(** ** Theorems *)

(** [datetime.strptime(s, "%Y-%m-%d")] accepts every date written the
    way [strftime("%Y-%m-%d")] writes it (four-digit year, two-digit
    month and day) and gives that date back. *)
Theorem strptime_strftime (y m d : Z) :
  1000 <= y <= 9999 -> 1 <= m <= 12 -> 1 <= d <= days_in_month y m ->
  strptime_ymd (strftime_ymd y m d) = Some (y, m, d).
Proof.
  intros Hy Hm Hd. pose proof (days_in_month_le_31 y m).
  unfold strptime_ymd. rewrite match_format_strftime by lia.
  cbn [negb String.eqb].
  replace (1 <=? y) with true by (symmetry; apply Z.leb_le; lia).
  replace (d <=? days_in_month y m) with true by (symmetry; apply Z.leb_le; lia).
  reflexivity.
Qed.

(** whatever [strptime] accepts is a real calendar date: a year from 1
    to 9999, a month from 1 to 12 and a day within that month. *)
Theorem strptime_sound (s : string) (y m d : Z) :
  strptime_ymd s = Some (y, m, d) ->
  1 <= y <= 9999 /\ 1 <= m <= 12 /\ 1 <= d <= days_in_month y m.
Proof.
  unfold strptime_ymd. intros H.
  destruct (match_format s) as [[[[y' m'] d'] r]|] eqn:E; [|discriminate].
  destruct (negb (String.eqb r "")); [discriminate|].
  destruct ((1 <=? y') && (d' <=? days_in_month y' m')) eqn:Hc; [|discriminate].
  injection H as <- <- <-.
  apply andb_prop in Hc as [H1 H2]. apply Z.leb_le in H1, H2.
  destruct (match_format_bounds _ _ _ _ _ E) as (Hy & Hm & Hd). lia.
Qed.

Lemma strptime_strftime_witness :
  strptime_ymd (strftime_ymd 2024 2 29) = Some (2024, 2, 29).
Proof. apply strptime_strftime; vm_compute; split; discriminate. Defined.

Lemma strptime_sound_witness :
  strptime_ymd "2024-2-29" = Some (2024, 2, 29) /\
  1 <= 2024 <= 9999 /\ 1 <= 2 <= 12 /\ 1 <= 29 <= days_in_month 2024 2.
Proof.
  split; [vm_compute; reflexivity|]. apply (strptime_sound "2024-2-29"). vm_compute. reflexivity.
Defined.

Section MainRuns.
Variable today : string.
Variable DATA_DIR : string.
Variable collect : option (list string) -> string -> Z -> outcome (list record).
Variable save_to_excel : list record -> string -> string -> string -> outcome unit.

(** a [--date] that [strptime] rejects ends [main] with status 1
    before anything is collected or saved. *)
Theorem main_invalid_date (a : args) (d : string) :
  arg_date a = Some d -> d <> "" -> strptime_ymd d = None ->
  main today DATA_DIR collect save_to_excel a = ([], 1).
Proof.
  intros Ha Hne Hs. unfold main. rewrite Ha.
  apply String.eqb_neq in Hne. rewrite Hne, Hs. reflexivity.
Qed.

(** when it gets past the date check, [main] first calls
    [collect_insider_trades], once, with [--max-filings], the [--mode]
    or else ["watchlist"], and the [--tickers] upper-cased (which are
    then already upper case), or [None] without [--tickers]. *)
Theorem main_collect_call (a : args) :
  fst (main today DATA_DIR collect save_to_excel a) <> [] ->
  exists tk rest,
    fst (main today DATA_DIR collect save_to_excel a) =
      CallCollect tk (match arg_mode a with
                      | Some m => if String.eqb m "" then "watchlist" else m
                      | None => "watchlist" end) (arg_max_filings a) :: rest /\
    Forall (fun c => match c with CallCollect _ _ _ => False | _ => True end) rest /\
    match tk with
    | None => arg_tickers a = None \/ arg_tickers a = Some []
    | Some l => exists given, arg_tickers a = Some given /\ given <> [] /\
                  l = map upper given /\ Forall (fun t => upper t = t) l
    end.
Proof.
  unfold main. intros Hne.
  set (ds := match arg_date a with
             | Some d => if String.eqb d "" then Some today
                         else match strptime_ymd d with Some _ => Some d | None => None end
             | None => Some today end) in *.
  destruct ds as [ds|]; [|contradiction].
  destruct (arg_tickers a) as [[|g gs]|] eqn:Et;
    destruct (collect _ _ _) as [[|t ts]|e]; try destruct (save_to_excel _ _ _ _);
    cbn [fst]; do 2 eexists; (split; [reflexivity|]); (split; [repeat constructor|]).
  all: try (right; reflexivity); try (left; reflexivity).
  all: exists (g :: gs); split; [reflexivity|]; split; [discriminate|]; split; [reflexivity|];
    apply List.Forall_forall; intros x Hx; apply in_map_iff in Hx as [y [<- _]];
    apply ParseFacts.upper_idem.
Qed.

(** [main] calls [save_to_excel] only after [collect_insider_trades]
    returned at least one trade, with the title
    ["SEC Form 4 Insider Trades"], the file
    [DATA_DIR/insider-trades-<date>.xlsx] and the sheet [<date>], where
    [<date>] is the [--date] given (accepted by [strptime]) or, without
    one, today. *)
Theorem main_save_call (a : args) (p ti ds : string) :
  In (CallSave p ti ds) (fst (main today DATA_DIR collect save_to_excel a)) ->
  (exists tk md t ts, In (CallCollect tk md (arg_max_filings a))
                         (fst (main today DATA_DIR collect save_to_excel a)) /\
                      collect tk md (arg_max_filings a) = Ok (t :: ts)) /\
  p = path_join DATA_DIR ("insider-trades-" ++ ds ++ ".xlsx") /\
  ti = "SEC Form 4 Insider Trades" /\
  ((ds = today /\ (arg_date a = None \/ arg_date a = Some "")) \/
   (arg_date a = Some ds /\ ds <> "" /\ strptime_ymd ds <> None)).
Proof.
  unfold main. intros H.
  assert (Hds : forall ds', match arg_date a with
             | Some d => if String.eqb d "" then Some today
                         else match strptime_ymd d with Some _ => Some d | None => None end
             | None => Some today end = Some ds' ->
           (ds' = today /\ (arg_date a = None \/ arg_date a = Some "")) \/
           (arg_date a = Some ds' /\ ds' <> "" /\ strptime_ymd ds' <> None)).
  { intros ds' E. destruct (arg_date a) as [d|]; [|injection E as <-; auto].
    destruct (String.eqb d "") eqn:Ed.
    - apply String.eqb_eq in Ed. subst. injection E as <-. auto.
    - destruct (strptime_ymd d) eqn:Es; [|discriminate]. injection E as <-.
      apply String.eqb_neq in Ed. right. rewrite Es. repeat split; auto; discriminate. }
  destruct (match arg_date a with
             | Some d => if String.eqb d "" then Some today
                         else match strptime_ymd d with Some _ => Some d | None => None end
             | None => Some today end) as [ds'|]; [|destruct H].
  specialize (Hds ds' eq_refl).
  match goal with |- context [collect ?tk ?md (arg_max_filings a)] =>
    destruct (collect tk md (arg_max_filings a)) as [[|t ts]|e] eqn:Ec end;
    [simpl in H; intuition discriminate | | simpl in H; intuition discriminate].
  destruct (save_to_excel _ _ _ _); simpl in H;
    (destruct H as [H|[H|[]]]; [discriminate|injection H as <- <- <-]);
    (split; [do 4 eexists; split; [left; reflexivity | exact Ec]|]); auto.
Qed.

End MainRuns.

Lemma main_invalid_date_witness :
  main "2026-10-16" "data" (fun _ _ _ => Ok []) (fun _ _ _ _ => Ok tt)
       (Build_args (Some "2024-02-30") None None 10) = ([], 1).
Proof.
  apply (main_invalid_date _ _ _ _ _ "2024-02-30");
    [reflexivity | discriminate | vm_compute; reflexivity].
Defined.

Lemma main_collect_call_witness :
  exists tk rest,
    fst (main "2026-10-16" "data" (fun _ _ _ => Ok []) (fun _ _ _ _ => Ok tt)
           (Build_args None None (Some ["aapl"; "msft"]) 5)) =
      CallCollect tk "watchlist" 5 :: rest /\
    Forall (fun c => match c with CallCollect _ _ _ => False | _ => True end) rest /\
    match tk with
    | None => Some ["aapl"; "msft"] = None \/ Some ["aapl"; "msft"] = Some []
    | Some l => exists given, Some ["aapl"; "msft"] = Some given /\ given <> [] /\
                  l = map upper given /\ Forall (fun t => upper t = t) l
    end.
Proof. apply main_collect_call. vm_compute. discriminate. Defined.

Lemma main_save_call_witness :
  In (CallSave "data/insider-trades-2024-01-05.xlsx" "SEC Form 4 Insider Trades" "2024-01-05")
     (fst (main "2026-10-16" "data" (fun _ _ _ => Ok [∅]) (fun _ _ _ _ => Ok tt)
             (Build_args (Some "2024-01-05") None None 10))) /\
  "data/insider-trades-2024-01-05.xlsx" = path_join "data" ("insider-trades-" ++ "2024-01-05" ++ ".xlsx").
Proof.
  assert (H : In (CallSave "data/insider-trades-2024-01-05.xlsx" "SEC Form 4 Insider Trades" "2024-01-05")
     (fst (main "2026-10-16" "data" (fun _ _ _ => Ok [∅]) (fun _ _ _ _ => Ok tt)
             (Build_args (Some "2024-01-05") None None 10))))
    by (vm_compute; right; left; reflexivity).
  split; [exact H|].
  exact (proj1 (proj2 (main_save_call _ _ _ _ _ _ _ _ H))).
Defined.

End MainFacts.

Module ReportFacts.
Import Py Soup Parser Scraper Views Report Inputs.

Lemma filter_all {A} (f : A -> bool) (l : list A) :
  (forall x, In x l -> f x = true) -> List.filter f l = l.
Proof.
  induction l as [|a l IH]; intros H; [reflexivity|].
  simpl. rewrite (H a (or_introl eq_refl)). f_equal. apply IH. intros x Hx. apply H. now right.
Qed.

Lemma filter_sublist {A} (f : A -> bool) (l : list A) : sublist (List.filter f l) l.
Proof.
  induction l as [|a l IH]; [constructor|].
  simpl. destruct (f a); [apply sublist_skip | apply sublist_cons]; exact IH.
Qed.

Lemma map_sublist {A B} (f : A -> B) (l1 l2 : list A) :
  sublist l1 l2 -> sublist (map f l1) (map f l2).
Proof.
  induction 1; simpl; [constructor | apply sublist_skip | apply sublist_cons]; assumption.
Qed.

Lemma column_display_names :
  map (fun c => dict_get COLUMN_NAMES c c) (map fst COLUMN_NAMES) = map snd COLUMN_NAMES.
Proof. reflexivity. Qed.

Lemma column_display_inj (k v k' : string) :
  In (k, v) COLUMN_NAMES -> In k' (map fst COLUMN_NAMES) ->
  dict_get COLUMN_NAMES k' k' = v -> k' = k.
Proof.
  intros H1 H2 H3.
  assert (Hb : forallb (fun kv => forallb (fun k' =>
             negb (String.eqb (dict_get COLUMN_NAMES k' k') (snd kv)) || String.eqb k' (fst kv))
             (map fst COLUMN_NAMES)) COLUMN_NAMES = true) by reflexivity.
  rewrite forallb_forall in Hb. specialize (Hb _ H1).
  rewrite forallb_forall in Hb. specialize (Hb _ H2). cbn [fst snd] in Hb.
  rewrite H3, String.eqb_refl in Hb. simpl in Hb. apply String.eqb_eq. exact Hb.
Qed.

Lemma sheet_columns_full (trades : list record) :
  trades <> [] ->
  (forall t, In t trades -> forall k, In k (map fst COLUMN_NAMES) -> is_Some (t !! k)) ->
  sheet_columns trades = Some (map snd COLUMN_NAMES).
Proof.
  intros Hne H. destruct trades as [|t0 ts]; [congruence|].
  unfold sheet_columns. rewrite filter_all.
  - rewrite column_display_names. reflexivity.
  - intros k Hk. apply existsb_exists. exists t0. split; [now left|].
    apply bool_decide_eq_true. apply (H t0); [now left | exact Hk].
Qed.

Lemma parse_keys_present (soup : node) (url : string) (r : record) (k : string) :
  In r (parse_form4_xml soup url) ->
  In k ["transaction_code"; "transaction_type"; "shares"; "price_per_share";
        "total_value"; "shares_owned_after"; "ownership_type";
        "company"; "ticker"; "insider_name"; "insider_title"; "filing_url"] ->
  is_Some (r !! k).
Proof.
  intros H Hk. destruct (ParseFacts.parse_records_extra soup url r H) as (txn & kind & ->).
  unfold parse_transaction.
  destruct (txn_amounts txn) as [[s0 p] ad].
  rewrite !ParseFacts.update_is_some. simpl in *. tauto.
Qed.

Lemma column_keys_cases (k : string) :
  In k (map fst COLUMN_NAMES) ->
  k = "filing_date" \/
  In k ["transaction_code"; "transaction_type"; "shares"; "price_per_share";
        "total_value"; "shares_owned_after"; "ownership_type";
        "company"; "ticker"; "insider_name"; "insider_title"; "filing_url"].
Proof. simpl. intuition (subst; simpl; tauto). Qed.

Lemma insert_is_some (d : record) (k k' : string) (v : pyval) :
  is_Some (d !! k) -> is_Some (<[k' := v]> d !! k).
Proof.
  intros H. destruct (decide (k = k')) as [->|Hne].
  - rewrite lookup_insert_eq. eauto.
  - rewrite lookup_insert_ne by congruence. exact H.
Qed.

Lemma watch_trades_full (soup_of : string -> node) (net : string -> response)
    (ticker : string) (filings : list wl_filing) (t : record) :
  In t (fst (watch_filings soup_of net ticker filings)) ->
  forall k, In k (map fst COLUMN_NAMES) -> is_Some (t !! k).
Proof.
  rewrite CollectFacts.watch_filings_trades. intros Ht k Hk.
  apply in_flat_map in Ht as [f [_ Ht]]. unfold watch_contribution in Ht.
  destruct (fetch_form4_xml net (wf_url f)) as [xml|]; [|destruct Ht].
  apply in_map_iff in Ht as [r [<- Hr]]. unfold set_from_filing.
  destruct (column_keys_cases k Hk) as [->|Hk'].
  - rewrite lookup_insert_eq. eauto.
  - apply insert_is_some, insert_is_some. exact (parse_keys_present _ _ r k Hr Hk').
Qed.

Lemma date_trades_full (soup_of : string -> node) (net : string -> response)
    (cb : bool) (filings : list filing_ref) (t : record) :
  In t (fst (collect_all_form4_by_date soup_of net cb filings)) ->
  forall k, In k (map fst COLUMN_NAMES) -> is_Some (t !! k).
Proof.
  rewrite CollectFacts.collect_all_trades. intros Ht k Hk.
  apply in_flat_map in Ht as [f [_ Ht]]. unfold date_contribution in Ht.
  destruct (fetch_form4_xml net (fr_url f)) as [xml|]; [|destruct Ht].
  apply in_map_iff in Ht as [r [<- Hr]]. unfold fill_from_filing.
  destruct (column_keys_cases k Hk) as [->|Hk'].
  - rewrite lookup_insert_eq. eauto.
  - apply insert_is_some.
    pose proof (parse_keys_present _ _ r k Hr Hk') as Hs.
    repeat match goal with |- context [if ?b then _ else _] => destruct b end;
      repeat apply insert_is_some; exact Hs.
Qed.

Lemma collect_watchlist_full soup_of net sub_net (cik_map : string -> option string)
    (tickers : list string) (m : Z) (ts : list record) :
  fst (collect_watchlist soup_of net sub_net cik_map tickers m) = Ok ts ->
  forall t, In t ts -> forall k, In k (map fst COLUMN_NAMES) -> is_Some (t !! k).
Proof.
  revert ts. induction tickers as [|x rest IH]; intros ts H; simpl in H.
  - injection H as <-. intros t [].
  - destruct (collect_watchlist soup_of net sub_net cik_map rest m) as [o evs'] eqn:Er.
    simpl in IH.
    assert (Hrest : forall ws, (match o with Ok ts' => Ok (ws ++ ts')%list
                                             | Raised e => Raised e end) = Ok ts ->
                    (forall t, In t ws -> forall k, In k (map fst COLUMN_NAMES) ->
                               is_Some (t !! k)) ->
                    forall t, In t ts -> forall k, In k (map fst COLUMN_NAMES) ->
                              is_Some (t !! k)).
    { intros ws Ho Hws t Ht. destruct o as [ts'|e]; [|discriminate].
      injection Ho as <-. apply in_app_or in Ht as [Ht|Ht]; [exact (Hws t Ht) | exact (IH ts' eq_refl t Ht)]. }
    destruct (cik_map (upper x)) as [cik|]; [destruct (String.eqb cik "")|];
      [apply (Hrest []); [exact H | intros t []]| |apply (Hrest []); [exact H | intros t []]].
    destruct (sub_net (SEC_SUBMISSIONS_URL cik)) as [| |r];
      [apply (Hrest []); [exact H | intros t []] | discriminate|].
    destruct (form4_filings 0 (forms r) r cik (upper x)) as [fs|]; [|discriminate].
    pose proof (watch_trades_full soup_of net (upper x) (slice_upto fs m)) as Hw.
    destruct (watch_filings soup_of net (upper x) (slice_upto fs m)) as [ws evs].
    exact (Hrest ws H Hw).
Qed.

Lemma watchlist_run_full soup_of net sub_net py_str (cik_map : json) (tickers : list string)
    (m : Z) (ts : list record) :
  fst (watchlist_run soup_of net sub_net py_str cik_map tickers m) = Ok ts ->
  forall t, In t ts -> forall k, In k (map fst COLUMN_NAMES) -> is_Some (t !! k).
Proof.
  unfold watchlist_run. destruct cik_map; try apply collect_watchlist_full;
    destruct tickers; simpl; intros H; try discriminate; injection H as <-; intros t [].
Qed.

Lemma collect_call_full soup_of net sub_net json_load json_dump py_str dse recurse now w
    cache tickers mode m url (ts : list record) :
  (forall c tk ts', fst (fst (recurse c tk)) = Ok ts' ->
     forall t, In t ts' -> forall k, In k (map fst COLUMN_NAMES) -> is_Some (t !! k)) ->
  fst (fst (collect_call soup_of net sub_net json_load json_dump py_str dse recurse now w
              cache tickers mode m url)) = Ok ts ->
  forall t, In t ts -> forall k, In k (map fst COLUMN_NAMES) -> is_Some (t !! k).
Proof.
  intros Hr. unfold collect_call.
  destruct (fetch_ticker_to_cik_map json_load json_dump py_str net now w cache)
    as [[[cm|e] evm] cache1]; [|simpl; discriminate].
  destruct (String.eqb mode "watchlist").
  { pose proof (watchlist_run_full soup_of net sub_net py_str cm tickers m) as Hw.
    destruct (watchlist_run soup_of net sub_net py_str cm tickers m) as [o evs].
    exact (Hw ts). }
  destruct (String.eqb mode "latest");
    [|simpl; intros H; injection H as <-; intros t []].
  assert (Hfb : fst (fst (let '(o, evs', cache2) := recurse cache1 tickers in
                          (o, ((evm ++ [EvGet url]) ++ evs')%list, cache2))) = Ok ts ->
                forall t, In t ts -> forall k, In k (map fst COLUMN_NAMES) -> is_Some (t !! k)).
  { specialize (Hr cache1 tickers ts).
    destruct (recurse cache1 tickers) as [[o evs'] cache2]. exact Hr. }
  destruct (net url) as [|status body]; [exact Hfb|].
  destruct (raise_for_status status); [exact Hfb|].
  destruct (json_load body) as [data|]; [|exact Hfb].
  destruct (latest_scan dse data); simpl; intros H; [injection H as <-; intros t [] | discriminate].
Qed.

(** ** Theorems *)

(** the header [save_to_excel] writes: nothing for no trades;
    otherwise the display names of [COLUMN_NAMES] in its order, each at
    most once, and the display name of a configured column is there
    exactly when some trade has that key. *)
Theorem sheet_columns_spec (trades : list record) :
  match sheet_columns trades with
  | None => trades = []
  | Some cols =>
      trades <> [] /\ sublist cols (map snd COLUMN_NAMES) /\
      forall k v, In (k, v) COLUMN_NAMES ->
        (In v cols <-> exists t, In t trades /\ is_Some (t !! k))
  end.
Proof.
  unfold sheet_columns. destruct trades as [|t0 ts]; [reflexivity|].
  split; [discriminate|]. split.
  - rewrite <- column_display_names. apply map_sublist. apply filter_sublist.
  - intros k v Hkv. rewrite in_map_iff. split.
    + intros [k' [Hv Hin]]. apply filter_In in Hin as [Hin Hp].
      pose proof (column_display_inj k v k' Hkv Hin Hv) as ->.
      apply existsb_exists in Hp as [t [Ht Hs]]. apply bool_decide_eq_true in Hs. eauto.
    + intros [t [Ht Hs]]. exists k. split.
      * apply (in_map fst) in Hkv as Hk. simpl in Hk.
        pose proof Hkv as Hkv'. apply (in_map fst) in Hkv'.
        assert (Hb : forallb (fun kv => String.eqb (dict_get COLUMN_NAMES (fst kv) (fst kv)) (snd kv))
                       COLUMN_NAMES = true) by reflexivity.
        rewrite forallb_forall in Hb. specialize (Hb _ Hkv). cbn [fst snd] in Hb.
        apply String.eqb_eq. exact Hb.
      * apply filter_In. split; [apply (in_map fst) in Hkv; exact Hkv|].
        apply existsb_exists. exists t. split; [exact Ht|]. apply bool_decide_eq_true. exact Hs.
Qed.

(** every trade collected by either strategy carries every configured
    column: the trades of a [collect_insider_trades] run that returns,
    in any mode and through the latest-mode fallback, and those of
    [collect_all_form4_by_date]; so a non-empty collection is saved with
    all thirteen columns of [COLUMN_NAMES], in its order. *)
Theorem collected_sheet_columns :
  (forall soup_of net sub_net json_load json_dump py_str dse now1 now2 w1 w2 cache
          tickers mode m url ts,
     fst (fst (collect_insider_trades soup_of net sub_net json_load json_dump py_str dse
                 now1 now2 w1 w2 cache tickers mode m url)) = Ok ts ->
     (forall t, In t ts -> forall k, In k (map fst COLUMN_NAMES) -> is_Some (t !! k)) /\
     (ts <> [] -> sheet_columns ts = Some (map snd COLUMN_NAMES))) /\
  (forall soup_of net cb filings,
     let ts := fst (collect_all_form4_by_date soup_of net cb filings) in
     (forall t, In t ts -> forall k, In k (map fst COLUMN_NAMES) -> is_Some (t !! k)) /\
     (ts <> [] -> sheet_columns ts = Some (map snd COLUMN_NAMES))).
Proof.
  split.
  - intros until ts. intros H.
    assert (Hf : forall t, In t ts -> forall k, In k (map fst COLUMN_NAMES) -> is_Some (t !! k)).
    { revert H. unfold collect_insider_trades. apply collect_call_full.
      intros c tk ts'. apply collect_call_full.
      intros c' tk' ts''. simpl. intros E. injection E as <-. intros t []. }
    split; [exact Hf|]. intros Hne. exact (sheet_columns_full ts Hne Hf).
  - intros soup_of net cb filings ts.
    assert (Hf : forall t, In t ts -> forall k, In k (map fst COLUMN_NAMES) -> is_Some (t !! k))
      by exact (date_trades_full soup_of net cb filings).
    split; [exact Hf|]. intros Hne. exact (sheet_columns_full ts Hne Hf).
Qed.

Lemma collected_sheet_columns_witness :
  (forall t, In t (fst (collect_all_form4_by_date soup_purchase net_ok false
                          [Build_filing_ref "u" "AAPL" "Apple" "2024-01-02"])) ->
     forall k, In k (map fst COLUMN_NAMES) -> is_Some (t !! k)) /\
  match fst (fst (collect_insider_trades soup_purchase net_ok sub_net_aapl json_inputs
                    (fun _ => "map") (fun _ => "") "TypeError" (of_Z 60) (of_Z 60)
                    WriteOk WriteOk cache_aapl ["aapl"] "watchlist" 10 "")) with
  | Ok ts => sheet_columns ts = Some (map snd COLUMN_NAMES)
  | Raised _ => False
  end.
Proof.
  split.
  - exact (proj1 (proj2 collected_sheet_columns soup_purchase net_ok false
                    [Build_filing_ref "u" "AAPL" "Apple" "2024-01-02"])).
  - assert (Hl : match fst (fst (collect_insider_trades soup_purchase net_ok sub_net_aapl
                                  json_inputs (fun _ => "map") (fun _ => "") "TypeError"
                                  (of_Z 60) (of_Z 60) WriteOk WriteOk cache_aapl ["aapl"]
                                  "watchlist" 10 "")) with
                  | Ok ts => length ts
                  | Raised _ => 0%nat
                  end = 1%nat) by (vm_compute; reflexivity).
    destruct (fst (fst (collect_insider_trades soup_purchase net_ok sub_net_aapl json_inputs
                          (fun _ => "map") (fun _ => "") "TypeError" (of_Z 60) (of_Z 60)
                          WriteOk WriteOk cache_aapl ["aapl"] "watchlist" 10 "")))
      as [ts|e] eqn:Ho; [|discriminate Hl].
    apply (proj2 (proj1 collected_sheet_columns soup_purchase net_ok sub_net_aapl json_inputs
             (fun _ => "map") (fun _ => "") "TypeError" (of_Z 60) (of_Z 60) WriteOk WriteOk
             cache_aapl ["aapl"] "watchlist" 10 "" ts Ho)).
    intros ->. discriminate Hl.
Defined.

(** the dashboard's default range ends on the latest weekday on or
    before today (today itself on a weekday, the Friday before on a
    weekend) and starts four days earlier. *)
Theorem default_dates_latest_weekday (today : Z) :
  let '(s, e) := default_dates today in
  weekday e < 5 /\ e <= today /\ (forall o, e < o <= today -> 5 <= weekday o) /\
  s = e - 4.
Proof.
  unfold default_dates.
  destruct (weekday today =? 5) eqn:E5; [|destruct (weekday today =? 6) eqn:E6];
    rewrite ?Z.eqb_eq, ?Z.eqb_neq in *; unfold weekday in *;
    (split; [|split; [|split]]); try lia; try intros o Ho;
    Z.div_mod_to_equations; lia.
Qed.

End ReportFacts.
